(** * Travel Goals: a model of the moderation, registration, login,
      booking, review, listing and AI-assistant paths of [app.py] and
      [chatbot_service.py].

    The Flask handlers are embedded as functions from the request data, the
    session and the database contents to an HTTP reply and the new database
    contents.  Tables are lists of rows in insertion order; a [SELECT ...
    fetchone()] reads the first matching row, an [UPDATE] rewrites every
    matching row, a [DELETE] filters them out and an [INSERT] appends a row
    whose key is drawn from the table's sequence or, for the tables without
    a modelled sequence, is a parameter of the handler.  The language-model
    provider is an oracle that either raises or returns a response. *)

From Stdlib Require Import ZArith QArith Qround String Ascii List Bool Lia.
From stdpp Require Import gmap strings list pretty sorting.
Import ListNotations.

Set Warnings "-register-all".
Local Open Scope string_scope.
Local Open Scope Z_scope.

(** ** Python text operations

    Texts are byte strings.  Case mapping and white space follow Python on
    the ASCII range, which covers every keyword the sources search for. *)

Module Py.

Definition ascii_lower (c : ascii) : ascii :=
  let n := nat_of_ascii c in
  if ((65 <=? n)%nat && (n <=? 90)%nat)%bool then ascii_of_nat (n + 32) else c.

(** [str.lower()] *)
Fixpoint lower (s : string) : string :=
  match s with
  | EmptyString => EmptyString
  | String c s' => String (ascii_lower c) (lower s')
  end.

(** [s.startswith(p)] *)
Fixpoint startswith (p s : string) : bool :=
  match p, s with
  | EmptyString, _ => true
  | String _ _, EmptyString => false
  | String a p', String b s' => if Ascii.eqb a b then startswith p' s' else false
  end.

(** [sub in s] *)
Fixpoint contains (sub s : string) : bool :=
  if startswith sub s then true
  else match s with
       | EmptyString => false
       | String _ s' => contains sub s'
       end.

(** [str.isspace()] on one ASCII character: tab, line feed, vertical tab,
    form feed, carriage return, the four separators 28..31 and space. *)
Definition is_space (c : ascii) : bool :=
  let n := nat_of_ascii c in
  (((9 <=? n)%nat && (n <=? 13)%nat) || ((28 <=? n)%nat && (n <=? 32)%nat))%bool.

Fixpoint lstrip (s : string) : string :=
  match s with
  | EmptyString => EmptyString
  | String c s' => if is_space c then lstrip s' else s
  end.

Fixpoint rstrip (s : string) : string :=
  match s with
  | EmptyString => EmptyString
  | String c s' =>
      match rstrip s' with
      | EmptyString => if is_space c then EmptyString else String c EmptyString
      | t => String c t
      end
  end.

(** [str.strip()] *)
Definition strip (s : string) : string := rstrip (lstrip s).

(** Truth value of a text: [not s] holds of the empty text only. *)
Definition truthy_str (s : string) : bool :=
  match s with EmptyString => false | _ => true end.

(** [any(word in text for word in words)] *)
Definition any_in (words : list string) (text : string) : bool :=
  existsb (fun word => contains word text) words.

(** *** Python values, as [request.json] and the row dictionaries hold them *)

Inductive value :=
| VNone
| VBool (b : bool)
| VInt (z : Z)
| VFloat (q : Q)
| VStr (s : string)
| VList (items : list value)
| VDict (items : list (string * value)).

(** A dictionary with text keys: [d.get(k)] is [d !! k]. *)
Abbreviation dict := (gmap string value).

Inductive exn :=
| TypeError
| ValueError
| KeyError
| AttributeError
| IndexError.

(** A computation that returns or raises. *)
Inductive result (A : Type) :=
| Raise (e : exn)
| Ok (a : A).
Arguments Raise {A} e.
Arguments Ok {A} a.

Definition bind {A B} (m : result A) (k : A -> result B) : result B :=
  match m with
  | Raise e => Raise e
  | Ok a => k a
  end.

(** Truth value of an object, as [if v:] and [not v] take it. *)
Definition truthy (v : value) : bool :=
  match v with
  | VNone => false
  | VBool b => b
  | VInt z => negb (z =? 0)
  | VFloat q => negb (Qeq_bool q 0)
  | VStr s => truthy_str s
  | VList items => match items with [] => false | _ => true end
  | VDict items => match items with [] => false | _ => true end
  end.

(** [d.get(k)], with the missing key read as [None]. *)
Definition get (d : dict) (k : string) : value := default VNone (d !! k).

(** [d.get(k, dflt)] *)
Definition get_default (d : dict) (k : string) (dflt : value) : value :=
  default dflt (d !! k).

(** [v.strip()]: only a text has the method. *)
Definition strip_value (v : value) : result string :=
  match v with
  | VStr s => Ok (strip s)
  | _ => Raise AttributeError
  end.

(** [int(x)] on a float: truncation towards zero. *)
Definition trunc (q : Q) : Z := Z.quot (Qnum q) (Zpos (Qden q)).

(** *** Lines and replacement *)

Definition newline : ascii := ascii_of_nat 10.

(** [s.split('\n')]: never empty; a text without a line feed is one line. *)
Fixpoint split_lines (s : string) : list string :=
  match s with
  | EmptyString => [EmptyString]
  | String c s' =>
      if Ascii.eqb c newline then EmptyString :: split_lines s'
      else match split_lines s' with
           | line :: rest => String c line :: rest
           | [] => [String c EmptyString]
           end
  end.

(** ['\n'.join(lines)] *)
Definition join_lines (lines : list string) : string :=
  String.concat (String newline EmptyString) lines.

(** [s.replace(old, new)] for a non-empty [old]: occurrences are taken from
    left to right and do not overlap.  [skip] counts the characters of the
    occurrence just replaced that are still to be passed over. *)
Fixpoint replace_from (old new : string) (skip : nat) (s : string) : string :=
  match s with
  | EmptyString => EmptyString
  | String c s' =>
      match skip with
      | S k => replace_from old new k s'
      | O =>
          if startswith old s
          then new +:+ replace_from old new (String.length old - 1) s'
          else String c (replace_from old new 0 s')
      end
  end.

Definition replace (old new s : string) : string := replace_from old new 0 s.

End Py.

Notation "'let*' x ':=' m 'in' k" := (Py.bind m (fun x => k))
  (at level 10, x name, m at level 100, k at level 200).

(** ** The Python run time

    Library functions the handlers call and that are not part of the
    repository.  Every theorem below holds for all of them.  A float is
    given by its exact value; the rounding of binary floating point is not
    modelled. *)

Class Runtime := {
  (** [int(text)]; [None] when it raises [ValueError] *)
  int_of_str : string -> option Z;
  (** [float(text)]; [None] when it raises [ValueError] *)
  float_of_str : string -> option Q;
  (** [json.loads(text)]; [None] when it raises *)
  json_loads : string -> option Py.value;
  (** [f"{x:.1f}"] *)
  format_1f : Q -> string;
  (** [round(x, 1)] *)
  round_1 : Q -> Q;
  (** [werkzeug.security.check_password_hash(stored, password)];
      [None] when it raises *)
  check_password_hash : string -> string -> option bool;
  (** [werkzeug.security.generate_password_hash(password)] with the salt
      it draws *)
  generate_password_hash : string -> string -> string;
  (** [hashlib.sha256(password.encode()).hexdigest()] *)
  sha256_hexdigest : string -> string;
  (** Oracle's [TO_DATE(text, 'YYYY-MM-DD')]; [None] when it raises *)
  to_date : string -> option Z;
  (** Oracle's conversion of a bound text compared with a [NUMBER];
      [None] when it raises *)
  to_number : string -> option Q
}.

Section Conversions.
Context `{Runtime}.

(** [int(v)] *)
Definition py_int (v : Py.value) : Py.result Z :=
  match v with
  | Py.VBool b => Py.Ok (if b then 1 else 0)
  | Py.VInt z => Py.Ok z
  | Py.VFloat q => Py.Ok (Py.trunc q)
  | Py.VStr s => match int_of_str s with
                 | Some z => Py.Ok z
                 | None => Py.Raise Py.ValueError
                 end
  | _ => Py.Raise Py.TypeError
  end.

(** [float(v)] *)
Definition py_float (v : Py.value) : Py.result Q :=
  match v with
  | Py.VBool b => Py.Ok (if b then 1%Q else 0%Q)
  | Py.VInt z => Py.Ok (inject_Z z)
  | Py.VFloat q => Py.Ok q
  | Py.VStr s => match float_of_str s with
                 | Some q => Py.Ok q
                 | None => Py.Raise Py.ValueError
                 end
  | _ => Py.Raise Py.TypeError
  end.

End Conversions.

(** ** The language-model provider *)

Module Provider.

(** One tool call of a completion: the JSON text of its arguments. *)
Record ToolCall := { arguments : string }.

(** [response.choices[i].message]: [content] may be [None]. *)
Record Message := { content : option string; tool_calls : list ToolCall }.

(** The provider's answer; [None] stands for a false response object. *)
Record Response := { choices : list Message }.

Inductive Outcome :=
| Raises
| Returns (response : option Response).

End Provider.

Module Chatbot.
Import Provider.

(** What a completion request is built from.  The prompt text is a
    function of these inputs, so a provider that reads the prompt is a
    provider that reads them. *)
Inductive Call :=
| ChatCompletion (model : string) (destinations packages : list Py.dict)
    (conversation_history : Py.value) (user_message : string)
| Recommendation (model : string) (preferences : Py.dict)
    (available_packages : list Py.dict)
| IntentExtraction (model : string) (user_query : string)
| ReviewSummary (model : string) (package_name : string) (ratings : list Z).

(** [client.chat.completions.create] *)
Definition Client := Call -> Outcome.

(** [class TravelChatbot] *)
Record TravelChatbot := {
  client : option Client;
  model : string;
  initialized : bool
}.

(** [TravelChatbot.__init__], from the module-level [client], which is
    [None] when [GROQ_API_KEY] is absent or the constructor raised. *)
Definition init (module_client : option Client) : TravelChatbot :=
  {| client := module_client;
     model := "llama-3.3-70b-versatile";
     initialized := match module_client with Some _ => true | None => false end |}.

(** [not self.initialized or not self.client] *)
Definition unavailable (self : TravelChatbot) : bool :=
  negb (initialized self)
  || negb (match client self with Some _ => true | None => false end).

(** The dictionary [chat] returns. *)
Record ChatReply := { success : bool; message : string }.

(** The [except] branch of [chat]: a reply chosen by keyword. *)
Definition chat_fallback (user_message : string) : ChatReply :=
  let user_lower := Py.lower user_message in
  if Py.any_in ["book"; "booking"; "reserve"] user_lower then
    {| success := true;
       message := "✈️ To make a booking, please visit our Contact/Booking page where you can submit your travel details. Our team will get back to you within 24 hours!" |}
  else if Py.any_in ["price"; "cost"; "how much"; "cheap"; "budget"] user_lower then
    {| success := true;
       message := "💰 Our packages range from $900 to $2500+ depending on destination and duration. Visit the Packages page to see all options with detailed pricing!" |}
  else if Py.any_in ["destination"; "where"; "place"; "country"] user_lower then
    {| success := true;
       message := "🌍 We offer amazing destinations including Paris, Tokyo, Dubai, Bali, Barcelona, London, and more! Check our Destinations page for the full list." |}
  else
    {| success := false;
       message := "Sorry, I encountered a temporary issue. Please try again in a moment." |}.

Definition chat_unavailable : ChatReply :=
  {| success := false;
     message := "Chat service is currently unavailable. Please try again later." |}.

Definition chat_empty : ChatReply :=
  {| success := false; message := "Please enter a message." |}.

Definition chat_no_choice : ChatReply :=
  {| success := false;
     message := "I couldn't generate a response. Please try again." |}.

(** [items[-n:]] *)
Definition last_n {A} (n : nat) (items : list A) : list A :=
  skipn (length items - n) items.

(** What [chat] reads inside its [try] before the provider is called.
    [get_system_prompt] joins the names of the first fifteen destinations,
    which must be texts.  A history that is true is sliced and the last ten
    of its items are read through [.get]: only a list can be sliced into
    items, and only an object has [.get]. *)
Definition chat_messages (destinations : list Py.dict)
    (conversation_history : Py.value) : Py.result unit :=
  if forallb (fun d => match Py.get_default d "name" (Py.VStr "Unknown") with
                       | Py.VStr _ => true
                       | _ => false
                       end) (take 15 destinations) then
    if Py.truthy conversation_history then
      match conversation_history with
      | Py.VList items =>
          if forallb (fun msg => match msg with Py.VDict _ => true | _ => false end)
               (last_n 10 items)
          then Py.Ok tt
          else Py.Raise Py.AttributeError
      | Py.VStr _ => Py.Raise Py.AttributeError
      | _ => Py.Raise Py.TypeError
      end
    else Py.Ok tt
  else Py.Raise Py.TypeError.

(** [TravelChatbot.chat].  Everything from the prompt to the reading of
    the first choice runs inside the [try]; whatever raises there ends in
    [chat_fallback]. *)
Definition chat (self : TravelChatbot) (user_message : string)
    (destinations packages : option (list Py.dict))
    (conversation_history : Py.value) : ChatReply :=
  if unavailable self then chat_unavailable
  else if negb (Py.truthy_str user_message)
          || negb (Py.truthy_str (Py.strip user_message)) then chat_empty
  else
    let destinations := default [] destinations in
    let packages := default [] packages in
    match client self with
    | None => chat_unavailable
    | Some create =>
        match chat_messages destinations conversation_history with
        | Py.Raise _ => chat_fallback user_message
        | Py.Ok _ =>
            match create (ChatCompletion (model self) destinations packages
                            conversation_history user_message) with
            | Raises => chat_fallback user_message
            | Returns None => chat_no_choice
            | Returns (Some response) =>
                match choices response with
                | [] => chat_no_choice
                | first :: _ =>
                    match content first with
                    | Some text => {| success := true; message := Py.strip text |}
                    | None => chat_fallback user_message
                    end
                end
            end
        end
    end.

(** [TravelChatbot.get_quick_replies] *)
Definition get_quick_replies (self : TravelChatbot) (context : option string)
    : list string :=
  let default_replies :=
    [ "🏖️ Beach destinations";
      "🏔️ Adventure trips";
      "💰 Budget-friendly options";
      "✈️ How to book?";
      "📦 Popular packages" ] in
  if Py.truthy_str (default "" context) then
    let context_lower := Py.lower (default "" context) in
    if Py.contains "paris" context_lower || Py.contains "europe" context_lower then
      [ "Paris packages"; "Best time to visit"; "London trips";
        "Barcelona tours"; "How to book?" ]
    else if Py.contains "tokyo" context_lower || Py.contains "japan" context_lower
            || Py.contains "asia" context_lower then
      [ "Tokyo packages"; "Bali beaches"; "Dubai luxury";
        "Best time to visit"; "How to book?" ]
    else if Py.contains "beach" context_lower || Py.contains "tropical" context_lower then
      [ "Bali packages"; "Maldives trips"; "Hawaii tours";
        "Miami beaches"; "Budget options" ]
    else default_replies
  else default_replies.

(** *** Recommendation *)

(** [v[:100]] is defined on texts and lists. *)
Definition sliceable (v : Py.value) : bool :=
  match v with
  | Py.VStr _ | Py.VList _ => true
  | _ => false
  end.

Definition is_str (v : Py.value) : bool :=
  match v with Py.VStr _ => true | _ => false end.

(** [', '.join(v)] is defined on an iterable of texts. *)
Definition joinable (v : Py.value) : bool :=
  match v with
  | Py.VStr _ => true
  | Py.VList items => forallb is_str items
  | Py.VDict _ => true
  | _ => false
  end.

(** The prompt of [recommend_packages] is built before its [try]: the
    slice of a description and the join of the interests may raise. *)
Definition recommendation_prompt (preferences : Py.dict)
    (available_packages : list Py.dict) : Py.result unit :=
  if forallb (fun p => sliceable (Py.get_default p "description" (Py.VStr "N/A")))
       (take 25 available_packages)
  then if joinable (Py.get_default preferences "interests" (Py.VList [Py.VStr "Any"]))
       then Py.Ok tt
       else Py.Raise Py.TypeError
  else Py.Raise Py.TypeError.

(** [d.get(k, dflt)] on a parsed JSON object *)
Fixpoint assoc_get (items : list (string * Py.value)) (k : string)
    (dflt : Py.value) : Py.value :=
  match items with
  | [] => dflt
  | (k', v) :: rest => if String.eqb k' k then v else assoc_get rest k dflt
  end.

Section WithRuntime.
Context `{Runtime}.

(** [TravelChatbot.recommend_packages] *)
Definition recommend_packages (self : TravelChatbot) (preferences : Py.dict)
    (available_packages : list Py.dict) : Py.result Py.value :=
  if unavailable self then Py.Ok (Py.VList [])
  else
    match client self with
    | None => Py.Ok (Py.VList [])
    | Some create =>
        let* _ := recommendation_prompt preferences available_packages in
        Py.Ok
          match create (Recommendation (model self) preferences available_packages) with
          | Raises => Py.VList []
          | Returns None => Py.VList []
          | Returns (Some response) =>
              match choices response with
              | [] => Py.VList []
              | first :: _ =>
                  match content first with
                  | None => Py.VList []
                  | Some text =>
                      match json_loads (Py.strip text) with
                      | Some (Py.VDict recommendations_data) =>
                          assoc_get recommendations_data "recommendations" (Py.VList [])
                      | _ => Py.VList []
                      end
                  end
              end
          end
    end.

(** [TravelChatbot.extract_booking_intent]; the whole body after the
    guard runs inside the [try]. *)
Definition extract_booking_intent (self : TravelChatbot) (user_query : string)
    : option Py.dict :=
  if unavailable self then None
  else
    match client self with
    | None => None
    | Some create =>
        match create (IntentExtraction (model self) user_query) with
        | Raises => None
        | Returns None => None
        | Returns (Some response) =>
            match choices response with
            | [] => None
            | message :: _ =>
                match tool_calls message with
                | [] => None
                | function_call :: _ =>
                    match json_loads (arguments function_call) with
                    | Some (Py.VDict args) =>
                        Some (list_to_map
                          [ ("destination_type", assoc_get args "destination_type" (Py.VStr "Any"));
                            ("destination_name", assoc_get args "destination_name" (Py.VStr ""));
                            ("duration_days", assoc_get args "duration_days" Py.VNone);
                            ("adults", assoc_get args "adults" (Py.VInt 1));
                            ("children", assoc_get args "children" (Py.VInt 0));
                            ("infants", assoc_get args "infants" (Py.VInt 0));
                            ("max_budget", assoc_get args "max_budget" Py.VNone);
                            ("preferred_month", assoc_get args "preferred_month" (Py.VStr ""));
                            ("interests", assoc_get args "interests" (Py.VList [])) ])
                    | _ => None
                    end
                end
            end
        end
    end.

(** *** Review summaries *)

(** One element of [reviews]: the dictionary [{'rating': n}]. *)
Record Review := { rating : Z }.

Definition no_reviews_yet : Py.dict :=
  list_to_map
    [ ("summary", Py.VStr "No reviews yet. Be the first to share your experience!");
      ("sentiment", Py.VStr "neutral");
      ("key_points", Py.VList []) ].

Definition few_reviews (reviews : list Review) : Py.dict :=
  list_to_map
    [ ("summary", Py.VStr ("Based on " +:+ pretty (Z.of_nat (length reviews))
                           +:+ " initial rating(s). Not enough data for AI deep-dive."));
      ("sentiment", Py.VStr "neutral");
      ("key_points",
        Py.VList (map (fun r => Py.VStr ("Recent Customer Rating: "
                                         +:+ pretty (rating r) +:+ "/5")) reviews));
      ("pros", Py.VList [Py.VStr "Growing interest"]);
      ("cons", Py.VList []) ].

(** [sum(float(r['rating']) for r in reviews) / len(reviews)] *)
Definition avg_rating (reviews : list Review) : Q :=
  Qdiv (inject_Z (fold_right Z.add 0 (map rating reviews)))
       (inject_Z (Z.of_nat (length reviews))).

(** The [except] branch of [summarize_reviews]. *)
Definition summary_fallback (reviews : list Review) : Py.dict :=
  list_to_map
    [ ("summary", Py.VStr ("Based on " +:+ pretty (Z.of_nat (length reviews))
                           +:+ " reviews (avg " +:+ format_1f (avg_rating reviews)
                           +:+ "/5). Check individual reviews for details."));
      ("sentiment", Py.VStr "mixed");
      ("key_points", Py.VList []);
      ("total_reviews", Py.VInt (Z.of_nat (length reviews)));
      ("avg_rating", Py.VFloat (round_1 (avg_rating reviews))) ].

(** [ratings_chart[int(r['rating'])] += 1] needs a key of 1..5. *)
Definition chartable (r : Review) : bool := (1 <=? rating r) && (rating r <=? 5).

(** [TravelChatbot.summarize_reviews] *)
Definition summarize_reviews (self : TravelChatbot) (reviews : list Review)
    (package_name : string) : Py.result Py.dict :=
  if unavailable self then Py.Ok no_reviews_yet
  else if (length reviews =? 0)%nat then Py.Ok no_reviews_yet
  else if (length reviews <=? 2)%nat then Py.Ok (few_reviews reviews)
  else if negb (forallb chartable reviews) then Py.Raise Py.KeyError
  else
    match client self with
    | None => Py.Ok no_reviews_yet
    | Some create =>
        Py.Ok
          match create (ReviewSummary (model self) package_name (map rating reviews)) with
          | Raises => summary_fallback reviews
          | Returns None => summary_fallback reviews
          | Returns (Some response) =>
              match choices response with
              | [] => summary_fallback reviews
              | first :: _ =>
                  match content first with
                  | None => summary_fallback reviews
                  | Some text =>
                      match json_loads text with
                      | Some (Py.VDict summary_data) =>
                          <["avg_rating" := Py.VFloat (round_1 (avg_rating reviews))]>
                            (<["total_reviews" := Py.VInt (Z.of_nat (length reviews))]>
                               (list_to_map summary_data))
                      | _ => summary_fallback reviews
                      end
                  end
              end
          end
    end.

End WithRuntime.

(** *** Descriptions

    The prompt of this method is abstracted as those of the other calls
    are.  [create] is [self.client.chat.completions.create] on the call of
    the method, as a function of what its prompt is built from. *)

(** The dictionary [generate_description] returns: a description, a fixed
    error, or an error that is [prefix] followed by the text of the
    exception. *)
Inductive Description :=
| Described (description : string)
| NotDescribed (error : string)
| DescriptionFailed (prefix : string).

Definition preambles : list string :=
  ["Here is"; "Here's"; "Description:"; "Sure!"; "Certainly!"].

(** The loop over the preambles: at the first one the text starts with,
    whatever its case, the first line is dropped when there is a second
    one, and the loop ends. *)
Fixpoint drop_preamble (preambles : list string) (description : string) : string :=
  match preambles with
  | [] => description
  | preamble :: others =>
      if Py.startswith (Py.lower preamble) (Py.lower description) then
        match Py.split_lines description with
        | _ :: ((_ :: _) as rest) => Py.strip (Py.join_lines rest)
        | _ => description
        end
      else drop_preamble others description
  end.

(** [description.replace('**', '').replace('*', '')] *)
Definition strip_markdown (description : string) : string :=
  Py.replace "*" "" (Py.replace "**" "" description).

(** [TravelChatbot.generate_description].  The prompt is built before the
    [try] and calls [description_type.title()], which only a text has. *)
Definition generate_description (self : TravelChatbot)
    (create : string -> string -> Py.value -> Py.value -> Outcome)
    (name country : string) (description_type additional_context : Py.value)
    : Py.result Description :=
  if unavailable self then
    Py.Ok (NotDescribed "AI service is currently unavailable. Please try again later.")
  else if negb (Py.truthy_str name) || negb (Py.truthy_str country) then
    Py.Ok (NotDescribed "Please provide both destination name and country.")
  else
    match description_type with
    | Py.VStr _ =>
        Py.Ok
          match create name country description_type additional_context with
          | Raises => DescriptionFailed "Error generating description: "
          | Returns None =>
              NotDescribed "Could not generate description. Please try again."
          | Returns (Some response) =>
              match choices response with
              | [] => NotDescribed "Could not generate description. Please try again."
              | first :: _ =>
                  match content first with
                  | None => DescriptionFailed "Error generating description: "
                  | Some text =>
                      Described (strip_markdown (drop_preamble preambles (Py.strip text)))
                  end
              end
          end
    | _ => Py.Raise Py.AttributeError
    end.

End Chatbot.

(** ** The database *)

Module Db.

(** Modelled from the spec: the table declarations (the schema) are not
    among the sources.  A table has the columns the SQL statements of
    [app.py] name for it; columns that only the schema's defaults fill
    ([created_at], [submitted_at]) and the payment columns no modelled
    handler touches are left out.  Constraints the schema may declare are
    not modelled: an execution here is one in which no statement raises a
    constraint error. *)
Record User := {
  u_user_id : Z;
  u_username : string;
  u_email : string;
  u_password_hash : string;
  u_full_name : string;
  u_phone : string;
  u_role_id : Z;
  u_is_active : Z;
  u_last_login : option Z
}.

(** Modelled from the spec: [user_roles] holds the role associations.
    [login] and [register] read it by [role_id] and [role_name],
    [reject_vendor] deletes from it by [user_id]. *)
Record UserRole := {
  ur_role_id : Z;
  ur_role_name : string;
  ur_user_id : option Z
}.

Record VendorProfile := {
  vp_vendor_id : Z;
  vp_user_id : Z;
  vp_company_name : string;
  vp_business_license : string;
  vp_rating : option Q;
  vp_verification_status : string;
  vp_image_url : option string
}.

Record Destination := {
  d_destination_id : Z;
  d_name : string;
  d_country : string;
  d_description : string;
  d_image_url : option string
}.

Record PendingDestination := {
  pd_pending_id : Z;
  pd_vendor_id : option Z;
  pd_name : string;
  pd_country : string;
  pd_description : string;
  pd_image_url : option string;
  pd_status : string;
  pd_reviewed_at : option Z;
  pd_reviewed_by : option Z
}.

Record Package := {
  p_package_id : Z;
  p_vendor_id : option Z;
  p_destination_id : option Z;
  p_name : option string;
  p_description : option string;
  p_duration_days : option Z;
  p_max_travelers : option Z;
  p_includes : option string;
  p_image_url : option string;
  p_adult_price : option Q;
  p_child_price : option Q;
  p_infant_price : option Q;
  p_economy_adult_price : option Q;
  p_economy_child_price : option Q;
  p_economy_infant_price : option Q;
  p_business_adult_price : option Q;
  p_business_child_price : option Q;
  p_business_infant_price : option Q;
  p_is_active : Z
}.

Record PendingPackage := {
  pp_pending_pkg_id : Z;
  pp_vendor_id : option Z;
  pp_destination_id : option Z;
  pp_name : option string;
  pp_description : option string;
  pp_duration_days : option Z;
  pp_max_travelers : option Z;
  pp_includes : option string;
  pp_image_url : option string;
  pp_adult_price : option Q;
  pp_child_price : option Q;
  pp_infant_price : option Q;
  pp_economy_adult_price : option Q;
  pp_economy_child_price : option Q;
  pp_economy_infant_price : option Q;
  pp_business_adult_price : option Q;
  pp_business_child_price : option Q;
  pp_business_infant_price : option Q;
  pp_status : string;
  pp_reviewed_at : option Z;
  pp_reviewed_by : option Z
}.

Record Booking := {
  b_booking_id : Z;
  b_user_id : Z;
  b_package_id : Z;
  b_from_location : string;
  b_to_location : string;
  b_departure_date : Z;
  b_departure_time : string;
  b_return_date : option Z;
  b_return_time : option string;
  b_preferred_airline : Py.value;
  b_preferred_seating : Py.value;
  b_num_adults : Z;
  b_num_children : Z;
  b_num_infants : Z;
  b_num_travelers : Z;
  b_fare_type : Py.value;
  b_message : string;
  b_total_price : Q;
  b_customer_full_name : string;
  b_customer_phone : string;
  b_customer_email : string;
  b_status : string;
  b_booking_date : Z
}.

Record Review := {
  r_review_id : Z;
  r_package_id : Z;
  r_user_id : option Z;
  r_user_name : string;
  r_rating : Z
}.

(** The committed contents, with the next value of each key sequence. *)
Record t := {
  users : list User;
  user_roles : list UserRole;
  vendor_profiles : list VendorProfile;
  destinations : list Destination;
  pending_destinations : list PendingDestination;
  packages : list Package;
  pending_packages : list PendingPackage;
  bookings : list Booking;
  reviews : list Review;
  destination_seq : Z;
  package_seq : Z;
  booking_seq : Z;
  review_id_seq : Z
}.

(** *** Writing one table *)

Definition with_users (v : list User) (db : t) : t :=
  {| users := v; user_roles := user_roles db;
     vendor_profiles := vendor_profiles db; destinations := destinations db;
     pending_destinations := pending_destinations db; packages := packages db;
     pending_packages := pending_packages db; bookings := bookings db;
     reviews := reviews db; destination_seq := destination_seq db;
     package_seq := package_seq db; booking_seq := booking_seq db;
     review_id_seq := review_id_seq db |}.

Definition with_user_roles (v : list UserRole) (db : t) : t :=
  {| users := users db; user_roles := v;
     vendor_profiles := vendor_profiles db; destinations := destinations db;
     pending_destinations := pending_destinations db; packages := packages db;
     pending_packages := pending_packages db; bookings := bookings db;
     reviews := reviews db; destination_seq := destination_seq db;
     package_seq := package_seq db; booking_seq := booking_seq db;
     review_id_seq := review_id_seq db |}.

Definition with_vendor_profiles (v : list VendorProfile) (db : t) : t :=
  {| users := users db; user_roles := user_roles db;
     vendor_profiles := v; destinations := destinations db;
     pending_destinations := pending_destinations db; packages := packages db;
     pending_packages := pending_packages db; bookings := bookings db;
     reviews := reviews db; destination_seq := destination_seq db;
     package_seq := package_seq db; booking_seq := booking_seq db;
     review_id_seq := review_id_seq db |}.

(** [INSERT INTO destinations]: the key comes from the sequence. *)
Definition with_destinations (v : list Destination) (seq : Z) (db : t) : t :=
  {| users := users db; user_roles := user_roles db;
     vendor_profiles := vendor_profiles db; destinations := v;
     pending_destinations := pending_destinations db; packages := packages db;
     pending_packages := pending_packages db; bookings := bookings db;
     reviews := reviews db; destination_seq := seq;
     package_seq := package_seq db; booking_seq := booking_seq db;
     review_id_seq := review_id_seq db |}.

Definition with_pending_destinations (v : list PendingDestination) (db : t) : t :=
  {| users := users db; user_roles := user_roles db;
     vendor_profiles := vendor_profiles db; destinations := destinations db;
     pending_destinations := v; packages := packages db;
     pending_packages := pending_packages db; bookings := bookings db;
     reviews := reviews db; destination_seq := destination_seq db;
     package_seq := package_seq db; booking_seq := booking_seq db;
     review_id_seq := review_id_seq db |}.

Definition with_packages (v : list Package) (seq : Z) (db : t) : t :=
  {| users := users db; user_roles := user_roles db;
     vendor_profiles := vendor_profiles db; destinations := destinations db;
     pending_destinations := pending_destinations db; packages := v;
     pending_packages := pending_packages db; bookings := bookings db;
     reviews := reviews db; destination_seq := destination_seq db;
     package_seq := seq; booking_seq := booking_seq db;
     review_id_seq := review_id_seq db |}.

Definition with_pending_packages (v : list PendingPackage) (db : t) : t :=
  {| users := users db; user_roles := user_roles db;
     vendor_profiles := vendor_profiles db; destinations := destinations db;
     pending_destinations := pending_destinations db; packages := packages db;
     pending_packages := v; bookings := bookings db;
     reviews := reviews db; destination_seq := destination_seq db;
     package_seq := package_seq db; booking_seq := booking_seq db;
     review_id_seq := review_id_seq db |}.

Definition with_bookings (v : list Booking) (seq : Z) (db : t) : t :=
  {| users := users db; user_roles := user_roles db;
     vendor_profiles := vendor_profiles db; destinations := destinations db;
     pending_destinations := pending_destinations db; packages := packages db;
     pending_packages := pending_packages db; bookings := v;
     reviews := reviews db; destination_seq := destination_seq db;
     package_seq := package_seq db; booking_seq := seq;
     review_id_seq := review_id_seq db |}.

Definition with_reviews (v : list Review) (seq : Z) (db : t) : t :=
  {| users := users db; user_roles := user_roles db;
     vendor_profiles := vendor_profiles db; destinations := destinations db;
     pending_destinations := pending_destinations db; packages := packages db;
     pending_packages := pending_packages db; bookings := bookings db;
     reviews := v; destination_seq := destination_seq db;
     package_seq := package_seq db; booking_seq := booking_seq db;
     review_id_seq := seq |}.

(** SQL [a = b] on a nullable column: never true of [NULL]. *)
Definition eq_null (a b : option Z) : bool :=
  match a, b with
  | Some x, Some y => x =? y
  | _, _ => false
  end.

(** [UPDATE t SET ... WHERE cond] *)
Definition update {A} (cond : A -> bool) (set : A -> A) (rows : list A) : list A :=
  map (fun row => if cond row then set row else row) rows.

(** [DELETE FROM t WHERE cond] *)
Definition delete {A} (cond : A -> bool) (rows : list A) : list A :=
  List.filter (fun row => negb (cond row)) rows.

(** [SELECT ... WHERE cond] followed by [fetchone()] *)
Definition fetchone {A} (cond : A -> bool) (rows : list A) : option A :=
  List.find cond rows.

End Db.

(** ** The Flask application *)

Module App.
Import Db.

(** The keys [login] stores in the signed session cookie. *)
Record Session := {
  s_user_id : option Z;
  s_username : option string;
  s_email : option string;
  s_full_name : option string;
  s_role : option string;
  s_vendor_id : option Z
}.

(** What a handler reads besides the database: the session, the JSON
    object of the body, the query string, whether [get_db_connection]
    hands out a connection, the clock and the salt of a fresh hash. *)
Record Request := {
  session : Session;
  json : Py.dict;
  args : gmap string string;
  pool : bool;
  now : Z;
  salt : string
}.

(** The JSON object of a response.  [Failure prefix] is a
    [success: False] whose message is [prefix] followed by the text of
    the exception. *)
Inductive Body :=
| Message (success : bool) (message : string)
| Failure (prefix : string)
| Packages (packages : list Py.dict)
| BookingCreated (message : string) (booking_id : Z) (total_price : Q)
    (package_name : option string)
| LoggedIn (message redirect : string) (user_id : Z) (username email full_name role : string)
| Suggestions (suggestions : list string)
| Chat (reply : Chatbot.ChatReply).

(** [jsonify(...), status] *)
Definition Reply : Type := Body * Z.

Definition Handler : Type := Request -> Db.t -> Reply * Db.t.

Definition connection_failed : Reply :=
  (Message false "Database connection failed", 500).

(** *** Role gates.  Every modelled route lies under [/api/]. *)

Definition login_required (f : Handler) : Handler :=
  fun req db =>
    match s_user_id (session req) with
    | None => ((Message false "Login required", 401), db)
    | Some _ => f req db
    end.

Definition admin_required (f : Handler) : Handler :=
  fun req db =>
    match s_user_id (session req) with
    | None => ((Message false "Authentication required", 401), db)
    | Some _ =>
        if negb (bool_decide (s_role (session req) = Some "admin")) then
          ((Message false "Admin access required", 403), db)
        else f req db
    end.

Definition vendor_required (f : Handler) : Handler :=
  fun req db =>
    match s_user_id (session req) with
    | None => ((Message false "Login required", 401), db)
    | Some _ =>
        if negb (bool_decide (s_role (session req) = Some "vendor")
                 || bool_decide (s_role (session req) = Some "admin")) then
          ((Message false "Vendor access required", 403), db)
        else f req db
    end.

(** *** Vendor moderation *)

(** [POST /api/admin/reject-vendor/<vendor_id>] *)
Definition reject_vendor (vendor_id : Z) : Handler :=
  admin_required (fun req db =>
    if negb (pool req) then (connection_failed, db)
    else
      match fetchone (fun vp => vp_vendor_id vp =? vendor_id) (vendor_profiles db) with
      | None => ((Message false "Vendor not found", 404), db)
      | Some result =>
          let user_id := vp_user_id result in
          let db := with_vendor_profiles
                      (delete (fun vp => vp_vendor_id vp =? vendor_id)
                         (vendor_profiles db)) db in
          let db := with_user_roles
                      (delete (fun ur => eq_null (ur_user_id ur) (Some user_id))
                         (user_roles db)) db in
          let db := with_users
                      (delete (fun u => u_user_id u =? user_id) (users db)) db in
          ((Message true "Vendor rejected and removed", 200), db)
      end).

(** *** Destination moderation *)

Definition review_destination (status : string) (req : Request)
    (pd : PendingDestination) : PendingDestination :=
  {| pd_pending_id := pd_pending_id pd; pd_vendor_id := pd_vendor_id pd;
     pd_name := pd_name pd; pd_country := pd_country pd;
     pd_description := pd_description pd; pd_image_url := pd_image_url pd;
     pd_status := status; pd_reviewed_at := Some (now req);
     pd_reviewed_by := s_user_id (session req) |}.

(** [POST /api/admin/approve-destination/<pending_id>] *)
Definition approve_destination (pending_id : Z) : Handler :=
  admin_required (fun req db =>
    if negb (pool req) then (connection_failed, db)
    else
      match fetchone (fun pd => (pd_pending_id pd =? pending_id)
                                && String.eqb (pd_status pd) "pending")
              (pending_destinations db) with
      | None => ((Message false "Destination not found", 404), db)
      | Some result =>
          let '(vendor_id, name, country, description, image_url) :=
            (pd_vendor_id result, pd_name result, pd_country result,
             pd_description result, pd_image_url result) in
          let db := with_destinations
                      (destinations db ++
                         [ {| d_destination_id := destination_seq db;
                              d_name := name; d_country := country;
                              d_description := description;
                              d_image_url := image_url |} ])
                      (destination_seq db + 1) db in
          let db := with_pending_destinations
                      (update (fun pd => pd_pending_id pd =? pending_id)
                         (review_destination "approved" req)
                         (pending_destinations db)) db in
          ((Message true "Destination approved", 200), db)
      end).

(** [POST /api/admin/reject-destination/<pending_id>] *)
Definition reject_destination (pending_id : Z) : Handler :=
  admin_required (fun req db =>
    if negb (pool req) then (connection_failed, db)
    else
      let db := with_pending_destinations
                  (update (fun pd => pd_pending_id pd =? pending_id)
                     (review_destination "rejected" req)
                     (pending_destinations db)) db in
      ((Message true "Destination rejected", 200), db)).

(** *** Package moderation *)

Definition review_package (status : string) (req : Request)
    (pp : PendingPackage) : PendingPackage :=
  {| pp_pending_pkg_id := pp_pending_pkg_id pp; pp_vendor_id := pp_vendor_id pp;
     pp_destination_id := pp_destination_id pp; pp_name := pp_name pp;
     pp_description := pp_description pp; pp_duration_days := pp_duration_days pp;
     pp_max_travelers := pp_max_travelers pp; pp_includes := pp_includes pp;
     pp_image_url := pp_image_url pp; pp_adult_price := pp_adult_price pp;
     pp_child_price := pp_child_price pp; pp_infant_price := pp_infant_price pp;
     pp_economy_adult_price := pp_economy_adult_price pp;
     pp_economy_child_price := pp_economy_child_price pp;
     pp_economy_infant_price := pp_economy_infant_price pp;
     pp_business_adult_price := pp_business_adult_price pp;
     pp_business_child_price := pp_business_child_price pp;
     pp_business_infant_price := pp_business_infant_price pp;
     pp_status := status; pp_reviewed_at := Some (now req);
     pp_reviewed_by := s_user_id (session req) |}.

(** [POST /api/admin/approve-package/<pending_pkg_id>]: the selected row
    is bound to [:v1] .. [:v17] by position. *)
Definition approve_package (pending_pkg_id : Z) : Handler :=
  admin_required (fun req db =>
    if negb (pool req) then (connection_failed, db)
    else
      match fetchone (fun pp => (pp_pending_pkg_id pp =? pending_pkg_id)
                                && String.eqb (pp_status pp) "pending")
              (pending_packages db) with
      | None => ((Message false "Package not found", 404), db)
      | Some row =>
          let result :=
            (pp_vendor_id row, pp_destination_id row, pp_name row,
             pp_description row, pp_duration_days row, pp_max_travelers row,
             pp_includes row, pp_image_url row, pp_adult_price row,
             pp_child_price row, pp_infant_price row,
             pp_economy_adult_price row, pp_economy_child_price row,
             pp_economy_infant_price row, pp_business_adult_price row,
             pp_business_child_price row, pp_business_infant_price row) in
          let '(v1, v2, v3, v4, v5, v6, v7, v8, v9, v10, v11, v12, v13, v14,
                v15, v16, v17) := result in
          let db := with_packages
                      (packages db ++
                         [ {| p_package_id := package_seq db;
                              p_vendor_id := v1; p_destination_id := v2;
                              p_name := v3; p_description := v4;
                              p_duration_days := v5; p_max_travelers := v6;
                              p_includes := v7; p_image_url := v8;
                              p_adult_price := v9; p_child_price := v10;
                              p_infant_price := v11;
                              p_economy_adult_price := v12;
                              p_economy_child_price := v13;
                              p_economy_infant_price := v14;
                              p_business_adult_price := v15;
                              p_business_child_price := v16;
                              p_business_infant_price := v17;
                              p_is_active := 1 |} ])
                      (package_seq db + 1) db in
          let db := with_pending_packages
                      (update (fun pp => pp_pending_pkg_id pp =? pending_pkg_id)
                         (review_package "approved" req)
                         (pending_packages db)) db in
          ((Message true "Package approved", 200), db)
      end).

(** [POST /api/admin/reject-package/<pending_pkg_id>] *)
Definition reject_package (pending_pkg_id : Z) : Handler :=
  admin_required (fun req db =>
    if negb (pool req) then (connection_failed, db)
    else
      let db := with_pending_packages
                  (update (fun pp => pp_pending_pkg_id pp =? pending_pkg_id)
                     (review_package "rejected" req)
                     (pending_packages db)) db in
      ((Message true "Package rejected", 200), db)).

(** *** Live packages of a vendor *)

Definition set_is_active (status : Z) (p : Package) : Package :=
  {| p_package_id := p_package_id p; p_vendor_id := p_vendor_id p;
     p_destination_id := p_destination_id p; p_name := p_name p;
     p_description := p_description p; p_duration_days := p_duration_days p;
     p_max_travelers := p_max_travelers p; p_includes := p_includes p;
     p_image_url := p_image_url p; p_adult_price := p_adult_price p;
     p_child_price := p_child_price p; p_infant_price := p_infant_price p;
     p_economy_adult_price := p_economy_adult_price p;
     p_economy_child_price := p_economy_child_price p;
     p_economy_infant_price := p_economy_infant_price p;
     p_business_adult_price := p_business_adult_price p;
     p_business_child_price := p_business_child_price p;
     p_business_infant_price := p_business_infant_price p;
     p_is_active := status |}.

(** [DELETE /api/vendor/delete-package/<package_id>]: a soft delete. *)
Definition delete_vendor_package (package_id : Z) : Handler :=
  vendor_required (fun req db =>
    let vendor_id := s_vendor_id (session req) in
    if negb (pool req) then (connection_failed, db)
    else
      match fetchone (fun p => p_package_id p =? package_id) (packages db) with
      | None => ((Message false "Package not found", 404), db)
      | Some result =>
          if negb (bool_decide (p_vendor_id result = vendor_id)) then
            ((Message false "Unauthorized: This package does not belong to you", 403), db)
          else
            let db := with_packages
                        (update (fun p => p_package_id p =? package_id)
                           (set_is_active 0) (packages db))
                        (package_seq db) db in
            ((Message true "Package deleted successfully", 200), db)
      end).

(** [POST /api/vendor/toggle-package/<package_id>] *)
Definition toggle_package_status (package_id : Z) : Handler :=
  vendor_required (fun req db =>
    let vendor_id := s_vendor_id (session req) in
    if negb (pool req) then (connection_failed, db)
    else
      match fetchone (fun p => p_package_id p =? package_id) (packages db) with
      | None => ((Message false "Package not found", 404), db)
      | Some result =>
          if negb (bool_decide (p_vendor_id result = vendor_id)) then
            ((Message false "Unauthorized", 403), db)
          else
            let new_status := if p_is_active result =? 1 then 0 else 1 in
            let db := with_packages
                        (update (fun p => p_package_id p =? package_id)
                           (set_is_active new_status) (packages db))
                        (package_seq db) db in
            let status_text :=
              if new_status =? 1 then "activated" else "deactivated" in
            ((Message true ("Package " +:+ status_text +:+ " successfully"), 200), db)
      end).

(** *** The public catalog *)

(** Python values of nullable columns. *)
Definition of_int (o : option Z) : Py.value := from_option Py.VInt Py.VNone o.
Definition of_str (o : option string) : Py.value := from_option Py.VStr Py.VNone o.
(** A numeric column after [float(pkg[field])]. *)
Definition of_float (o : option Q) : Py.value := from_option Py.VFloat Py.VNone o.

(** [packages p JOIN destinations d JOIN vendor_profiles vp
    WHERE p.is_active = 1] *)
Definition active_packages_joined (db : Db.t)
    : list (Package * Destination * VendorProfile) :=
  flat_map (fun p =>
    flat_map (fun d =>
      flat_map (fun vp => [(p, d, vp)])
        (List.filter (fun vp => eq_null (p_vendor_id p) (Some (vp_vendor_id vp)))
           (vendor_profiles db)))
      (List.filter (fun d => eq_null (p_destination_id p) (Some (d_destination_id d)))
         (destinations db)))
    (List.filter (fun p => p_is_active p =? 1) (packages db)).

(** [ORDER BY] a text column, in binary collation.  The order among equal
    keys is the database's choice; the model fixes one. *)
Definition text_le {A} (key : A -> string) : relation A :=
  fun x y => Is_true (String.leb (key x) (key y)).

#[local] Instance text_le_dec {A} (key : A -> string) (x y : A)
  : Decision (text_le key x y).
Proof. unfold text_le. apply _. Defined.

Definition order_by_text {A} (key : A -> string) (rows : list A) : list A :=
  merge_sort (text_le key) rows.

(** [ORDER BY] a numeric column, [NULL]s last. *)
Definition num_le {A} (key : A -> option Q) : relation A :=
  fun x y => Is_true match key x, key y with
                     | Some a, Some b => Qle_bool a b
                     | None, Some _ => false
                     | _, None => true
                     end.

#[local] Instance num_le_dec {A} (key : A -> option Q) (x y : A)
  : Decision (num_le key x y).
Proof. unfold num_le. apply _. Defined.

Definition order_by_num {A} (key : A -> option Q) (rows : list A) : list A :=
  merge_sort (num_le key) rows.

(** [dict(zip(columns, row))] of the catalog query, its numeric fields
    passed through [float]. *)
Definition package_dict (row : Package * Destination * VendorProfile) : Py.dict :=
  let '(p, d, vp) := row in
  list_to_map
    [ ("package_id", Py.VInt (p_package_id p));
      ("vendor_id", of_int (p_vendor_id p));
      ("destination_id", of_int (p_destination_id p));
      ("package_name", of_str (p_name p));
      ("description", of_str (p_description p));
      ("duration_days", of_int (p_duration_days p));
      ("max_travelers", of_int (p_max_travelers p));
      ("includes", of_str (p_includes p));
      ("image_url", of_str (p_image_url p));
      ("is_active", Py.VInt (p_is_active p));
      ("adult_price", of_float (p_adult_price p));
      ("child_price", of_float (p_child_price p));
      ("infant_price", of_float (p_infant_price p));
      ("economy_adult_price", of_float (p_economy_adult_price p));
      ("economy_child_price", of_float (p_economy_child_price p));
      ("economy_infant_price", of_float (p_economy_infant_price p));
      ("business_adult_price", of_float (p_business_adult_price p));
      ("business_child_price", of_float (p_business_child_price p));
      ("business_infant_price", of_float (p_business_infant_price p));
      ("destination_name", Py.VStr (d_name d));
      ("country", Py.VStr (d_country d));
      ("vendor_name", Py.VStr (vp_company_name vp));
      ("vendor_rating", of_float (vp_rating vp)) ].

Section WithRuntime.
Context `{Runtime}.

(** The rows the catalog query returns, in order.  The bound text is
    converted once, before any row is compared. *)
Definition catalog_rows (destination_id : option string) (db : Db.t)
    : option (list (Package * Destination * VendorProfile)) :=
  if Py.truthy_str (default "" destination_id) then
    match to_number (default "" destination_id) with
    | None => None
    | Some dest_id =>
        Some (order_by_text (fun row => vp_company_name (snd row))
                (List.filter
                   (fun row =>
                      match p_destination_id (fst (fst row)) with
                      | Some n => Qeq_bool (inject_Z n) dest_id
                      | None => false
                      end)
                   (active_packages_joined db)))
    end
  else
    Some (order_by_text (fun row => d_name (snd (fst row)))
            (active_packages_joined db)).

(** [GET /api/packages] *)
Definition get_packages : Handler :=
  fun req db =>
    let destination_id := args req !! "destination_id" in
    if negb (pool req) then (connection_failed, db)
    else
      match catalog_rows destination_id db with
      | None => ((Failure "Database error: ", 500), db)
      | Some rows => ((Packages (map package_dict rows), 200), db)
      end.

(** *** Chat endpoints *)

Definition destination_context (d : Destination) : Py.dict :=
  list_to_map
    [ ("destination_id", Py.VInt (d_destination_id d));
      ("name", Py.VStr (d_name d));
      ("country", Py.VStr (d_country d));
      ("description", Py.VStr (d_description d)) ].

(** [if pkg.get('adult_price'): pkg['adult_price'] = float(...)]: a price
    of zero stays the integer the driver returned. *)
Definition float_if_true (o : option Q) : Py.value :=
  match o with
  | Some q => if Qeq_bool q 0 then Py.VInt 0 else Py.VFloat q
  | None => Py.VNone
  end.

Definition package_context (row : Package * Destination * VendorProfile)
    : Py.dict :=
  let '(p, d, vp) := row in
  list_to_map
    [ ("package_id", Py.VInt (p_package_id p));
      ("name", of_str (p_name p));
      ("duration_days", of_int (p_duration_days p));
      ("adult_price", float_if_true (p_adult_price p));
      ("destination_name", Py.VStr (d_name d));
      ("country", Py.VStr (d_country d));
      ("description", of_str (p_description p));
      ("vendor_name", Py.VStr (vp_company_name vp)) ].

(** [POST /api/chat].  [chatbot] is the process-wide instance that
    [get_chatbot()] returns. *)
Definition chat_with_ai (chatbot : Chatbot.TravelChatbot) : Handler :=
  fun req db =>
    let data := json req in
    match Py.strip_value (Py.get_default data "message" (Py.VStr "")) with
    | Py.Raise _ =>
        ((Message false "Sorry, something went wrong. Please try again.", 500), db)
    | Py.Ok user_message =>
        let conversation_history := Py.get_default data "history" (Py.VList []) in
        if negb (Py.truthy_str user_message) then
          ((Message false "Please enter a message", 400), db)
        else
          let destinations :=
            if pool req then
              map destination_context (order_by_text d_name (destinations db))
            else [] in
          let packages :=
            if pool req then
              map package_context
                (order_by_num (fun row => p_adult_price (fst (fst row)))
                   (active_packages_joined db))
            else [] in
          let response :=
            Chatbot.chat chatbot user_message (Some destinations) (Some packages)
              conversation_history in
          ((Chat response, if Chatbot.success response then 200 else 500), db)
    end.

(** [GET /api/chat/suggestions] *)
Definition get_chat_suggestions (chatbot : Chatbot.TravelChatbot) : Handler :=
  fun req db =>
    let context := default "" (args req !! "context") in
    let suggestions := Chatbot.get_quick_replies chatbot (Some context) in
    ((Suggestions suggestions, 200), db).

(** *** Login *)

Definition set_password_hash (h : string) (u : User) : User :=
  {| u_user_id := u_user_id u; u_username := u_username u;
     u_email := u_email u; u_password_hash := h;
     u_full_name := u_full_name u; u_phone := u_phone u;
     u_role_id := u_role_id u; u_is_active := u_is_active u;
     u_last_login := u_last_login u |}.

Definition set_last_login (ts : Z) (u : User) : User :=
  {| u_user_id := u_user_id u; u_username := u_username u;
     u_email := u_email u; u_password_hash := u_password_hash u;
     u_full_name := u_full_name u; u_phone := u_phone u;
     u_role_id := u_role_id u; u_is_active := u_is_active u;
     u_last_login := Some ts |}.

(** [USERS u JOIN USER_ROLES ur LEFT JOIN VENDOR_PROFILES vp
    WHERE u.USERNAME = :username] *)
Definition login_rows (username : string) (db : Db.t)
    : list (User * UserRole * option VendorProfile) :=
  flat_map (fun u =>
    flat_map (fun ur =>
      match List.filter (fun vp => vp_user_id vp =? u_user_id u)
              (vendor_profiles db) with
      | [] => [(u, ur, None)]
      | vps => map (fun vp => (u, ur, Some vp)) vps
      end)
      (List.filter (fun ur => ur_role_id ur =? u_role_id u) (user_roles db)))
    (List.filter (fun u => String.eqb (u_username u) username) (users db)).

(** [str(x)] of a nullable text inside an f-string *)
Definition show_str (o : option string) : string := default "None" o.

(** [POST /api/login]; the third component is the session after it. *)
Definition login (req : Request) (db : Db.t) : Reply * Db.t * Session :=
  let data := json req in
  let failed := ((Message false "Login failed. Please try again.", 500), db, session req) in
  match Py.strip_value (Py.get_default data "username" (Py.VStr "")) with
  | Py.Raise _ => failed
  | Py.Ok username =>
      let password := Py.get_default data "password" (Py.VStr "") in
      if negb (Py.truthy_str username) || negb (Py.truthy password) then
        ((Message false "Username and password required", 400), db, session req)
      else if negb (pool req) then (connection_failed, db, session req)
      else
        match login_rows username db with
        | [] => ((Message false "Invalid credentials", 401), db, session req)
        | (u, ur, vp) :: _ =>
            let user_id := u_user_id u in
            let role_name := ur_role_name ur in
            let vendor_id := option_map vp_vendor_id vp in
            let verification_status := option_map vp_verification_status vp in
            let stored_hash := u_password_hash u in
            match password with
            | Py.VStr password =>
                let secure :=
                  match check_password_hash stored_hash password with
                  | Some true => true
                  | _ => false
                  end in
                let legacy :=
                  negb secure
                  && String.eqb (sha256_hexdigest password) stored_hash in
                let verified := secure || legacy in
                let password_needs_rehash := legacy in
                if negb verified then
                  ((Message false "Invalid credentials", 401), db, session req)
                else
                  let db :=
                    if password_needs_rehash then
                      with_users
                        (update (fun u' => u_user_id u' =? user_id)
                           (set_password_hash
                              (generate_password_hash (salt req) password))
                           (users db)) db
                    else db in
                  if u_is_active u =? 0 then
                    if String.eqb role_name "vendor" then
                      ((Message false "Your vendor account is pending admin approval. Please wait for activation email.", 403),
                       db, session req)
                    else ((Message false "Account is inactive", 403), db, session req)
                  else if String.eqb role_name "vendor"
                          && negb (bool_decide (verification_status = Some "verified")) then
                    ((Message false ("Vendor account status: "
                                     +:+ show_str verification_status
                                     +:+ ". Please contact admin."), 403),
                     db, session req)
                  else
                    let db := with_users
                                (update (fun u' => u_user_id u' =? user_id)
                                   (set_last_login (now req)) (users db)) db in
                    let session' :=
                      {| s_user_id := Some user_id;
                         s_username := Some (u_username u);
                         s_email := Some (u_email u);
                         s_full_name := Some (u_full_name u);
                         s_role := Some role_name;
                         s_vendor_id :=
                           match vendor_id with
                           | Some v => if v =? 0 then s_vendor_id (session req)
                                       else Some v
                           | None => s_vendor_id (session req)
                           end |} in
                    let redirect_url :=
                      if String.eqb role_name "admin" then "/admin" else "/index" in
                    ((LoggedIn "Login successful" redirect_url user_id
                        (u_username u) (u_email u) (u_full_name u) role_name, 200),
                     db, session')
            | _ => failed
            end
        end
  end.

(** *** Bookings *)

Definition required_fields : list string :=
  [ "package_id"; "from_location"; "to_location"; "departure_date";
    "departure_time"; "preferred_airline"; "preferred_seating";
    "num_adults"; "fare_type"; "full_name"; "phone"; "email"; "total_price" ].

(** The first required field whose value is missing or false. *)
Definition missing_field (data : Py.dict) : option string :=
  List.find (fun field => negb (Py.truthy (Py.get data field))) required_fields.

(** The driver binds scalars; a list or an object makes it raise. *)
Definition bindable (v : Py.value) : bool :=
  match v with
  | Py.VList _ | Py.VDict _ => false
  | _ => true
  end.

(** The fields of a booking request after conversion. *)
Record BookingForm := {
  f_from_location : string;
  f_to_location : string;
  f_departure_date : string;
  f_departure_time : string;
  f_preferred_airline : Py.value;
  f_preferred_seating : Py.value;
  f_num_adults : Z;
  f_num_children : Z;
  f_num_infants : Z;
  f_fare_type : Py.value;
  f_return_date : option string;
  f_return_time : option string;
  f_message : string;
  f_full_name : string;
  f_phone : string;
  f_email : string;
  f_total_price : Q
}.

Definition is_round_trip (fare_type : Py.value) : bool :=
  match fare_type with
  | Py.VStr s => String.eqb s "round_trip"
  | _ => false
  end.

(** The assignments of [create_booking] between the package id and the
    email check, in order; the first one to raise decides. *)
Definition read_booking_form (data : Py.dict) : Py.result BookingForm :=
  let* from_location := Py.strip_value (Py.get data "from_location") in
  let* to_location := Py.strip_value (Py.get data "to_location") in
  let* departure_date := Py.strip_value (Py.get data "departure_date") in
  let* departure_time := Py.strip_value (Py.get data "departure_time") in
  let preferred_airline := Py.get data "preferred_airline" in
  let preferred_seating := Py.get data "preferred_seating" in
  let* num_adults := py_int (Py.get_default data "num_adults" (Py.VInt 1)) in
  let* num_children := py_int (Py.get_default data "num_children" (Py.VInt 0)) in
  let* num_infants := py_int (Py.get_default data "num_infants" (Py.VInt 0)) in
  let fare_type := Py.get data "fare_type" in
  let* return_date :=
    if is_round_trip fare_type then
      let* s := Py.strip_value (Py.get_default data "return_date" (Py.VStr "")) in
      Py.Ok (Some s)
    else Py.Ok None in
  let* return_time :=
    if is_round_trip fare_type then
      let* s := Py.strip_value (Py.get_default data "return_time" (Py.VStr "")) in
      Py.Ok (Some s)
    else Py.Ok None in
  let* message := Py.strip_value (Py.get_default data "message" (Py.VStr "")) in
  let* full_name := Py.strip_value (Py.get data "full_name") in
  let* phone := Py.strip_value (Py.get data "phone") in
  let* email := Py.strip_value (Py.get data "email") in
  let* total_price := py_float (Py.get data "total_price") in
  Py.Ok {| f_from_location := from_location; f_to_location := to_location;
           f_departure_date := departure_date;
           f_departure_time := departure_time;
           f_preferred_airline := preferred_airline;
           f_preferred_seating := preferred_seating;
           f_num_adults := num_adults; f_num_children := num_children;
           f_num_infants := num_infants; f_fare_type := fare_type;
           f_return_date := return_date; f_return_time := return_time;
           f_message := message; f_full_name := full_name; f_phone := phone;
           f_email := Py.lower email; f_total_price := total_price |}.

(** [x if x else None] *)
Definition none_if_empty (o : option string) : option string :=
  match o with
  | Some s => if Py.truthy_str s then Some s else None
  | None => None
  end.

(** The [INSERT INTO bookings]; [None] when a bind or [TO_DATE] raises. *)
Definition insert_booking (req : Request) (user_id package_id : Z)
    (form : BookingForm) (db : Db.t) : option (Z * Db.t) :=
  if bindable (f_preferred_airline form) && bindable (f_preferred_seating form)
     && bindable (f_fare_type form) then
    match to_date (f_departure_date form) with
    | None => None
    | Some dep_date =>
        let ret :=
          match none_if_empty (f_return_date form) with
          | None => Some None
          | Some s => option_map Some (to_date s)
          end in
        match ret with
        | None => None
        | Some ret_date =>
            let booking_id := booking_seq db in
            Some (booking_id,
                  with_bookings
                    (bookings db ++
                       [ {| b_booking_id := booking_id;
                            b_user_id := user_id;
                            b_package_id := package_id;
                            b_from_location := f_from_location form;
                            b_to_location := f_to_location form;
                            b_departure_date := dep_date;
                            b_departure_time := f_departure_time form;
                            b_return_date := ret_date;
                            b_return_time := none_if_empty (f_return_time form);
                            b_preferred_airline := f_preferred_airline form;
                            b_preferred_seating := f_preferred_seating form;
                            b_num_adults := f_num_adults form;
                            b_num_children := f_num_children form;
                            b_num_infants := f_num_infants form;
                            b_num_travelers :=
                              f_num_adults form + f_num_children form
                              + f_num_infants form;
                            b_fare_type := f_fare_type form;
                            b_message := f_message form;
                            b_total_price := f_total_price form;
                            b_customer_full_name := f_full_name form;
                            b_customer_phone := f_phone form;
                            b_customer_email := f_email form;
                            b_status := "pending";
                            b_booking_date := now req |} ])
                    (booking_seq db + 1) db)
        end
    end
  else None.

(** [POST /api/bookings] *)
Definition create_booking : Handler :=
  fun req db =>
    match s_user_id (session req) with
    | None => ((Message false "Please login to make a booking.", 401), db)
    | Some user_id =>
        if user_id =? 0 then
          ((Message false "Please login to make a booking.", 401), db)
        else
          let data := json req in
          match missing_field data with
          | Some field => ((Message false (field +:+ " is required"), 400), db)
          | None =>
              match py_int (Py.get data "package_id") with
              | Py.Raise _ => ((Message false "Invalid package selected", 400), db)
              | Py.Ok package_id =>
                  match read_booking_form data with
                  | Py.Raise Py.ValueError =>
                      ((Message false "Invalid number format", 400), db)
                  | Py.Raise _ => ((Message false "Server error", 500), db)
                  | Py.Ok form =>
                      let email := f_email form in
                      let return_date := f_return_date form in
                      let return_time := f_return_time form in
                      let total_travelers :=
                        f_num_adults form + f_num_children form
                        + f_num_infants form in
                      if negb (Py.contains "@" email) || negb (Py.contains "." email) then
                        ((Message false "Invalid email format", 400), db)
                      else if is_round_trip (f_fare_type form)
                              && (negb (Py.truthy_str (default "" return_date))
                                  || negb (Py.truthy_str (default "" return_time))) then
                        ((Message false "Return date and time required for round trip", 400), db)
                      else if total_travelers =? 0 then
                        ((Message false "At least one traveler is required", 400), db)
                      else if Qle_bool (f_total_price form) 0 then
                        ((Message false "Invalid total price", 400), db)
                      else if negb (pool req) then (connection_failed, db)
                      else
                        match fetchone (fun p => p_package_id p =? package_id)
                                (packages db) with
                        | None =>
                            ((Message false "Selected package not found", 404), db)
                        | Some package_row =>
                            let package_name := p_name package_row in
                            match insert_booking req user_id package_id form db with
                            | None => ((Failure "Booking failed: ", 500), db)
                            | Some (booking_id, db') =>
                                ((BookingCreated
                                    "Booking submitted! Proceeding to payment..."
                                    booking_id (f_total_price form) package_name,
                                  201), db')
                            end
                        end
                  end
              end
          end
    end.

(** *** Reviews *)

(** [POST /api/packages/<package_id>/reviews].  A failed connection
    makes [connection.cursor()] raise, as a bad rating makes [int]
    raise; both end in the handler's [except]. *)
Definition submit_review (package_id : Z) : Handler :=
  fun req db =>
    let data := json req in
    let failed := ((Failure "Failed to submit review: ", 500), db) in
    let invalid := ((Message false "Please provide a valid rating (1-5)", 400), db) in
    let rating := Py.get data "rating" in
    if negb (Py.truthy rating) then invalid
    else
      match py_int rating with
      | Py.Raise _ => failed
      | Py.Ok n =>
          if negb (existsb (Z.eqb n) [1; 2; 3; 4; 5]) then invalid
          else
            match Py.strip_value (Py.get_default data "user_name" (Py.VStr "")) with
            | Py.Raise _ => failed
            | Py.Ok user_name =>
                let user_name :=
                  if negb (Py.truthy_str user_name) then "Anonymous" else user_name in
                if negb (pool req) then failed
                else
                  match fetchone (fun p => p_package_id p =? package_id)
                          (packages db) with
                  | None => ((Message false "Package not found", 404), db)
                  | Some _ =>
                      let user_id := s_user_id (session req) in
                      let next_id := review_id_seq db in
                      let db := with_reviews
                                  (reviews db ++
                                     [ {| r_review_id := next_id;
                                          r_package_id := package_id;
                                          r_user_id := user_id;
                                          r_user_name := user_name;
                                          r_rating := n |} ])
                                  (next_id + 1) db in
                      ((Message true "Review submitted successfully!", 200), db)
                  end
            end
      end.

End WithRuntime.

(** *** Approval of a vendor *)

Definition set_verification_status (status : string) (vp : VendorProfile)
    : VendorProfile :=
  {| vp_vendor_id := vp_vendor_id vp; vp_user_id := vp_user_id vp;
     vp_company_name := vp_company_name vp;
     vp_business_license := vp_business_license vp; vp_rating := vp_rating vp;
     vp_verification_status := status; vp_image_url := vp_image_url vp |}.

Definition set_user_active (flag : Z) (u : User) : User :=
  {| u_user_id := u_user_id u; u_username := u_username u;
     u_email := u_email u; u_password_hash := u_password_hash u;
     u_full_name := u_full_name u; u_phone := u_phone u;
     u_role_id := u_role_id u; u_is_active := flag;
     u_last_login := u_last_login u |}.

(** [POST /api/admin/approve-vendor/<vendor_id>] *)
Definition approve_vendor (vendor_id : Z) : Handler :=
  admin_required (fun req db =>
    if negb (pool req) then (connection_failed, db)
    else
      match fetchone (fun vp => (vp_vendor_id vp =? vendor_id)
                                && String.eqb (vp_verification_status vp) "pending")
              (vendor_profiles db) with
      | None => ((Message false "Vendor not found or already processed", 404), db)
      | Some result =>
          let user_id := vp_user_id result in
          let db := with_vendor_profiles
                      (update (fun vp => vp_vendor_id vp =? vendor_id)
                         (set_verification_status "verified")
                         (vendor_profiles db)) db in
          let db := with_users
                      (update (fun u => u_user_id u =? user_id)
                         (set_user_active 1) (users db)) db in
          ((Message true "Vendor approved successfully", 200), db)
      end).

(** *** Submission of a destination *)

(** The four texts [vendor_add_destination] reads, stripped, in the order
    of the assignments. *)
Definition read_destination_form (data : Py.dict)
    : Py.result (string * string * string * string) :=
  let* name := Py.strip_value (Py.get_default data "name" (Py.VStr "")) in
  let* country := Py.strip_value (Py.get_default data "country" (Py.VStr "")) in
  let* description :=
    Py.strip_value (Py.get_default data "description" (Py.VStr "")) in
  let* image_url := Py.strip_value (Py.get_default data "image_url" (Py.VStr "")) in
  Py.Ok (name, country, description, image_url).

(** [x if x else None] on a text *)
Definition text_or_null (s : string) : option string :=
  if Py.truthy_str s then Some s else None.

(** [POST /api/vendor/add-destination].  [pending_id] is the key the
    database gives the inserted row. *)
Definition vendor_add_destination (pending_id : Z) : Handler :=
  vendor_required (fun req db =>
    match read_destination_form (json req) with
    | Py.Raise _ => ((Failure "", 500), db)
    | Py.Ok (name, country, description, image_url) =>
        if negb (Py.truthy_str name && Py.truthy_str country
                 && Py.truthy_str description) then
          ((Message false "Name, country, and description are required", 400), db)
        else if negb (pool req) then (connection_failed, db)
        else
          let db := with_pending_destinations
                      (pending_destinations db ++
                         [ {| pd_pending_id := pending_id;
                              pd_vendor_id := s_vendor_id (session req);
                              pd_name := name; pd_country := country;
                              pd_description := description;
                              pd_image_url := text_or_null image_url;
                              pd_status := "pending";
                              pd_reviewed_at := None;
                              pd_reviewed_by := None |} ]) db in
          ((Message true "Destination submitted for admin approval", 201), db)
    end).

(** *** Listings of destinations *)

(** The JSON object of a listing, [{'success': True, key: rows}], or a
    plain reply. *)
Inductive Listing :=
| Listed (key : string) (rows : list Py.dict)
| NotListed (body : Body).

(** [dict(zip(columns, row))] of [get_destinations].  [created_at], a
    column the model's table does not carry, is left out. *)
Definition destination_dict (d : Destination) : Py.dict :=
  list_to_map
    [ ("destination_id", Py.VInt (d_destination_id d));
      ("name", Py.VStr (d_name d));
      ("country", Py.VStr (d_country d));
      ("description", Py.VStr (d_description d));
      ("image_url", of_str (d_image_url d)) ].

(** [GET /api/destinations]; it reads and never writes. *)
Definition get_destinations (req : Request) (db : Db.t) : Listing * Z :=
  if negb (pool req) then (NotListed (fst connection_failed), 500)
  else
    (Listed "destinations"
       (map destination_dict (order_by_text d_name (destinations db))), 200).

(** [dict(zip(columns, row))] of [get_highlights]: the name is the city. *)
Definition highlight_dict (d : Destination) : Py.dict :=
  list_to_map
    [ ("destination_id", Py.VInt (d_destination_id d));
      ("city", Py.VStr (d_name d));
      ("country", Py.VStr (d_country d));
      ("description", Py.VStr (d_description d));
      ("image_url", of_str (d_image_url d)) ].

(** [GET /api/highlights]: [WHERE ROWNUM <= 3] keeps the first three rows
    the scan meets, here the first three of the table, and [ORDER BY name]
    sorts those. *)
Definition get_highlights (req : Request) (db : Db.t) : Listing * Z :=
  if negb (pool req) then (NotListed (fst connection_failed), 500)
  else
    (Listed "highlights"
       (map highlight_dict (order_by_text d_name (take 3 (destinations db)))), 200).

(** *** The session *)

(** The ['user'] object of [check_session]. *)
Record SessionUser := {
  su_user_id : option Z;
  su_username : option string;
  su_email : option string;
  su_full_name : option string;
  su_role : option string;
  su_vendor_id : option Z
}.

(** [GET /api/session]: the user of the session with 200, or 401. *)
Definition check_session (s : Session) : option SessionUser * Z :=
  match s_user_id s with
  | Some _ =>
      (Some {| su_user_id := s_user_id s; su_username := s_username s;
               su_email := s_email s; su_full_name := s_full_name s;
               su_role := s_role s; su_vendor_id := s_vendor_id s |}, 200)
  | None => (None, 401)
  end.

(** [POST /api/logout]: [session.clear()], answered 200. *)
Definition logout (s : Session) : Reply * Session :=
  ((Message true "Logged out successfully", 200),
   {| s_user_id := None; s_username := None; s_email := None;
      s_full_name := None; s_role := None; s_vendor_id := None |}).

(** *** Registration *)

Section Registration.
Context `{Runtime}.

(** [len(v)]: defined on texts, lists and objects.  The length of a text
    is its number of bytes, which is Python's on ASCII. *)
Definition py_len (v : Py.value) : Py.result Z :=
  match v with
  | Py.VStr s => Py.Ok (Z.of_nat (String.length s))
  | Py.VList items => Py.Ok (Z.of_nat (length items))
  | Py.VDict items => Py.Ok (Z.of_nat (length items))
  | _ => Py.Raise Py.TypeError
  end.

(** The four texts [register] strips first, the email in lower case. *)
Definition read_account_form (data : Py.dict)
    : Py.result (string * string * string * string) :=
  let* full_name := Py.strip_value (Py.get_default data "full_name" (Py.VStr "")) in
  let* username := Py.strip_value (Py.get_default data "username" (Py.VStr "")) in
  let* email := Py.strip_value (Py.get_default data "email" (Py.VStr "")) in
  let* phone := Py.strip_value (Py.get_default data "phone" (Py.VStr "")) in
  Py.Ok (full_name, username, Py.lower email, phone).

(** The three texts of a vendor's registration. *)
Definition read_vendor_form (data : Py.dict)
    : Py.result (string * string * string) :=
  let* company_name :=
    Py.strip_value (Py.get_default data "company_name" (Py.VStr "")) in
  let* business_license :=
    Py.strip_value (Py.get_default data "business_license" (Py.VStr "")) in
  let* image_url := Py.strip_value (Py.get_default data "image_url" (Py.VStr "")) in
  Py.Ok (company_name, business_license, image_url).

(** [account_type == name] *)
Definition is_account_type (account_type : Py.value) (name : string) : bool :=
  match account_type with
  | Py.VStr s => String.eqb s name
  | _ => false
  end.

(** [POST /api/register].  [user_id] and [vendor_id] are the keys the
    database gives the inserted rows.  An account type that is a text is
    looked up in [USER_ROLES]; [None] matches no role; a bind of any other
    type is taken to raise in the driver.  [commission_rate], which the
    insert sets to 10, is a column the model's profiles do not carry. *)
Definition register (user_id vendor_id : Z) : Handler :=
  fun req db =>
    let data := json req in
    let crashed := ((Failure "Error: ", 500), db) in
    match read_account_form data with
    | Py.Raise _ => crashed
    | Py.Ok (full_name, username, email, phone) =>
        let password := Py.get_default data "password" (Py.VStr "") in
        let account_type :=
          Py.get_default data "account_type" (Py.VStr "customer") in
        if negb (Py.truthy_str full_name && Py.truthy_str username
                 && Py.truthy_str email && Py.truthy_str phone
                 && Py.truthy password) then
          ((Message false "All fields are required", 400), db)
        else
          match py_len password with
          | Py.Raise _ => crashed
          | Py.Ok n =>
              if n <? 6 then
                ((Message false "Password must be at least 6 characters", 400), db)
              else if negb (pool req) then (connection_failed, db)
              else
                let role_result :=
                  match account_type with
                  | Py.VStr role_name =>
                      Some (fetchone (fun ur => String.eqb (ur_role_name ur) role_name)
                              (user_roles db))
                  | Py.VNone => Some None
                  | _ => None
                  end in
                match role_result with
                | None => ((Failure "Database error: ", 500), db)
                | Some None => ((Message false "Invalid account type", 400), db)
                | Some (Some role) =>
                    let role_id := ur_role_id role in
                    match fetchone (fun u => String.eqb (u_username u) username
                                             || String.eqb (u_email u) email)
                            (users db) with
                    | Some _ =>
                        ((Message false "Username or email already exists", 400), db)
                    | None =>
                        match password with
                        | Py.VStr password =>
                            let password_hash :=
                              generate_password_hash (salt req) password in
                            let inserted :=
                              with_users
                                (users db ++
                                   [ {| u_user_id := user_id;
                                        u_username := username; u_email := email;
                                        u_password_hash := password_hash;
                                        u_full_name := full_name; u_phone := phone;
                                        u_role_id := role_id;
                                        u_is_active :=
                                          if is_account_type account_type "customer"
                                          then 1 else 0;
                                        u_last_login := None |} ]) db in
                            if is_account_type account_type "vendor" then
                              match read_vendor_form data with
                              | Py.Raise _ => crashed
                              | Py.Ok (company_name, business_license, image_url) =>
                                  if negb (Py.truthy_str company_name)
                                     || negb (Py.truthy_str business_license) then
                                    ((Message false "Company name and business license are required for vendors", 400), db)
                                  else
                                    ((Message true "Vendor registration submitted! Your account will be activated after admin approval. You will receive an email notification.", 201),
                                     with_vendor_profiles
                                       (vendor_profiles inserted ++
                                          [ {| vp_vendor_id := vendor_id;
                                               vp_user_id := user_id;
                                               vp_company_name := company_name;
                                               vp_business_license := business_license;
                                               vp_rating := Some (inject_Z 0);
                                               vp_verification_status := "pending";
                                               vp_image_url := text_or_null image_url |} ])
                                       inserted)
                              end
                            else
                              ((Message true "Registration successful! You can now login.", 201),
                               inserted)
                        | _ => crashed
                        end
                    end
                end
          end
    end.

End Registration.

(** *** Generated descriptions *)

(** [POST /api/ai/generate-description].  The reply carries its text under
    ['description'] or ['error']. *)
Definition generate_ai_description (chatbot : Chatbot.TravelChatbot)
    (create : string -> string -> Py.value -> Py.value -> Provider.Outcome)
    (req : Request) : Chatbot.Description * Z :=
  let data := json req in
  let crashed :=
    (Chatbot.NotDescribed "Error generating description. Please try again.", 500) in
  match Py.strip_value (Py.get_default data "name" (Py.VStr "")) with
  | Py.Raise _ => crashed
  | Py.Ok name =>
      match Py.strip_value (Py.get_default data "country" (Py.VStr "")) with
      | Py.Raise _ => crashed
      | Py.Ok country =>
          let description_type :=
            Py.get_default data "type" (Py.VStr "destination") in
          let additional_context := Py.get_default data "context" (Py.VStr "") in
          if negb (Py.truthy_str name) then
            (Chatbot.NotDescribed "Please provide a destination name", 400)
          else if negb (Py.truthy_str country) then
            (Chatbot.NotDescribed "Please provide a country", 400)
          else
            match Chatbot.generate_description chatbot create name country
                    description_type additional_context with
            | Py.Raise _ => crashed
            | Py.Ok (Chatbot.Described description) =>
                (Chatbot.Described description, 200)
            | Py.Ok result => (result, 500)
            end
      end
  end.

End App.

(** ** Concrete requests and database contents, for the examples *)

Module Demo.
Import Db App.

(** Digits read as a number, most significant first. *)
Fixpoint digits_value (s : string) (acc : Z) : option Z :=
  match s with
  | EmptyString => Some acc
  | String c s' =>
      let n := Z.of_nat (nat_of_ascii c) in
      if (48 <=? n) && (n <=? 57) then digits_value s' (10 * acc + (n - 48))
      else None
  end.

Definition decimal (s : string) : option Z :=
  match s with
  | EmptyString => None
  | _ => digits_value s 0
  end.

Fixpoint without_dashes (s : string) : string :=
  match s with
  | EmptyString => EmptyString
  | String c s' =>
      if Ascii.eqb c "-"%char then without_dashes s' else String c (without_dashes s')
  end.

(** A run time to evaluate the handlers with: plain decimal numbers, no
    JSON reader, and tagged texts in place of the hash functions. *)
Definition runtime : Runtime :=
  {| int_of_str := decimal;
     float_of_str := fun s => option_map inject_Z (decimal s);
     json_loads := fun _ => None;
     format_1f := fun q => pretty (Qfloor q);
     round_1 := fun q => q;
     check_password_hash := fun stored password =>
       Some (String.eqb stored ("scrypt$" +:+ password));
     generate_password_hash := fun _ password => "scrypt$" +:+ password;
     sha256_hexdigest := fun password => "sha256$" +:+ password;
     to_date := fun s => decimal (without_dashes s);
     to_number := fun s => option_map inject_Z (decimal s) |}.

Definition admin_session : Session :=
  {| s_user_id := Some 1; s_username := Some "root"; s_email := Some "root@travel.pk";
     s_full_name := Some "Site Admin"; s_role := Some "admin"; s_vendor_id := None |}.

Definition vendor_session : Session :=
  {| s_user_id := Some 3; s_username := Some "jinnah"; s_email := Some "ops@jinnah.pk";
     s_full_name := Some "Fly Jinnah Ops"; s_role := Some "vendor"; s_vendor_id := Some 7 |}.

Definition anonymous : Session :=
  {| s_user_id := None; s_username := None; s_email := None;
     s_full_name := None; s_role := None; s_vendor_id := None |}.

Definition request (s : Session) (body : list (string * Py.value)) : Request :=
  {| session := s; json := list_to_map body; args := ∅;
     pool := true; now := 1000; salt := "na" |}.

Definition hunza : Destination :=
  {| d_destination_id := 1; d_name := "Hunza"; d_country := "Pakistan";
     d_description := "Valley of the north"; d_image_url := None |}.

Definition skardu : PendingDestination :=
  {| pd_pending_id := 1; pd_vendor_id := Some 7; pd_name := "Skardu";
     pd_country := "Pakistan"; pd_description := "Cold desert and lakes";
     pd_image_url := Some "/static/skardu.jpg"; pd_status := "pending";
     pd_reviewed_at := None; pd_reviewed_by := None |}.

Definition hunza_week : Package :=
  {| p_package_id := 1; p_vendor_id := Some 7; p_destination_id := Some 1;
     p_name := Some "Hunza Week"; p_description := Some "Seven days in Karimabad";
     p_duration_days := Some 7; p_max_travelers := Some 10;
     p_includes := Some "Hotel, jeep"; p_image_url := None;
     p_adult_price := Some (inject_Z 100); p_child_price := Some (inject_Z 100);
     p_infant_price := Some (inject_Z 100);
     p_economy_adult_price := Some (inject_Z 100);
     p_economy_child_price := Some (inject_Z 100);
     p_economy_infant_price := Some (inject_Z 100);
     p_business_adult_price := Some (inject_Z 100);
     p_business_child_price := Some (inject_Z 100);
     p_business_infant_price := Some (inject_Z 100);
     p_is_active := 1 |}.

Definition skardu_trek : PendingPackage :=
  {| pp_pending_pkg_id := 4; pp_vendor_id := Some 7; pp_destination_id := Some 1;
     pp_name := Some "Skardu Trek"; pp_description := None;
     pp_duration_days := Some 5; pp_max_travelers := Some 8;
     pp_includes := Some "Guide"; pp_image_url := None;
     pp_adult_price := Some (inject_Z 900); pp_child_price := Some (inject_Z 450);
     pp_infant_price := Some (inject_Z 90);
     pp_economy_adult_price := Some (inject_Z 901);
     pp_economy_child_price := Some (inject_Z 451);
     pp_economy_infant_price := Some (inject_Z 91);
     pp_business_adult_price := Some (inject_Z 1902);
     pp_business_child_price := Some (inject_Z 952);
     pp_business_infant_price := Some (inject_Z 192);
     pp_status := "pending"; pp_reviewed_at := None; pp_reviewed_by := None |}.

Definition root_user : User :=
  {| u_user_id := 1; u_username := "root"; u_email := "root@travel.pk";
     u_password_hash := "scrypt$letmein1"; u_full_name := "Site Admin";
     u_phone := "0300"; u_role_id := 1; u_is_active := 1; u_last_login := Some 10 |}.

Definition jinnah_user : User :=
  {| u_user_id := 3; u_username := "jinnah"; u_email := "ops@jinnah.pk";
     u_password_hash := "sha256$takeoff"; u_full_name := "Fly Jinnah Ops";
     u_phone := "0301"; u_role_id := 2; u_is_active := 1; u_last_login := None |}.

Definition jinnah_profile : VendorProfile :=
  {| vp_vendor_id := 7; vp_user_id := 3; vp_company_name := "Fly Jinnah";
     vp_business_license := "CAA-77"; vp_rating := None;
     vp_verification_status := "verified"; vp_image_url := None |}.

(** A booking the vendor's own user made while logged in. *)
Definition jinnah_booking : Booking :=
  {| b_booking_id := 1; b_user_id := 3; b_package_id := 1;
     b_from_location := "Karachi"; b_to_location := "Gilgit";
     b_departure_date := 20261201; b_departure_time := "09:00";
     b_return_date := None; b_return_time := None;
     b_preferred_airline := Py.VStr "Fly Jinnah";
     b_preferred_seating := Py.VStr "economy";
     b_num_adults := 1; b_num_children := 0; b_num_infants := 0;
     b_num_travelers := 1; b_fare_type := Py.VStr "one_way"; b_message := "";
     b_total_price := inject_Z 100; b_customer_full_name := "Fly Jinnah Ops";
     b_customer_phone := "0301"; b_customer_email := "ops@jinnah.pk";
     b_status := "pending"; b_booking_date := 900 |}.

Definition db : Db.t :=
  {| users := [root_user; jinnah_user];
     user_roles :=
       [ {| ur_role_id := 1; ur_role_name := "admin"; ur_user_id := Some 1 |};
         {| ur_role_id := 2; ur_role_name := "vendor"; ur_user_id := Some 3 |} ];
     vendor_profiles := [jinnah_profile];
     destinations := [hunza];
     pending_destinations := [skardu];
     packages := [hunza_week];
     pending_packages := [skardu_trek];
     bookings := [jinnah_booking];
     reviews := [];
     destination_seq := 2; package_seq := 2; booking_seq := 2; review_id_seq := 1 |}.

(** A booking of two adults that names a total of one. *)
Definition cheap_booking : Request :=
  request vendor_session
    [ ("package_id", Py.VInt 1); ("from_location", Py.VStr "Karachi");
      ("to_location", Py.VStr "Gilgit"); ("departure_date", Py.VStr "2026-12-01");
      ("departure_time", Py.VStr "09:00"); ("preferred_airline", Py.VStr "Fly Jinnah");
      ("preferred_seating", Py.VStr "economy"); ("num_adults", Py.VInt 2);
      ("fare_type", Py.VStr "one_way"); ("full_name", Py.VStr "Fly Jinnah Ops");
      ("phone", Py.VStr "0301"); ("email", Py.VStr "Ops@Jinnah.pk");
      ("total_price", Py.VInt 1) ].

(** The row that request leaves in [bookings]. *)
Definition cheap_booking_row : Booking :=
  {| b_booking_id := 2; b_user_id := 3; b_package_id := 1;
     b_from_location := "Karachi"; b_to_location := "Gilgit";
     b_departure_date := 20261201; b_departure_time := "09:00";
     b_return_date := None; b_return_time := None;
     b_preferred_airline := Py.VStr "Fly Jinnah";
     b_preferred_seating := Py.VStr "economy";
     b_num_adults := 2; b_num_children := 0; b_num_infants := 0;
     b_num_travelers := 2; b_fare_type := Py.VStr "one_way"; b_message := "";
     b_total_price := inject_Z 1; b_customer_full_name := "Fly Jinnah Ops";
     b_customer_phone := "0301"; b_customer_email := "ops@jinnah.pk";
     b_status := "pending"; b_booking_date := 1000 |}.

(** A review whose rating is five and a half. *)
Definition half_star_review : Request :=
  request anonymous [ ("rating", Py.VFloat (Qmake 11 2)) ].

Definition hello : Request := request anonymous [ ("message", Py.VStr "hello") ].

Definition wrong_login : Request :=
  request anonymous [ ("username", Py.VStr " jinnah "); ("password", Py.VStr "landing") ].

(** A provider that is down. *)
Definition raising : Chatbot.Client := fun _ => Provider.Raises.

(** A vendor that has registered and waits for approval. *)
Definition karakoram_user : User :=
  {| u_user_id := 5; u_username := "karakoram"; u_email := "hello@karakoram.pk";
     u_password_hash := "scrypt$summit8611"; u_full_name := "Karakoram Tours";
     u_phone := "0302"; u_role_id := 2; u_is_active := 0; u_last_login := None |}.

Definition karakoram_profile : VendorProfile :=
  {| vp_vendor_id := 9; vp_user_id := 5; vp_company_name := "Karakoram Tours";
     vp_business_license := "CAA-99"; vp_rating := Some (inject_Z 0);
     vp_verification_status := "pending"; vp_image_url := None |}.

(** The example database with a role for customers and that vendor. *)
Definition open_db : Db.t :=
  with_vendor_profiles [jinnah_profile; karakoram_profile]
    (with_users [root_user; jinnah_user; karakoram_user]
       (with_user_roles
          (user_roles db
             ++ [ {| ur_role_id := 3; ur_role_name := "customer"; ur_user_id := None |} ])
          db)).

(** The vendor's user logs in with the password its legacy digest was
    made of. *)
Definition legacy_login : Request :=
  request anonymous [ ("username", Py.VStr "jinnah"); ("password", Py.VStr "takeoff") ].

(** The vendor submits a destination. *)
Definition submit_fairy_meadows : Request :=
  request vendor_session
    [ ("name", Py.VStr " Fairy Meadows "); ("country", Py.VStr "Pakistan");
      ("description", Py.VStr "Grassland below Nanga Parbat") ].

(** A provider that answers every call with one choice of the given
    text. *)
Definition answering (text : string) : Provider.Outcome :=
  Provider.Returns
    (Some {| Provider.choices :=
               [ {| Provider.content := Some text; Provider.tool_calls := [] |} ] |}).

(** A copywriter that opens with a preamble and marks words up. *)
Definition copywriter : string -> string -> Py.value -> Py.value -> Provider.Outcome :=
  fun _ _ _ _ =>
    answering ("Sure!" +:+ String Py.newline "**Skardu** is a *cold* desert.").

Definition describe_skardu : Request :=
  request vendor_session [ ("name", Py.VStr "Skardu"); ("country", Py.VStr "Pakistan") ].

(** Four ratings, and four of which one is out of range. *)
Definition four_ratings : list Chatbot.Review :=
  [ {| Chatbot.rating := 5 |}; {| Chatbot.rating := 4 |};
    {| Chatbot.rating := 4 |}; {| Chatbot.rating := 2 |} ].

Definition bad_ratings : list Chatbot.Review :=
  [ {| Chatbot.rating := 5 |}; {| Chatbot.rating := 0 |};
    {| Chatbot.rating := 4 |}; {| Chatbot.rating := 2 |} ].

(** The JSON text of an object that holds two adults and nothing else. *)
Definition two_adults_json : string :=
  "{" +:+ String (ascii_of_nat 34) "adults" +:+ String (ascii_of_nat 34) ": 2}".

(** A run time whose JSON reader knows the empty object and that one, and
    a provider whose tool call carries the latter. *)
Definition reading_runtime : Runtime :=
  {| int_of_str := decimal;
     float_of_str := fun s => option_map inject_Z (decimal s);
     json_loads := fun s =>
       if String.eqb s "{}" then Some (Py.VDict [])
       else if String.eqb s two_adults_json
            then Some (Py.VDict [("adults", Py.VInt 2)])
            else None;
     format_1f := fun q => pretty (Qfloor q);
     round_1 := fun q => q;
     check_password_hash := fun stored password =>
       Some (String.eqb stored ("scrypt$" +:+ password));
     generate_password_hash := fun _ password => "scrypt$" +:+ password;
     sha256_hexdigest := fun password => "sha256$" +:+ password;
     to_date := fun s => decimal (without_dashes s);
     to_number := fun s => option_map inject_Z (decimal s) |}.

Definition two_adults_tool_call : Chatbot.Client :=
  fun _ =>
    Provider.Returns
      (Some {| Provider.choices :=
                 [ {| Provider.content := None;
                      Provider.tool_calls :=
                        [ {| Provider.arguments := two_adults_json |} ] |} ] |}).

(** The greeting, sent with a history whose one item is a text. *)
Definition hello_with_text_history : Request :=
  request anonymous
    [ ("message", Py.VStr "hello"); ("history", Py.VList [Py.VStr "x"]) ].

(** A customer and a vendor fill in the registration form. *)
Definition signup_customer : Request :=
  request anonymous
    [ ("full_name", Py.VStr "Amna Khan"); ("username", Py.VStr " amna ");
      ("email", Py.VStr "Amna@Example.pk"); ("phone", Py.VStr "0333");
      ("password", Py.VStr "mountains") ].

Definition signup_vendor : Request :=
  request anonymous
    [ ("full_name", Py.VStr "Deosai Travels"); ("username", Py.VStr "deosai");
      ("email", Py.VStr "desk@deosai.pk"); ("phone", Py.VStr "0344");
      ("password", Py.VStr "plateau4114"); ("account_type", Py.VStr "vendor");
      ("company_name", Py.VStr "Deosai Travels");
      ("business_license", Py.VStr "CAA-41") ].

End Demo.

(** ** Vocabulary of the properties *)

Module Spec.
Import Db App.

(** The session of a logged-in administrator. *)
Definition is_admin (req : Request) (admin_id : Z) : Prop :=
  s_user_id (session req) = Some admin_id /\ s_role (session req) = Some "admin".

(** A live destination carries the submitted fields of a pending one. *)
Definition same_destination (pd : PendingDestination) (d : Destination) : Prop :=
  d_name d = pd_name pd /\ d_country d = pd_country pd
  /\ d_description d = pd_description pd /\ d_image_url d = pd_image_url pd.

(** A live package carries the seventeen submitted fields of a pending one. *)
Definition same_package (pp : PendingPackage) (p : Package) : Prop :=
  p_vendor_id p = pp_vendor_id pp /\ p_destination_id p = pp_destination_id pp
  /\ p_name p = pp_name pp /\ p_description p = pp_description pp
  /\ p_duration_days p = pp_duration_days pp
  /\ p_max_travelers p = pp_max_travelers pp
  /\ p_includes p = pp_includes pp /\ p_image_url p = pp_image_url pp
  /\ p_adult_price p = pp_adult_price pp /\ p_child_price p = pp_child_price pp
  /\ p_infant_price p = pp_infant_price pp
  /\ p_economy_adult_price p = pp_economy_adult_price pp
  /\ p_economy_child_price p = pp_economy_child_price pp
  /\ p_economy_infant_price p = pp_economy_infant_price pp
  /\ p_business_adult_price p = pp_business_adult_price pp
  /\ p_business_child_price p = pp_business_child_price pp
  /\ p_business_infant_price p = pp_business_infant_price pp.

(** [new] is [old] decided: the status, the reviewer and the review time
    are set, and what the vendor submitted is as it was. *)
Definition destination_decided (status : string) (admin_id at_time : Z)
    (old new : PendingDestination) : Prop :=
  pd_status new = status /\ pd_reviewed_by new = Some admin_id
  /\ pd_reviewed_at new = Some at_time
  /\ pd_pending_id new = pd_pending_id old /\ pd_vendor_id new = pd_vendor_id old
  /\ pd_name new = pd_name old /\ pd_country new = pd_country old
  /\ pd_description new = pd_description old /\ pd_image_url new = pd_image_url old.

Definition package_decided (status : string) (admin_id at_time : Z)
    (old new : PendingPackage) : Prop :=
  pp_status new = status /\ pp_reviewed_by new = Some admin_id
  /\ pp_reviewed_at new = Some at_time
  /\ pp_pending_pkg_id new = pp_pending_pkg_id old
  /\ forall p : Package, same_package old p <-> same_package new p.

(** The pending table after a decision on [pending_id]: that row decided,
    every other row as it was, none added or removed. *)
Definition destinations_reviewed (pending_id : Z) (status : string)
    (admin_id at_time : Z) (before after : list PendingDestination) : Prop :=
  Forall2 (fun old new =>
             if pd_pending_id old =? pending_id
             then destination_decided status admin_id at_time old new
             else new = old) before after.

Definition packages_reviewed (pending_pkg_id : Z) (status : string)
    (admin_id at_time : Z) (before after : list PendingPackage) : Prop :=
  Forall2 (fun old new =>
             if pp_pending_pkg_id old =? pending_pkg_id
             then package_decided status admin_id at_time old new
             else new = old) before after.

(** No row of any table refers to [user_id]. *)
Definition no_orphans (user_id : Z) (db : Db.t) : Prop :=
  (forall u, u ∈ users db -> u_user_id u <> user_id)
  /\ (forall ur, ur ∈ user_roles db -> ur_user_id ur <> Some user_id)
  /\ (forall vp, vp ∈ vendor_profiles db -> vp_user_id vp <> user_id)
  /\ (forall b, b ∈ bookings db -> b_user_id b <> user_id)
  /\ (forall r, r ∈ reviews db -> r_user_id r <> Some user_id)
  /\ (forall pd, pd ∈ pending_destinations db -> pd_reviewed_by pd <> Some user_id)
  /\ (forall pp, pp ∈ pending_packages db -> pp_reviewed_by pp <> Some user_id).

(** The stored flag is one of the two values the handlers write. *)
Definition is_flag (v : Z) : Prop := v = 0 \/ v = 1.

(** The session of a vendor, or of an administrator acting as one. *)
Definition is_vendor (req : Request) : Prop :=
  is_Some (s_user_id (session req))
  /\ (s_role (session req) = Some "vendor" \/ s_role (session req) = Some "admin").

(** The package ids a catalog reply lists. *)
Definition listed_ids (body : Body) : list Py.value :=
  match body with
  | Packages rows => map (fun row => Py.get row "package_id") rows
  | _ => []
  end.

(** The price tiers of a package: the base prices and the two fare
    classes. *)
Inductive Tier := Standard | Economy | Business.

Definition tier_prices (p : Package) (tier : Tier)
    : option Q * option Q * option Q :=
  match tier with
  | Standard => (p_adult_price p, p_child_price p, p_infant_price p)
  | Economy => (p_economy_adult_price p, p_economy_child_price p,
                p_economy_infant_price p)
  | Business => (p_business_adult_price p, p_business_child_price p,
                 p_business_infant_price p)
  end.

(** The total the specification asks for: each traveler count times the
    package's price of that category in the chosen class. *)
Definition priced_total (p : Package) (tier : Tier) (adults children infants : Z)
    : option Q :=
  match tier_prices p tier with
  | (Some adult, Some child, Some infant) =>
      Some (inject_Z adults * adult + inject_Z children * child
            + inject_Z infants * infant)%Q
  | _ => None
  end.

(** The stored total of [b] is the priced total of its package in some
    tier. *)
Definition total_recomputed (b : Booking) (p : Package) : Prop :=
  exists (tier : Tier) (total : Q),
    priced_total p tier (b_num_adults b) (b_num_children b) (b_num_infants b)
      = Some total
    /\ (b_total_price b == total)%Q.

(** A text that does not start with white space. *)
Definition starts_clean (s : string) : Prop :=
  match s with
  | EmptyString => True
  | String c _ => Py.is_space c = false
  end.

(** The provider fails [bot] on [call]: the credentials are missing, or the
    client raises when it is given that call. *)
Definition fails_on (bot : Chatbot.TravelChatbot) (call : Chatbot.Call) : Prop :=
  Chatbot.unavailable bot = true
  \/ exists create : Chatbot.Client,
       Chatbot.client bot = Some create /\ create call = Provider.Raises.

(** [not user_message or not user_message.strip()] *)
Definition blank (user_message : string) : bool :=
  negb (Py.truthy_str user_message) || negb (Py.truthy_str (Py.strip user_message)).

(** The reply of [chat] when the provider fails: chosen by the message
    and by whether a client is held, and by nothing else. *)
Definition chat_canned (bot : Chatbot.TravelChatbot) (user_message : string)
    : Chatbot.ChatReply :=
  if Chatbot.unavailable bot then Chatbot.chat_unavailable
  else if blank user_message then Chatbot.chat_empty
  else Chatbot.chat_fallback user_message.

(** A history [chat] can read: one that is false, or a list whose last
    ten items are objects. *)
Definition history_readable (conversation_history : Py.value) : Prop :=
  Py.truthy conversation_history = false
  \/ exists items : list Py.value,
       conversation_history = Py.VList items
       /\ Forall (fun msg => exists fields, msg = Py.VDict fields)
            (Chatbot.last_n 10 items).

(** The keys of the dictionary [extract_booking_intent] returns. *)
Definition intent_keys : list string :=
  [ "destination_type"; "destination_name"; "duration_days"; "adults"; "children";
    "infants"; "max_budget"; "preferred_month"; "interests" ].

(** The endpoints behind [admin_required], at one id. *)
Definition admin_endpoints (id : Z) : list Handler :=
  [ approve_vendor id; reject_vendor id; approve_destination id;
    reject_destination id; approve_package id; reject_package id ].

(** The endpoints behind [vendor_required], at one id. *)
Definition vendor_endpoints (id : Z) : list Handler :=
  [ delete_vendor_package id; toggle_package_status id; vendor_add_destination id ].

(** [new] is [old] but for its active flag. *)
Definition same_but_flag (old new : Package) : Prop :=
  new = set_is_active (p_is_active new) old.

End Spec.

(** * Properties *)

Section QuickReplies.

(** C9: for every context, absent, empty or any text, [get_quick_replies]
    returns exactly five suggestions, none of them empty; the list is a
    function of the context alone: the chatbot it is called on, and with it
    the provider, has no part in it. *)
Theorem get_quick_replies_five (self : Chatbot.TravelChatbot) (context : option string) :
  length (Chatbot.get_quick_replies self context) = 5%nat
  /\ Forall (fun s => s <> "") (Chatbot.get_quick_replies self context)
  /\ forall other : Chatbot.TravelChatbot,
       Chatbot.get_quick_replies other context = Chatbot.get_quick_replies self context.
Proof.
  unfold Chatbot.get_quick_replies.
  repeat split; try reflexivity.
  - repeat case_match; reflexivity.
  - repeat case_match; repeat constructor; discriminate.
Qed.

End QuickReplies.

Section ReviewSummaries.
Context `{Runtime}.

Lemma no_reviews_yet_neutral :
  Chatbot.no_reviews_yet !! "sentiment" = Some (Py.VStr "neutral").
Proof. vm_compute. reflexivity. Qed.

Lemma few_reviews_neutral (reviews : list Chatbot.Review) :
  Chatbot.few_reviews reviews !! "sentiment" = Some (Py.VStr "neutral").
Proof.
  unfold Chatbot.few_reviews. cbn [list_to_map foldr uncurry fst snd].
  rewrite lookup_insert_ne by discriminate.
  apply lookup_insert_eq.
Qed.

(** C10: for a list of at most two reviews [summarize_reviews] returns a
    fallback of sentiment neutral that is fixed by the reviews and by
    whether a client is held: what the provider would answer, and the
    package name, have no part in it.  The empty list yields the
    "No reviews yet" summary on every chatbot, with or without a client. *)
Theorem summarize_reviews_small (self : Chatbot.TravelChatbot)
    (reviews : list Chatbot.Review) (package_name : string) :
  (length reviews <= 2)%nat ->
  exists d : Py.dict,
    Chatbot.summarize_reviews self reviews package_name = Py.Ok d
    /\ d !! "sentiment" = Some (Py.VStr "neutral")
    /\ d = (if Chatbot.unavailable self || (length reviews =? 0)%nat
            then Chatbot.no_reviews_yet else Chatbot.few_reviews reviews)
    /\ (forall (other : Chatbot.TravelChatbot) (name : string),
          Chatbot.unavailable other = Chatbot.unavailable self ->
          Chatbot.summarize_reviews other reviews name = Py.Ok d)
    /\ (reviews = [] ->
        d !! "summary"
          = Some (Py.VStr "No reviews yet. Be the first to share your experience!")
        /\ forall (other : Chatbot.TravelChatbot) (name : string),
             Chatbot.summarize_reviews other reviews name = Py.Ok d).
Proof.
  intros Hlen.
  assert (Hle : (length reviews <=? 2)%nat = true) by (apply Nat.leb_le; exact Hlen).
  unfold Chatbot.summarize_reviews.
  destruct (Chatbot.unavailable self) eqn:Hun; cbn [orb].
  - exists Chatbot.no_reviews_yet.
    split; [reflexivity |]. split; [apply no_reviews_yet_neutral |].
    split; [reflexivity |]. split.
    + intros other name Hother. rewrite Hother. reflexivity.
    + intros ->. split; [vm_compute; reflexivity |].
      intros other name. cbn.
      destruct (Chatbot.unavailable other); reflexivity.
  - destruct (length reviews =? 0)%nat eqn:Hzero.
    + exists Chatbot.no_reviews_yet.
      split; [reflexivity |]. split; [apply no_reviews_yet_neutral |].
      split; [reflexivity |]. split.
      * intros other name Hother. rewrite Hother. reflexivity.
      * intros ->. split; [vm_compute; reflexivity |].
        intros other name. cbn.
        destruct (Chatbot.unavailable other); reflexivity.
    + rewrite Hle. exists (Chatbot.few_reviews reviews).
      split; [reflexivity |]. split; [apply few_reviews_neutral |].
      split; [reflexivity |]. split.
      * intros other name Hother. rewrite Hother. reflexivity.
      * intros ->. discriminate Hzero.
Qed.

End ReviewSummaries.

(** Two ratings on a chatbot whose provider is down. *)
Lemma summarize_reviews_small_witness :
  exists d : Py.dict,
    Chatbot.summarize_reviews (H := Demo.runtime) (Chatbot.init (Some Demo.raising))
      [ {| Chatbot.rating := 5 |}; {| Chatbot.rating := 2 |} ] "Hunza Week" = Py.Ok d
    /\ d !! "sentiment" = Some (Py.VStr "neutral").
Proof.
  destruct (summarize_reviews_small (H := Demo.runtime)
              (Chatbot.init (Some Demo.raising))
              [ {| Chatbot.rating := 5 |}; {| Chatbot.rating := 2 |} ] "Hunza Week")
    as (d & Hd & Hs & _).
  - cbn. lia.
  - exists d. split; assumption.
Defined.

(** ** Reading and writing tables *)

Section Tables.
Context {A : Type}.

Lemma fetchone_the_row (key : A -> Z) (cond : A -> bool) (rows : list A) (x : A) :
  NoDup (map key rows) -> x ∈ rows -> cond x = true ->
  (forall y, cond y = true -> key y = key x) ->
  Db.fetchone cond rows = Some x.
Proof.
  unfold Db.fetchone. intros Hnd Hin Hx Hkey.
  induction rows as [|a rows IH]; [inversion Hin |].
  cbn [map] in Hnd. apply NoDup_cons in Hnd. destruct Hnd as [Hnotin Hnd].
  cbn [List.find]. apply elem_of_cons in Hin. destruct (cond a) eqn:Ha.
  - destruct Hin as [-> | Hin]; [reflexivity |].
    exfalso. apply Hnotin. rewrite (Hkey a Ha).
    apply list_elem_of_In, in_map, list_elem_of_In. exact Hin.
  - destruct Hin as [-> | Hin]; [congruence |].
    apply IH; assumption.
Qed.

Lemma update_Forall2 (cond : A -> bool) (set : A -> A) (R : A -> A -> Prop)
    (rows : list A) :
  (forall x, cond x = true -> R x (set x)) ->
  (forall x, cond x = false -> R x x) ->
  Forall2 R rows (Db.update cond set rows).
Proof.
  intros Hset Hkeep. unfold Db.update.
  induction rows as [|a rows IH]; cbn [map]; constructor; [| exact IH].
  destruct (cond a) eqn:Ha; auto.
Qed.

End Tables.

(** ** Moderation of destinations and packages *)

Section Moderation.
Import Db App Spec.

Lemma admin_passes (f : Handler) (req : Request) (db : Db.t) (admin_id : Z) :
  is_admin req admin_id -> admin_required f req db = f req db.
Proof.
  intros [Hu Hr]. unfold admin_required. rewrite Hu, Hr.
  rewrite bool_decide_eq_true_2 by reflexivity. reflexivity.
Qed.

Lemma update_elem {A} (cond : A -> bool) (set : A -> A) (rows : list A) (x : A) :
  x ∈ rows -> cond x = true -> set x ∈ update cond set rows.
Proof.
  intros Hin Hx. unfold update.
  apply list_elem_of_In. apply list_elem_of_In in Hin.
  apply in_map_iff. exists x. rewrite Hx. split; [reflexivity | exact Hin].
Qed.

Lemma review_package_decided (status : string) (req : Request) (admin_id : Z)
    (pp : PendingPackage) :
  s_user_id (session req) = Some admin_id ->
  package_decided status admin_id (now req) pp (review_package status req pp).
Proof.
  intros Hu. unfold package_decided. cbn. rewrite Hu.
  do 4 (split; [reflexivity |]).
  intros p. unfold same_package. cbn. reflexivity.
Qed.

(** C1: an administrator approves a pending row once, the database being
    reachable and the pending id being a key of its table.  The handler
    answers 200; the live table is the old one followed by exactly one row,
    whose fields are the submitted ones; the pending row is marked approved
    with the administrator's id and the time of the request, every other
    pending row is as it was.  For destinations and for packages. *)
Theorem approve_copies_once (req : Request) (db : Db.t) (admin_id : Z) :
  is_admin req admin_id -> pool req = true ->
  (forall pd : PendingDestination,
     NoDup (map pd_pending_id (pending_destinations db)) ->
     pd ∈ pending_destinations db -> pd_status pd = "pending" ->
     exists (live : Destination) (pd' : PendingDestination) (db' : Db.t),
       approve_destination (pd_pending_id pd) req db
         = ((Message true "Destination approved", 200), db')
       /\ destinations db' = (destinations db ++ [live])%list
       /\ same_destination pd live
       /\ pd' ∈ pending_destinations db'
       /\ destination_decided "approved" admin_id (now req) pd pd'
       /\ destinations_reviewed (pd_pending_id pd) "approved" admin_id (now req)
            (pending_destinations db) (pending_destinations db')
       /\ packages db' = packages db)
  /\ (forall pp : PendingPackage,
        NoDup (map pp_pending_pkg_id (pending_packages db)) ->
        pp ∈ pending_packages db -> pp_status pp = "pending" ->
        exists (live : Package) (pp' : PendingPackage) (db' : Db.t),
          approve_package (pp_pending_pkg_id pp) req db
            = ((Message true "Package approved", 200), db')
          /\ packages db' = (packages db ++ [live])%list
          /\ same_package pp live /\ p_is_active live = 1
          /\ pp' ∈ pending_packages db'
          /\ package_decided "approved" admin_id (now req) pp pp'
          /\ packages_reviewed (pp_pending_pkg_id pp) "approved" admin_id (now req)
               (pending_packages db) (pending_packages db')
          /\ destinations db' = destinations db).
Proof.
  intros Hadmin Hpool. pose proof Hadmin as [Hu Hr]. split.
  - intros pd Hnd Hin Hst.
    unfold approve_destination. rewrite (admin_passes _ _ _ _ Hadmin).
    rewrite Hpool. cbn [negb].
    rewrite (fetchone_the_row pd_pending_id _ _ pd Hnd Hin).
    + eexists _, (review_destination "approved" req pd), _.
      split; [reflexivity |]. cbn.
      split; [reflexivity |].
      split; [repeat split |].
      split; [apply update_elem; [exact Hin | apply Z.eqb_refl] |].
      split; [unfold destination_decided; cbn; rewrite Hu; repeat split |].
      split; [| reflexivity].
      apply update_Forall2.
      * intros x Hx. rewrite Hx.
        unfold destination_decided. cbn. rewrite Hu. repeat split.
      * intros x Hx. rewrite Hx. reflexivity.
    + rewrite Z.eqb_refl, Hst. reflexivity.
    + intros y Hy. apply andb_prop in Hy. destruct Hy as [Hy _].
      apply Z.eqb_eq. exact Hy.
  - intros pp Hnd Hin Hst.
    unfold approve_package. rewrite (admin_passes _ _ _ _ Hadmin).
    rewrite Hpool. cbn [negb].
    rewrite (fetchone_the_row pp_pending_pkg_id _ _ pp Hnd Hin).
    + eexists _, (review_package "approved" req pp), _.
      split; [reflexivity |]. cbn.
      split; [reflexivity |].
      split; [repeat split |].
      split; [reflexivity |].
      split; [apply update_elem; [exact Hin | apply Z.eqb_refl] |].
      split; [apply review_package_decided; exact Hu |].
      split; [| reflexivity].
      apply update_Forall2.
      * intros x Hx. rewrite Hx. apply review_package_decided. exact Hu.
      * intros x Hx. rewrite Hx. reflexivity.
    + rewrite Z.eqb_refl, Hst. reflexivity.
    + intros y Hy. apply andb_prop in Hy. destruct Hy as [Hy _].
      apply Z.eqb_eq. exact Hy.
Qed.

(** The guard of [approve_destination]: when no row of that id is pending,
    the answer is 404 and nothing is written. *)
Lemma approve_destination_decided (req : Request) (db : Db.t) (pending_id : Z) :
  (forall pd, pd ∈ pending_destinations db -> pd_pending_id pd = pending_id ->
              pd_status pd <> "pending") ->
  pool req = true ->
  forall admin_id, is_admin req admin_id ->
  approve_destination pending_id req db
    = ((Message false "Destination not found", 404), db).
Proof.
  intros Hdecided Hpool admin_id Hadmin.
  unfold approve_destination. rewrite (admin_passes _ _ _ _ Hadmin).
  rewrite Hpool. cbn [negb].
  destruct (fetchone _ (pending_destinations db)) as [row|] eqn:Hrow; [| reflexivity].
  exfalso. unfold fetchone in Hrow. apply find_some in Hrow.
  destruct Hrow as [Hin Hcond]. apply andb_prop in Hcond.
  destruct Hcond as [Hid Hst].
  apply (Hdecided row).
  - apply list_elem_of_In. exact Hin.
  - apply Z.eqb_eq. exact Hid.
  - apply String.eqb_eq. exact Hst.
Qed.

(** C2: the failing run.  The administrator approves pending destination 1
    and then decides it again.  A second approval is refused with 404 and
    changes nothing.  A rejection is accepted with 200: the row that was
    approved now reads rejected, and the live row made by the approval is
    still there.  [reject_package] does the same. *)
Theorem reject_after_approve_accepted :
  let req := Demo.request Demo.admin_session [] in
  let approved := snd (approve_destination 1 req Demo.db) in
  let rejected := snd (reject_destination 1 req approved) in
  let approved_pkg := snd (approve_package 4 req Demo.db) in
  let rejected_pkg := snd (reject_package 4 req approved_pkg) in
  map pd_status (pending_destinations approved) = ["approved"]
  /\ approve_destination 1 req approved
     = ((Message false "Destination not found", 404), approved)
  /\ fst (reject_destination 1 req approved) = (Message true "Destination rejected", 200)
  /\ map pd_status (pending_destinations rejected) = ["rejected"]
  /\ map d_name (destinations rejected) = ["Hunza"; "Skardu"]
  /\ map pp_status (pending_packages approved_pkg) = ["approved"]
  /\ fst (reject_package 4 req approved_pkg) = (Message true "Package rejected", 200)
  /\ map pp_status (pending_packages rejected_pkg) = ["rejected"]
  /\ map p_name (packages rejected_pkg) = [Some "Hunza Week"; Some "Skardu Trek"].
Proof. vm_compute. repeat split. Qed.

End Moderation.

(** The administrator approves the pending destination and the pending
    package of the example database. *)
Lemma approve_copies_once_witness :
  (exists (live : Db.Destination) (db' : Db.t),
     App.approve_destination 1 (Demo.request Demo.admin_session []) Demo.db
       = ((App.Message true "Destination approved", 200), db')
     /\ Db.destinations db' = [Demo.hunza; live]
     /\ Spec.same_destination Demo.skardu live)
  /\ (exists (live : Db.Package) (db' : Db.t),
        App.approve_package 4 (Demo.request Demo.admin_session []) Demo.db
          = ((App.Message true "Package approved", 200), db')
        /\ Db.packages db' = [Demo.hunza_week; live]
        /\ Spec.same_package Demo.skardu_trek live).
Proof.
  destruct (approve_copies_once (Demo.request Demo.admin_session []) Demo.db 1)
    as [Hd Hp].
  - split; reflexivity.
  - reflexivity.
  - split.
    + destruct (Hd Demo.skardu) as (live & _ & db' & H1 & H2 & H3 & _).
      * cbn. apply NoDup_singleton.
      * cbn. apply list_elem_of_here.
      * reflexivity.
      * exists live, db'. split; [exact H1 | split; [exact H2 | exact H3]].
    + destruct (Hp Demo.skardu_trek) as (live & _ & db' & H1 & H2 & H3 & _).
      * cbn. apply NoDup_singleton.
      * cbn. apply list_elem_of_here.
      * reflexivity.
      * exists live, db'. split; [exact H1 | split; [exact H2 | exact H3]].
Defined.

(** ** Rejecting a vendor *)

Section Vendors.
Import Db App Spec.

Lemma delete_elem {A} (cond : A -> bool) (rows : list A) (x : A) :
  x ∈ delete cond rows <-> x ∈ rows /\ cond x = false.
Proof.
  unfold delete. rewrite !list_elem_of_In, filter_In, negb_true_iff. reflexivity.
Qed.

(** What a rejection deletes: an administrator rejects a vendor, the database
    being reachable.  The handler answers 200; no [vendor_profiles] row of
    that vendor id, no [user_roles] row of the vendor's user and no [users]
    row of that user is left, and every other row of these three tables is
    kept; the other tables are not touched, so a booking or a review of
    that user stays where it was. *)
Theorem reject_vendor_deletes (req : Request) (db : Db.t) (admin_id vendor_id : Z)
    (vp : VendorProfile) :
  is_admin req admin_id -> pool req = true ->
  fetchone (fun row => vp_vendor_id row =? vendor_id) (vendor_profiles db) = Some vp ->
  exists db' : Db.t,
    reject_vendor vendor_id req db
      = ((Message true "Vendor rejected and removed", 200), db')
    /\ (forall row, row ∈ vendor_profiles db' <->
                    row ∈ vendor_profiles db /\ vp_vendor_id row <> vendor_id)
    /\ (forall ur, ur ∈ user_roles db' <->
                   ur ∈ user_roles db /\ ur_user_id ur <> Some (vp_user_id vp))
    /\ (forall u, u ∈ users db' <->
                  u ∈ users db /\ u_user_id u <> vp_user_id vp)
    /\ bookings db' = bookings db /\ reviews db' = reviews db
    /\ packages db' = packages db /\ pending_packages db' = pending_packages db
    /\ destinations db' = destinations db
    /\ pending_destinations db' = pending_destinations db.
Proof.
  intros Hadmin Hpool Hvp.
  unfold reject_vendor. rewrite (admin_passes _ _ _ _ Hadmin).
  rewrite Hpool. cbn [negb]. rewrite Hvp.
  eexists. split; [reflexivity |]. cbn -[delete].
  split; [| split; [| split; [| repeat split]]].
  - intros row. rewrite delete_elem. rewrite Z.eqb_neq. reflexivity.
  - intros ur. rewrite delete_elem.
    destruct (ur_user_id ur) as [n|]; cbn.
    + rewrite Z.eqb_neq. split; intros [Hin Hne]; (split; [exact Hin | congruence]).
    + split; intros [Hin _]; (split; [exact Hin | congruence]).
  - intros u. rewrite delete_elem. rewrite Z.eqb_neq. reflexivity.
Qed.

(** C5: the failing run.  Vendor 7 of the example database is verified and
    its user 3 has made a booking.  [approve_vendor], which tests that the
    profile is pending, answers 404 for it and writes nothing;
    [reject_vendor], which does not, answers 200, removes user 3 from
    [users] and leaves the booking, which still refers to user 3: an orphan
    row remains. *)
Lemma reject_vendor_leaves_orphan :
  let req := Demo.request Demo.admin_session [] in
  let db' := snd (reject_vendor 7 req Demo.db) in
  vp_verification_status Demo.jinnah_profile = "verified"
  /\ approve_vendor 7 req Demo.db
     = ((Message false "Vendor not found or already processed", 404), Demo.db)
  /\ fst (reject_vendor 7 req Demo.db) = (Message true "Vendor rejected and removed", 200)
  /\ users db' = [Demo.root_user]
  /\ Demo.jinnah_booking ∈ bookings db'
  /\ b_user_id Demo.jinnah_booking = 3
  /\ ~ no_orphans 3 db'.
Proof.
  cbv zeta.
  split; [reflexivity |]. split; [reflexivity |].
  split; [reflexivity |]. split; [reflexivity |].
  split; [apply list_elem_of_here |]. split; [reflexivity |].
  intros (_ & _ & _ & Hb & _).
  apply (Hb Demo.jinnah_booking); [apply list_elem_of_here | reflexivity].
Qed.

End Vendors.

(** The administrator rejects vendor 7 of the example database. *)
Lemma reject_vendor_deletes_witness :
  exists db' : Db.t,
    App.reject_vendor 7 (Demo.request Demo.admin_session []) Demo.db
      = ((App.Message true "Vendor rejected and removed", 200), db')
    /\ Db.bookings db' = Db.bookings Demo.db.
Proof.
  destruct (reject_vendor_deletes (Demo.request Demo.admin_session []) Demo.db 1 7
              Demo.jinnah_profile) as (db' & H1 & _ & _ & _ & H2 & _).
  - split; reflexivity.
  - reflexivity.
  - reflexivity.
  - exists db'. split; assumption.
Defined.

(** ** The active flag and the public catalog *)

Section Catalog.
Context `{Runtime}.
Import Db App Spec.

Lemma vendor_passes (f : Handler) (req : Request) (db : Db.t) :
  is_vendor req -> vendor_required f req db = f req db.
Proof.
  intros [[uid Hu] Hr]. unfold vendor_required. rewrite Hu.
  destruct Hr as [Hr | Hr]; rewrite Hr; reflexivity.
Qed.

Lemma key_determines_row {A} (key : A -> Z) (rows : list A) (x y : A) :
  NoDup (map key rows) -> x ∈ rows -> y ∈ rows -> key x = key y -> x = y.
Proof.
  intros Hnd Hx Hy Hkey.
  induction rows as [|a rows IH]; [inversion Hx |].
  cbn [map] in Hnd. apply NoDup_cons in Hnd. destruct Hnd as [Hnotin Hnd].
  apply elem_of_cons in Hx. apply elem_of_cons in Hy.
  destruct Hx as [-> | Hx], Hy as [-> | Hy].
  - reflexivity.
  - exfalso. apply Hnotin. rewrite Hkey.
    apply list_elem_of_In, in_map, list_elem_of_In. exact Hy.
  - exfalso. apply Hnotin. rewrite <- Hkey.
    apply list_elem_of_In, in_map, list_elem_of_In. exact Hx.
  - apply IH; assumption.
Qed.

Lemma set_is_active_same (p : Package) : set_is_active (p_is_active p) p = p.
Proof. destruct p. reflexivity. Qed.

Lemma set_is_active_twice (a b : Z) (p : Package) :
  set_is_active b (set_is_active a p) = set_is_active b p.
Proof. reflexivity. Qed.

Lemma update_flag_ids (package_id status : Z) (rows : list Package) :
  map p_package_id
    (update (fun p => p_package_id p =? package_id) (set_is_active status) rows)
  = map p_package_id rows.
Proof.
  unfold update. rewrite map_map. apply map_ext.
  intros p. destruct (p_package_id p =? package_id); reflexivity.
Qed.

(** Under the key constraint, setting the flag of [p]'s id to the flag [p]
    has leaves the table as it is. *)
Lemma update_flag_back (rows : list Package) (p : Package) (status : Z) :
  NoDup (map p_package_id rows) -> p ∈ rows ->
  update (fun q => p_package_id q =? p_package_id p) (set_is_active (p_is_active p))
    (update (fun q => p_package_id q =? p_package_id p) (set_is_active status) rows)
  = rows.
Proof.
  intros Hnd Hin. unfold update. rewrite map_map.
  rewrite <- (map_id rows) at 2. apply map_ext_in.
  intros q Hq. apply list_elem_of_In in Hq.
  destruct (p_package_id q =? p_package_id p) eqn:Hid.
  - cbn. rewrite Hid. rewrite set_is_active_twice.
    apply Z.eqb_eq in Hid.
    rewrite (key_determines_row p_package_id rows q p Hnd Hq Hin Hid).
    apply set_is_active_same.
  - rewrite Hid. reflexivity.
Qed.

Lemma with_packages_same (db : Db.t) :
  with_packages (packages db) (package_seq db) db = db.
Proof. destruct db. reflexivity. Qed.

Lemma joined_is_active (db : Db.t) (row : Package * Destination * VendorProfile) :
  row ∈ active_packages_joined db ->
  fst (fst row) ∈ packages db /\ p_is_active (fst (fst row)) = 1.
Proof.
  unfold active_packages_joined. rewrite list_elem_of_In.
  intros Hrow. apply in_flat_map in Hrow. destruct Hrow as (p & Hp & Hrow).
  apply filter_In in Hp. destruct Hp as [Hp Hact].
  apply in_flat_map in Hrow. destruct Hrow as (d & _ & Hrow).
  apply in_flat_map in Hrow. destruct Hrow as (vp & _ & Hrow).
  destruct Hrow as [<- | []]. cbn.
  split; [apply list_elem_of_In; exact Hp | apply Z.eqb_eq; exact Hact].
Qed.

Lemma catalog_rows_active (destination_id : option string) (db : Db.t)
    (rows : list (Package * Destination * VendorProfile))
    (row : Package * Destination * VendorProfile) :
  catalog_rows destination_id db = Some rows -> row ∈ rows ->
  row ∈ active_packages_joined db.
Proof.
  unfold catalog_rows, order_by_text. intros Hrows Hrow.
  destruct (Py.truthy_str (default "" destination_id)).
  - destruct (to_number (default "" destination_id)) as [dest_id|]; [| discriminate].
    injection Hrows as <-.
    rewrite merge_sort_Permutation in Hrow.
    apply list_elem_of_In in Hrow. apply filter_In in Hrow.
    apply list_elem_of_In. exact (proj1 Hrow).
  - injection Hrows as <-.
    rewrite merge_sort_Permutation in Hrow. exact Hrow.
Qed.

Lemma package_dict_id (row : Package * Destination * VendorProfile) :
  Py.get (package_dict row) "package_id" = Py.VInt (p_package_id (fst (fst row))).
Proof.
  destruct row as [[p d] vp]. unfold Py.get, package_dict.
  cbn [list_to_map foldr uncurry fst snd].
  rewrite lookup_insert_eq. reflexivity.
Qed.

Lemma update_Forall {A} (P : A -> Prop) (cond : A -> bool) (set : A -> A)
    (rows : list A) :
  (forall x, P (set x)) -> Forall P rows -> Forall P (update cond set rows).
Proof.
  intros Hset Hrows. unfold update. apply Forall_map.
  eapply Forall_impl; [exact Hrows |].
  intros x Hx. cbn. destruct (cond x); [apply Hset | exact Hx].
Qed.

(** The handlers that write [is_active] write 0 or 1: stored flags stay
    flags. *)
Lemma handlers_keep_flags (id : Z) (req : Request) (db : Db.t) :
  Forall (fun p => is_flag (p_is_active p)) (packages db) ->
  Forall (fun p => is_flag (p_is_active p))
    (packages (snd (toggle_package_status id req db)))
  /\ Forall (fun p => is_flag (p_is_active p))
       (packages (snd (delete_vendor_package id req db)))
  /\ Forall (fun p => is_flag (p_is_active p))
       (packages (snd (approve_package id req db))).
Proof.
  intros Hflags.
  unfold toggle_package_status, delete_vendor_package, approve_package,
    vendor_required, admin_required.
  repeat split; repeat case_match;
    cbn [snd packages with_packages with_pending_packages];
    try exact Hflags;
    try (apply update_Forall; [| exact Hflags];
         intros x; unfold is_flag; cbn; tauto).
  apply Forall_app. split; [exact Hflags |].
  constructor; [right; reflexivity | constructor].
Qed.

(** C7: [package_id] being the key of [packages], let [p] be a live
    package.  When the caller is the vendor that owns it, the database is
    reachable and the stored flag is 0 or 1, two toggles are both answered
    200, the first one flips the flag and the second one gives back the
    database as it was.  When the flag of [p] is not 1, no reply of the
    public listing, whatever the request, lists the id of [p]. *)
Theorem toggle_twice_and_catalog (db : Db.t) (p : Package) :
  NoDup (map p_package_id (packages db)) -> p ∈ packages db ->
  (forall req : Request,
     is_vendor req -> pool req = true ->
     p_vendor_id p = s_vendor_id (session req) -> is_flag (p_is_active p) ->
     exists (m1 m2 : string) (db1 : Db.t),
       toggle_package_status (p_package_id p) req db = ((Message true m1, 200), db1)
       /\ set_is_active (1 - p_is_active p) p ∈ packages db1
       /\ toggle_package_status (p_package_id p) req db1 = ((Message true m2, 200), db))
  /\ (p_is_active p <> 1 ->
      forall req : Request,
        Py.VInt (p_package_id p) ∉ listed_ids (fst (fst (get_packages req db)))).
Proof.
  intros Hnd Hin. split.
  - intros req Hvendor Hpool Howner Hflag.
    assert (Hfetch : forall rows q, NoDup (map p_package_id rows) -> q ∈ rows ->
              p_package_id q = p_package_id p ->
              fetchone (fun x => p_package_id x =? p_package_id p) rows = Some q).
    { intros rows q Hr Hq Hid.
      apply (fetchone_the_row p_package_id _ rows q Hr Hq).
      - apply Z.eqb_eq. exact Hid.
      - intros y Hy. apply Z.eqb_eq in Hy. congruence. }
    set (new_status := if p_is_active p =? 1 then 0 else 1).
    assert (Hnew : new_status = 1 - p_is_active p).
    { unfold new_status. destruct Hflag as [-> | ->]; reflexivity. }
    assert (Hback : (if new_status =? 1 then 0 else 1) = p_is_active p).
    { unfold new_status. destruct Hflag as [-> | ->]; reflexivity. }
    unfold toggle_package_status. rewrite vendor_passes by exact Hvendor.
    rewrite Hpool. cbn [negb].
    rewrite (Hfetch (packages db) p Hnd Hin eq_refl).
    rewrite Howner. rewrite bool_decide_eq_true_2 by reflexivity. cbn [negb].
    fold new_status.
    eexists _, _, _. split; [reflexivity |]. split.
    + cbn. rewrite <- Hnew. apply update_elem; [exact Hin | apply Z.eqb_refl].
    + rewrite vendor_passes by exact Hvendor. rewrite Hpool.
      cbn [negb packages with_packages package_seq].
      rewrite (Hfetch _ (set_is_active new_status p)).
      * cbn [p_vendor_id p_is_active set_is_active].
        rewrite Howner. rewrite bool_decide_eq_true_2 by reflexivity. cbn [negb].
        rewrite Hback. rewrite (update_flag_back _ _ _ Hnd Hin).
        f_equal. destruct db. reflexivity.
      * rewrite update_flag_ids. exact Hnd.
      * apply update_elem; [exact Hin | apply Z.eqb_refl].
      * reflexivity.
  - intros Hoff req Hlisted.
    unfold get_packages in Hlisted.
    destruct (pool req); cbn [negb] in Hlisted; [| inversion Hlisted].
    destruct (catalog_rows (args req !! "destination_id") db) as [rows|] eqn:Hrows;
      [| inversion Hlisted].
    cbn [fst listed_ids] in Hlisted.
    apply list_elem_of_In in Hlisted. apply in_map_iff in Hlisted.
    destruct Hlisted as (entry & Hid & Hentry).
    apply in_map_iff in Hentry. destruct Hentry as (row & <- & Hrow).
    rewrite package_dict_id in Hid. injection Hid as Hid.
    apply list_elem_of_In in Hrow.
    apply (catalog_rows_active _ _ _ _ Hrows) in Hrow.
    apply joined_is_active in Hrow. destruct Hrow as [Hq Hact].
    apply Hoff.
    rewrite <- (key_determines_row p_package_id _ _ _ Hnd Hq Hin Hid).
    exact Hact.
Qed.

End Catalog.

(** The vendor of the example database toggles its package twice; the
    package, once switched off, is absent from the listing. *)
Lemma toggle_twice_and_catalog_witness :
  (exists (m1 m2 : string) (db1 : Db.t),
     App.toggle_package_status 1 (Demo.request Demo.vendor_session []) Demo.db
       = ((App.Message true m1, 200), db1)
     /\ App.toggle_package_status 1 (Demo.request Demo.vendor_session []) db1
         = ((App.Message true m2, 200), Demo.db))
  /\ Py.VInt 1 ∉
       Spec.listed_ids
         (fst (fst (App.get_packages (H := Demo.runtime)
                      (Demo.request Demo.anonymous [])
                      (snd (App.toggle_package_status 1
                              (Demo.request Demo.vendor_session []) Demo.db))))).
Proof.
  split.
  - destruct (toggle_twice_and_catalog (H := Demo.runtime) Demo.db Demo.hunza_week)
      as [Htoggle _].
    + cbn. apply NoDup_singleton.
    + cbn. apply list_elem_of_here.
    + destruct (Htoggle (Demo.request Demo.vendor_session []))
        as (m1 & m2 & db1 & H1 & _ & H2).
      * split; [eexists; reflexivity | left; reflexivity].
      * reflexivity.
      * reflexivity.
      * right. reflexivity.
      * exists m1, m2, db1. split; assumption.
  - destruct (toggle_twice_and_catalog (H := Demo.runtime)
                (snd (App.toggle_package_status 1
                        (Demo.request Demo.vendor_session []) Demo.db))
                (App.set_is_active 0 Demo.hunza_week)) as [_ Hlist].
    + cbn. apply NoDup_singleton.
    + cbn. apply list_elem_of_here.
    + apply Hlist. cbn. discriminate.
Defined.

(** ** Bookings *)

Section Bookings.
Context `{Runtime}.
Import Db App Spec.

Lemma read_booking_form_total (data : Py.dict) (form : BookingForm) :
  read_booking_form data = Py.Ok form ->
  py_float (Py.get data "total_price") = Py.Ok (f_total_price form).
Proof.
  unfold read_booking_form. intros Hform.
  repeat match type of Hform with
         | Py.bind ?m _ = Py.Ok _ =>
             destruct m eqn:?; cbn [Py.bind] in Hform; [discriminate Hform |]
         end.
  injection Hform as <-. reflexivity.
Qed.

Lemma insert_booking_total (req : Request) (user_id package_id : Z)
    (form : BookingForm) (db db' : Db.t) (booking_id : Z) :
  insert_booking req user_id package_id form db = Some (booking_id, db') ->
  exists b : Booking,
    bookings db' = (bookings db ++ [b])%list
    /\ b_booking_id b = booking_id /\ b_total_price b = f_total_price form
    /\ b_num_adults b = f_num_adults form
    /\ b_package_id b = package_id /\ packages db' = packages db.
Proof.
  unfold insert_booking. intros Hins.
  repeat case_match; try discriminate Hins;
    injection Hins as <- <-; eexists; cbn; repeat split.
Qed.

(** C3, as the code has it: the total a created booking stores is the
    [total_price] field of the request, read by [float] and found positive.
    It is also the total the reply repeats.  The package's prices are not
    read: the same request stores the same total on any database. *)
Theorem booking_total_is_client_total (req : Request) (db db' : Db.t)
    (message : string) (booking_id : Z) (total : Q) (package_name : option string) :
  create_booking req db
    = ((BookingCreated message booking_id total package_name, 201), db') ->
  (exists b : Booking,
     bookings db' = (bookings db ++ [b])%list
     /\ b_booking_id b = booking_id /\ b_total_price b = total)
  /\ py_float (Py.get (json req) "total_price") = Py.Ok total
  /\ Qle_bool total 0 = false
  /\ forall (db2 db2' : Db.t) (message2 : string) (booking_id2 : Z) (total2 : Q)
        (package_name2 : option string),
        create_booking req db2
          = ((BookingCreated message2 booking_id2 total2 package_name2, 201), db2') ->
        total2 = total.
Proof.
  assert (Hcore : forall (d d' : Db.t) m i t n,
            create_booking req d = ((BookingCreated m i t n, 201), d') ->
            (exists b : Booking,
               bookings d' = (bookings d ++ [b])%list
               /\ b_booking_id b = i /\ b_total_price b = t)
            /\ py_float (Py.get (json req) "total_price") = Py.Ok t
            /\ Qle_bool t 0 = false).
  { intros d d' m i t n. unfold create_booking. intros Hcreate.
    destruct (s_user_id (session req)) as [user_id|]; [| discriminate Hcreate].
    destruct (user_id =? 0); [discriminate Hcreate |].
    destruct (missing_field (json req)); [discriminate Hcreate |].
    destruct (py_int (Py.get (json req) "package_id")) as [|package_id];
      [discriminate Hcreate |].
    destruct (read_booking_form (json req)) as [e|form] eqn:Hform;
      [destruct e; discriminate Hcreate |].
    apply read_booking_form_total in Hform.
    repeat match type of Hcreate with
           | (if ?c then _ else _) = _ =>
               destruct c eqn:?; [discriminate Hcreate |]
           end.
    destruct (fetchone _ (packages d)); [| discriminate Hcreate].
    destruct (insert_booking req user_id package_id form d) as [[bid d1]|] eqn:Hins;
      [| discriminate Hcreate].
    injection Hcreate as <- <- <- <- <-.
    apply insert_booking_total in Hins.
    destruct Hins as (b & Hb & Hid & Htotal & _).
    split; [exists b; repeat split; assumption |].
    split; assumption. }
  intros Hcreate. destruct (Hcore _ _ _ _ _ _ Hcreate) as (Hb & Hfloat & Hpos).
  split; [exact Hb |]. split; [exact Hfloat |]. split; [exact Hpos |].
  intros db2 db2' m2 i2 t2 n2 Hcreate2.
  destruct (Hcore _ _ _ _ _ _ Hcreate2) as (_ & Hfloat2 & _).
  congruence.
Qed.

End Bookings.

(** C3, as stated, fails: two adults book the package of the example
    database, every price of which is 100, and name a total of 1.  The
    booking is created with 201 and stores 1, which is the priced total of
    no tier: that is 200 in each. *)
Lemma booking_total_not_recomputed :
  let out := App.create_booking (H := Demo.runtime) Demo.cheap_booking Demo.db in
  fst out = (App.BookingCreated "Booking submitted! Proceeding to payment..." 2
               (inject_Z 1) (Some "Hunza Week"), 201)
  /\ Db.bookings (snd out) = [Demo.jinnah_booking; Demo.cheap_booking_row]
  /\ Db.fetchone (fun p => Db.p_package_id p =? Db.b_package_id Demo.cheap_booking_row)
        (Db.packages Demo.db) = Some Demo.hunza_week
  /\ Spec.priced_total Demo.hunza_week Spec.Economy 2 0 0 = Some (200 # 1)%Q
  /\ ~ Spec.total_recomputed Demo.cheap_booking_row Demo.hunza_week.
Proof.
  cbv zeta. split; [vm_compute; reflexivity |]. split; [vm_compute; reflexivity |].
  split; [reflexivity |]. split; [vm_compute; reflexivity |].
  intros (tier & total & Hpriced & Htotal).
  destruct tier; vm_compute in Hpriced; injection Hpriced as <-;
    vm_compute in Htotal; discriminate Htotal.
Qed.

(** The booking of the example, created and read back. *)
Lemma booking_total_is_client_total_witness :
  exists b : Db.Booking,
    Db.bookings (snd (App.create_booking (H := Demo.runtime) Demo.cheap_booking Demo.db))
      = (Db.bookings Demo.db ++ [b])%list
    /\ Db.b_total_price b = inject_Z 1.
Proof.
  destruct (booking_total_is_client_total (H := Demo.runtime)
              Demo.cheap_booking Demo.db
              (snd (App.create_booking (H := Demo.runtime) Demo.cheap_booking Demo.db))
              "Booking submitted! Proceeding to payment..." 2 (inject_Z 1)
              (Some "Hunza Week")) as ((b & Hb & _ & Ht) & _).
  - vm_compute. reflexivity.
  - exists b. split; assumption.
Defined.

(** ** Reviews *)

Section Reviews.
Context `{Runtime}.
Import Db App.

(** An integer rating outside 1..5 is refused with 400 and nothing is
    written. *)
Lemma submit_review_integer_out_of_range (package_id n : Z) (req : Request)
    (db : Db.t) :
  json req !! "rating" = Some (Py.VInt n) -> ~ (1 <= n <= 5) ->
  submit_review package_id req db
    = ((Message false "Please provide a valid rating (1-5)", 400), db).
Proof.
  intros Hrating Hout. unfold submit_review, Py.get. rewrite Hrating.
  cbn [from_option id Py.truthy py_int].
  destruct (n =? 0); cbn [negb]; [reflexivity |].
  replace (existsb (Z.eqb n) [1; 2; 3; 4; 5]) with false; [reflexivity |].
  symmetry. apply not_true_is_false. intros Hin.
  apply existsb_exists in Hin. destruct Hin as (k & Hk & Hnk).
  apply Z.eqb_eq in Hnk. subst k.
  cbn in Hk. lia.
Qed.

(** C6: the failing run.  An anonymous visitor rates package 1 of the
    example database five and a half.  [int] cuts the rating to 5 before
    the range is tested: the reply is 200 and a review of rating 5 is
    written. *)
Theorem half_star_review_accepted :
  let out := submit_review 1 Demo.half_star_review Demo.db in
  Py.get (json Demo.half_star_review) "rating" = Py.VFloat (11 # 2)
  /\ ~ (1 <= 11 # 2 <= 5)%Q
  /\ fst out = (Message true "Review submitted successfully!", 200)
  /\ reviews (snd out)
     = [ {| r_review_id := 1; r_package_id := 1; r_user_id := None;
            r_user_name := "Anonymous"; r_rating := 5 |} ].
Proof.
  cbv zeta. split; [vm_compute; reflexivity |]. split.
  - intros [_ Hle]. vm_compute in Hle. apply Hle. reflexivity.
  - split; vm_compute; reflexivity.
Qed.

End Reviews.

(** ** Login *)

Section Login.
Context `{Runtime}.
Import Db App.



End Login.


(** ** The assistant when the provider is down *)

Section Strip.
Import Spec.

Lemma rstrip_rstrip (s : string) : Py.rstrip (Py.rstrip s) = Py.rstrip s.
Proof.
  induction s as [|c s IH]; [reflexivity |].
  cbn [Py.rstrip]. destruct (Py.rstrip s) as [|d t] eqn:Hs.
  - destruct (Py.is_space c) eqn:Hc; [reflexivity |].
    cbn [Py.rstrip]. rewrite Hc. reflexivity.
  - change (Py.rstrip (String c (String d t)))
      with (match Py.rstrip (String d t) with
            | EmptyString => if Py.is_space c then EmptyString else String c EmptyString
            | String a u => String c (String a u)
            end).
    rewrite IH. reflexivity.
Qed.

Lemma lstrip_starts_clean (s : string) : starts_clean (Py.lstrip s).
Proof.
  induction s as [|c s IH]; [exact I |].
  cbn [Py.lstrip]. destruct (Py.is_space c) eqn:Hc; [exact IH | exact Hc].
Qed.

Lemma rstrip_starts_clean (s : string) : starts_clean s -> starts_clean (Py.rstrip s).
Proof.
  destruct s as [|c s]; [intros _; exact I |].
  cbn [starts_clean Py.rstrip]. intros Hc.
  destruct (Py.rstrip s); [rewrite Hc |]; exact Hc.
Qed.

Lemma lstrip_clean (s : string) : starts_clean s -> Py.lstrip s = s.
Proof.
  destruct s as [|c s]; [reflexivity |].
  cbn [starts_clean Py.lstrip]. intros ->. reflexivity.
Qed.

Lemma strip_strip (s : string) : Py.strip (Py.strip s) = Py.strip s.
Proof.
  unfold Py.strip.
  rewrite (lstrip_clean (Py.rstrip (Py.lstrip s))).
  - apply rstrip_rstrip.
  - apply rstrip_starts_clean, lstrip_starts_clean.
Qed.

End Strip.

Section Assistant.
Context `{Runtime}.
Import Db App Spec.

Lemma fails_on_cases (bot : Chatbot.TravelChatbot) (call : Chatbot.Call) :
  fails_on bot call ->
  Chatbot.unavailable bot = true
  \/ (Chatbot.unavailable bot = false
      /\ exists create : Chatbot.Client,
           Chatbot.client bot = Some create /\ create call = Provider.Raises).
Proof.
  intros [Hun | Hraise]; [left; exact Hun |].
  destruct (Chatbot.unavailable bot); [left; reflexivity | right].
  split; [reflexivity | exact Hraise].
Qed.

(** C4, as the code has it.  When the credentials are missing or the
    provider raises on the call, [chat] returns the canned reply chosen by
    the message; [recommend_packages] returns the empty list and
    [summarize_reviews] its fallback, once the inputs let them reach the
    provider; [extract_booking_intent] returns [None].  [POST /api/chat]
    sends the canned reply with 200 when it is a success, which takes a
    client and a keyword in the message, and with 500 otherwise: always
    when the credentials are missing. *)
Theorem provider_failure_is_canned (bot : Chatbot.TravelChatbot) :
  (forall (user_message : string) (destinations packages : option (list Py.dict))
          (history : Py.value),
     fails_on bot (Chatbot.ChatCompletion (Chatbot.model bot) (default [] destinations)
                     (default [] packages) history user_message) ->
     Chatbot.chat bot user_message destinations packages history
     = chat_canned bot user_message)
  /\ (forall (preferences : Py.dict) (available_packages : list Py.dict),
        fails_on bot (Chatbot.Recommendation (Chatbot.model bot) preferences
                        available_packages) ->
        Chatbot.unavailable bot = true
        \/ Chatbot.recommendation_prompt preferences available_packages = Py.Ok tt ->
        Chatbot.recommend_packages bot preferences available_packages
        = Py.Ok (Py.VList []))
  /\ (forall user_query : string,
        fails_on bot (Chatbot.IntentExtraction (Chatbot.model bot) user_query) ->
        Chatbot.extract_booking_intent bot user_query = None)
  /\ (forall (reviews : list Chatbot.Review) (package_name : string),
        fails_on bot (Chatbot.ReviewSummary (Chatbot.model bot) package_name
                        (map Chatbot.rating reviews)) ->
        Chatbot.unavailable bot = true \/ (length reviews <= 2)%nat
        \/ forallb Chatbot.chartable reviews = true ->
        Chatbot.summarize_reviews bot reviews package_name
        = Py.Ok (if Chatbot.unavailable bot || (length reviews =? 0)%nat
                 then Chatbot.no_reviews_yet
                 else if (length reviews <=? 2)%nat then Chatbot.few_reviews reviews
                 else Chatbot.summary_fallback reviews))
  /\ (forall (req : Request) (db : Db.t) (text : string),
        json req !! "message" = Some (Py.VStr text) -> Py.strip text <> "" ->
        (forall (destinations packages : list Py.dict) (history : Py.value),
           fails_on bot (Chatbot.ChatCompletion (Chatbot.model bot) destinations
                           packages history (Py.strip text))) ->
        let reply := if Chatbot.unavailable bot then Chatbot.chat_unavailable
                     else Chatbot.chat_fallback (Py.strip text) in
        chat_with_ai bot req db
        = ((Chat reply, if Chatbot.success reply then 200 else 500), db)
        /\ (Chatbot.unavailable bot = true -> snd (fst (chat_with_ai bot req db)) = 500)).
Proof.
  assert (Hchat : forall user_message destinations packages history,
            fails_on bot (Chatbot.ChatCompletion (Chatbot.model bot)
                            (default [] destinations) (default [] packages)
                            history user_message) ->
            Chatbot.chat bot user_message destinations packages history
            = chat_canned bot user_message).
  { intros user_message destinations packages history Hfail.
    apply fails_on_cases in Hfail.
    unfold Chatbot.chat, chat_canned, blank.
    destruct Hfail as [-> | (-> & create & -> & ->)]; [reflexivity |].
    destruct (Chatbot.chat_messages _ _); reflexivity. }
  split; [exact Hchat |]. split; [| split; [| split]].
  - intros preferences available_packages Hfail Hreach.
    apply fails_on_cases in Hfail. unfold Chatbot.recommend_packages.
    destruct Hfail as [-> | (Hun & create & -> & Hraise)]; [reflexivity |].
    rewrite Hun in *. destruct Hreach as [Hreach | ->]; [discriminate Hreach |].
    cbn [Py.bind]. rewrite Hraise. reflexivity.
  - intros user_query Hfail.
    apply fails_on_cases in Hfail. unfold Chatbot.extract_booking_intent.
    destruct Hfail as [-> | (-> & create & -> & ->)]; reflexivity.
  - intros reviews package_name Hfail Hreach.
    apply fails_on_cases in Hfail. unfold Chatbot.summarize_reviews.
    destruct Hfail as [-> | (Hun & create & -> & Hraise)]; [reflexivity |].
    rewrite Hun in *. cbn [orb].
    destruct (length reviews =? 0)%nat; [reflexivity |].
    destruct (length reviews <=? 2)%nat eqn:Hle; [reflexivity |].
    destruct Hreach as [Hreach | [Hreach | ->]].
    + discriminate Hreach.
    + apply Nat.leb_le in Hreach. congruence.
    + cbn [negb]. rewrite Hraise. reflexivity.
  - intros req db text Hmsg Htext Hfail reply.
    assert (Hreply : chat_canned bot (Py.strip text) = reply).
    { unfold chat_canned, reply, blank. rewrite strip_strip.
      destruct (Chatbot.unavailable bot); [reflexivity |].
      destruct (Py.strip text); [congruence | reflexivity]. }
    assert (Hrun : chat_with_ai bot req db
                   = ((Chat reply, if Chatbot.success reply then 200 else 500), db)).
    { unfold chat_with_ai, Py.get_default. rewrite Hmsg.
      cbn [from_option id Py.strip_value].
      assert (Ht : Py.truthy_str (Py.strip text) = true)
        by (destruct (Py.strip text); [congruence | reflexivity]).
      rewrite Ht. cbn [negb]. rewrite Hchat by apply Hfail.
      rewrite Hreply. reflexivity. }
    split; [exact Hrun |].
    intros Hun. rewrite Hrun. unfold reply. rewrite Hun. reflexivity.
Qed.

End Assistant.

(** C4, as stated, fails: with no credentials, and also with a client that
    raises, a greeting sent to [POST /api/chat] is answered 500. *)
Lemma chat_endpoint_answers_500 :
  (forall call, Spec.fails_on (Chatbot.init None) call)
  /\ (forall call, Spec.fails_on (Chatbot.init (Some Demo.raising)) call)
  /\ App.chat_with_ai (Chatbot.init None) Demo.hello Demo.db
     = ((App.Chat Chatbot.chat_unavailable, 500), Demo.db)
  /\ App.chat_with_ai (Chatbot.init (Some Demo.raising)) Demo.hello Demo.db
     = ((App.Chat {| Chatbot.success := false;
                     Chatbot.message := "Sorry, I encountered a temporary issue. Please try again in a moment." |},
         500), Demo.db).
Proof.
  split; [intros call; left; reflexivity |].
  split; [intros call; right; exists Demo.raising; split; reflexivity |].
  split; vm_compute; reflexivity.
Qed.

(** A client that raises, asked for a trip, asked about prices and then
    greeted through the endpoint. *)
Lemma provider_failure_is_canned_witness :
  Chatbot.extract_booking_intent (H := Demo.runtime)
    (Chatbot.init (Some Demo.raising)) "a week in Hunza for two" = None
  /\ Chatbot.chat (Chatbot.init (Some Demo.raising)) "How much is Hunza?" None None
       (Py.VList [])
     = Spec.chat_canned (Chatbot.init (Some Demo.raising)) "How much is Hunza?"
  /\ Chatbot.success
       (Spec.chat_canned (Chatbot.init (Some Demo.raising)) "How much is Hunza?")
     = true
  /\ snd (fst (App.chat_with_ai (Chatbot.init (Some Demo.raising)) Demo.hello Demo.db))
     = 500.
Proof.
  destruct (provider_failure_is_canned (H := Demo.runtime)
              (Chatbot.init (Some Demo.raising)))
    as (Hchat & _ & Hintent & _ & Hpost).
  assert (Hfail : forall call,
            Spec.fails_on (Chatbot.init (Some Demo.raising)) call)
    by (intros call; right; exists Demo.raising; split; reflexivity).
  split; [apply Hintent, Hfail |]. split; [apply Hchat, Hfail |].
  split; [vm_compute; reflexivity |].
  destruct (Hpost Demo.hello Demo.db "hello") as [Hrun _].
  - vm_compute. reflexivity.
  - vm_compute. discriminate.
  - intros destinations packages history. apply Hfail.
  - rewrite Hrun. vm_compute. reflexivity.
Defined.

(** * Further properties *)

(** ** Deciding twice *)

Section Decisions.
Import Db App Spec.

Lemma update_elem_inv {A} (cond : A -> bool) (set : A -> A) (rows : list A) (y : A) :
  y ∈ update cond set rows ->
  exists x, x ∈ rows /\ y = if cond x then set x else x.
Proof.
  unfold update. rewrite list_elem_of_In, in_map_iff.
  intros (x & Hy & Hx). exists x. split; [apply list_elem_of_In; exact Hx | congruence].
Qed.

Lemma update_none {A} (cond : A -> bool) (set : A -> A) (rows : list A) :
  (forall x, x ∈ rows -> cond x = false) -> update cond set rows = rows.
Proof.
  intros Hnone. unfold update. rewrite <- (map_id rows) at 2.
  apply map_ext_in. intros x Hx. rewrite Hnone; [reflexivity |].
  apply list_elem_of_In. exact Hx.
Qed.

Lemma with_pending_destinations_same (db : Db.t) :
  with_pending_destinations (pending_destinations db) db = db.
Proof. destruct db. reflexivity. Qed.

Lemma with_pending_packages_same (db : Db.t) :
  with_pending_packages (pending_packages db) db = db.
Proof. destruct db. reflexivity. Qed.

Lemma approve_package_decided (req : Request) (db : Db.t) (pending_pkg_id : Z) :
  (forall pp, pp ∈ pending_packages db -> pp_pending_pkg_id pp = pending_pkg_id ->
              pp_status pp <> "pending") ->
  pool req = true ->
  forall admin_id, is_admin req admin_id ->
  approve_package pending_pkg_id req db
    = ((Message false "Package not found", 404), db).
Proof.
  intros Hdecided Hpool admin_id Hadmin.
  unfold approve_package. rewrite (admin_passes _ _ _ _ Hadmin).
  rewrite Hpool. cbn [negb].
  destruct (fetchone _ (pending_packages db)) as [row|] eqn:Hrow; [| reflexivity].
  exfalso. unfold fetchone in Hrow. apply find_some in Hrow.
  destruct Hrow as [Hin Hcond]. apply andb_prop in Hcond.
  destruct Hcond as [Hid Hst].
  apply (Hdecided row).
  - apply list_elem_of_In. exact Hin.
  - apply Z.eqb_eq. exact Hid.
  - apply String.eqb_eq. exact Hst.
Qed.

(** X1: Approving a pending row and approving it again: the second call is
    answered 404 and writes nothing, so the live table has grown by one row
    and no more.  For destinations and for packages. *)
Theorem approve_twice_one_live_row (req : Request) (db : Db.t) (admin_id : Z) :
  is_admin req admin_id -> pool req = true ->
  (forall pd : PendingDestination,
     NoDup (map pd_pending_id (pending_destinations db)) ->
     pd ∈ pending_destinations db -> pd_status pd = "pending" ->
     let once := snd (approve_destination (pd_pending_id pd) req db) in
     approve_destination (pd_pending_id pd) req once
       = ((Message false "Destination not found", 404), once)
     /\ length (destinations once) = S (length (destinations db)))
  /\ (forall pp : PendingPackage,
        NoDup (map pp_pending_pkg_id (pending_packages db)) ->
        pp ∈ pending_packages db -> pp_status pp = "pending" ->
        let once := snd (approve_package (pp_pending_pkg_id pp) req db) in
        approve_package (pp_pending_pkg_id pp) req once
          = ((Message false "Package not found", 404), once)
        /\ length (packages once) = S (length (packages db))).
Proof.
  intros Hadmin Hpool. split.
  - intros pd Hnd Hin Hst once.
    assert (Hrow : fetchone (fun x => (pd_pending_id x =? pd_pending_id pd)
                                      && String.eqb (pd_status x) "pending")
                     (pending_destinations db) = Some pd).
    { apply (fetchone_the_row pd_pending_id _ _ pd Hnd Hin).
      - rewrite Z.eqb_refl, Hst. reflexivity.
      - intros y Hy. apply andb_prop in Hy. apply Z.eqb_eq. exact (proj1 Hy). }
    assert (Honce : once
              = with_pending_destinations
                  (update (fun x => pd_pending_id x =? pd_pending_id pd)
                     (review_destination "approved" req) (pending_destinations db))
                  (with_destinations
                     (destinations db ++
                        [ {| d_destination_id := destination_seq db;
                             d_name := pd_name pd; d_country := pd_country pd;
                             d_description := pd_description pd;
                             d_image_url := pd_image_url pd |} ])
                     (destination_seq db + 1) db)).
    { unfold once, approve_destination. rewrite (admin_passes _ _ _ _ Hadmin).
      rewrite Hpool. cbn [negb]. rewrite Hrow. reflexivity. }
    split.
    + apply (approve_destination_decided req once (pd_pending_id pd)) with (admin_id := admin_id);
        [| exact Hpool | exact Hadmin].
      intros y Hy Hid Hpending. rewrite Honce in Hy. cbn in Hy.
      apply update_elem_inv in Hy. destruct Hy as (x & _ & ->).
      destruct (pd_pending_id x =? pd_pending_id pd) eqn:Hx.
      * cbn in Hpending. discriminate Hpending.
      * apply Z.eqb_neq in Hx. contradiction.
    + rewrite Honce. cbn. rewrite length_app. cbn. lia.
  - intros pp Hnd Hin Hst once.
    assert (Hrow : fetchone (fun x => (pp_pending_pkg_id x =? pp_pending_pkg_id pp)
                                      && String.eqb (pp_status x) "pending")
                     (pending_packages db) = Some pp).
    { apply (fetchone_the_row pp_pending_pkg_id _ _ pp Hnd Hin).
      - rewrite Z.eqb_refl, Hst. reflexivity.
      - intros y Hy. apply andb_prop in Hy. apply Z.eqb_eq. exact (proj1 Hy). }
    assert (Hpending_once : exists live,
              pending_packages once
              = update (fun x => pp_pending_pkg_id x =? pp_pending_pkg_id pp)
                  (review_package "approved" req) (pending_packages db)
              /\ packages once = (packages db ++ [live])%list).
    { unfold once, approve_package. rewrite (admin_passes _ _ _ _ Hadmin).
      rewrite Hpool. cbn [negb]. rewrite Hrow. eexists. split; reflexivity. }
    destruct Hpending_once as (live & Hpend & Hlive).
    split.
    + apply (approve_package_decided req once (pp_pending_pkg_id pp)) with (admin_id := admin_id);
        [| exact Hpool | exact Hadmin].
      intros y Hy Hid Hpending. rewrite Hpend in Hy.
      apply update_elem_inv in Hy. destruct Hy as (x & _ & ->).
      destruct (pp_pending_pkg_id x =? pp_pending_pkg_id pp) eqn:Hx.
      * cbn in Hpending. discriminate Hpending.
      * apply Z.eqb_neq in Hx. contradiction.
    + rewrite Hlive, length_app. cbn. lia.
Qed.

End Decisions.

(** The pending destination and the pending package of the example
    database, each approved twice. *)
Lemma approve_twice_one_live_row_witness :
  (let once := snd (App.approve_destination 1 (Demo.request Demo.admin_session []) Demo.db) in
   App.approve_destination 1 (Demo.request Demo.admin_session []) once
     = ((App.Message false "Destination not found", 404), once)
   /\ length (Db.destinations once) = 2%nat)
  /\ (let once := snd (App.approve_package 4 (Demo.request Demo.admin_session []) Demo.db) in
      App.approve_package 4 (Demo.request Demo.admin_session []) once
        = ((App.Message false "Package not found", 404), once)
      /\ length (Db.packages once) = 2%nat).
Proof.
  destruct (approve_twice_one_live_row (Demo.request Demo.admin_session []) Demo.db 1)
    as [Hd Hp].
  - split; reflexivity.
  - reflexivity.
  - split.
    + apply (Hd Demo.skardu).
      * cbn. apply NoDup_singleton.
      * cbn. apply list_elem_of_here.
      * reflexivity.
    + apply (Hp Demo.skardu_trek).
      * cbn. apply NoDup_singleton.
      * cbn. apply list_elem_of_here.
      * reflexivity.
Defined.

(** ** Rejections and role gates *)

Section Gates.
Import Db App Spec.

(** X2: A rejection by an administrator is always answered 200.  It writes
    the pending table only: every row of the given id gets status
    "rejected", the administrator as its reviewer and the time of the
    request as its review time, whatever its status was, and keeps its
    submitted fields; every other row is as it was and none is added or
    removed.  An id that no row has is accepted all the same and changes
    nothing.  For destinations and for packages. *)
Theorem reject_writes_pending_only (req : Request) (db : Db.t) (admin_id id : Z) :
  is_admin req admin_id -> pool req = true ->
  (exists db',
     reject_destination id req db = ((Message true "Destination rejected", 200), db')
     /\ with_pending_destinations (pending_destinations db) db' = db
     /\ destinations_reviewed id "rejected" admin_id (now req)
          (pending_destinations db) (pending_destinations db')
     /\ ((forall pd, pd ∈ pending_destinations db -> pd_pending_id pd <> id) -> db' = db))
  /\ (exists db',
        reject_package id req db = ((Message true "Package rejected", 200), db')
        /\ with_pending_packages (pending_packages db) db' = db
        /\ packages_reviewed id "rejected" admin_id (now req)
             (pending_packages db) (pending_packages db')
        /\ ((forall pp, pp ∈ pending_packages db -> pp_pending_pkg_id pp <> id) -> db' = db)).
Proof.
  intros Hadmin Hpool. pose proof (proj1 Hadmin) as Hu. split.
  - unfold reject_destination. rewrite (admin_passes _ _ _ _ Hadmin).
    rewrite Hpool. cbn [negb]. eexists. split; [reflexivity |].
    split; [destruct db; reflexivity |]. split.
    + cbn [pending_destinations with_pending_destinations].
      unfold destinations_reviewed. apply update_Forall2; intros pd Hpd; rewrite Hpd.
      * unfold destination_decided. cbn. rewrite Hu.
        split; [reflexivity |]. split; [reflexivity |]. split; [reflexivity |].
        split; [reflexivity |]. split; [reflexivity |]. split; [reflexivity |].
        split; [reflexivity |]. split; reflexivity.
      * reflexivity.
    + intros Hnone. rewrite update_none.
      * apply with_pending_destinations_same.
      * intros x Hx. apply Z.eqb_neq. apply Hnone. exact Hx.
  - unfold reject_package. rewrite (admin_passes _ _ _ _ Hadmin).
    rewrite Hpool. cbn [negb]. eexists. split; [reflexivity |].
    split; [destruct db; reflexivity |]. split.
    + cbn [pending_packages with_pending_packages].
      unfold packages_reviewed. apply update_Forall2; intros pp Hpp; rewrite Hpp.
      * apply review_package_decided. exact Hu.
      * reflexivity.
    + intros Hnone. rewrite update_none.
      * apply with_pending_packages_same.
      * intros x Hx. apply Z.eqb_neq. apply Hnone. exact Hx.
Qed.

(** X3: Without a user in the session every gated endpoint answers 401; with a
    user of another role the administrator's endpoints answer 403, and the
    vendor's endpoints answer 403 unless the role is vendor or admin.  The
    database is left as it was each time. *)
Theorem role_gates_refuse (id : Z) (req : Request) (db : Db.t) :
  (s_user_id (session req) = None ->
     forall h, h ∈ (admin_endpoints id ++ vendor_endpoints id)%list ->
     exists text, h req db = ((Message false text, 401), db))
  /\ (s_user_id (session req) <> None -> s_role (session req) <> Some "admin" ->
        (forall h, h ∈ admin_endpoints id ->
           h req db = ((Message false "Admin access required", 403), db))
        /\ (s_role (session req) <> Some "vendor" ->
              forall h, h ∈ vendor_endpoints id ->
                h req db = ((Message false "Vendor access required", 403), db))).
Proof.
  split.
  - intros Hanon h Hh. unfold admin_endpoints, vendor_endpoints in Hh. cbn in Hh.
    repeat (apply elem_of_cons in Hh; destruct Hh as [-> | Hh]);
      try (apply elem_of_nil in Hh; contradiction);
      eexists;
      unfold approve_vendor, reject_vendor, approve_destination, reject_destination,
        approve_package, reject_package, delete_vendor_package,
        toggle_package_status, vendor_add_destination,
        admin_required, vendor_required;
      rewrite Hanon; reflexivity.
  - intros Huser Hrole.
    destruct (s_user_id (session req)) as [uid|] eqn:Huid; [| contradiction].
    split.
    + intros h Hh. unfold admin_endpoints in Hh.
      repeat (apply elem_of_cons in Hh; destruct Hh as [-> | Hh]);
        try (apply elem_of_nil in Hh; contradiction);
        unfold approve_vendor, reject_vendor, approve_destination, reject_destination,
          approve_package, reject_package, admin_required;
        rewrite Huid, bool_decide_false by exact Hrole; reflexivity.
    + intros Hvendor h Hh. unfold vendor_endpoints in Hh.
      repeat (apply elem_of_cons in Hh; destruct Hh as [-> | Hh]);
        try (apply elem_of_nil in Hh; contradiction);
        unfold delete_vendor_package, toggle_package_status, vendor_add_destination,
          vendor_required;
        rewrite Huid, !bool_decide_false by assumption; reflexivity.
Qed.

End Gates.

(** The administrator rejects the pending destination and the pending
    package of the example database. *)
Lemma reject_writes_pending_only_witness :
  (exists db' : Db.t,
     App.reject_destination 1 (Demo.request Demo.admin_session []) Demo.db
       = ((App.Message true "Destination rejected", 200), db')
     /\ map Db.pd_status (Db.pending_destinations db') = ["rejected"]
     /\ map Db.pd_reviewed_by (Db.pending_destinations db') = [Some 1])
  /\ (exists db' : Db.t,
        App.reject_package 4 (Demo.request Demo.admin_session []) Demo.db
          = ((App.Message true "Package rejected", 200), db')
        /\ map Db.pp_status (Db.pending_packages db') = ["rejected"]
        /\ map Db.pp_reviewed_by (Db.pending_packages db') = [Some 1]).
Proof.
  destruct (reject_writes_pending_only (Demo.request Demo.admin_session []) Demo.db 1 1)
    as [(d1 & Hd & _ & Hrev & _) _]; [split; reflexivity | reflexivity |].
  destruct (reject_writes_pending_only (Demo.request Demo.admin_session []) Demo.db 1 4)
    as [_ (d2 & Hp & _ & Hrevp & _)]; [split; reflexivity | reflexivity |].
  split.
  - exists d1. split; [exact Hd |].
    unfold Spec.destinations_reviewed in Hrev. cbn [Db.pending_destinations Demo.db] in Hrev.
    apply Forall2_cons_inv_l in Hrev. destruct Hrev as (row & rest & Hrow & Hrest & ->).
    apply Forall2_nil_inv_l in Hrest. subst rest.
    cbn in Hrow. destruct Hrow as (Hst & Hby & _).
    cbn [map]. rewrite Hst, Hby. split; reflexivity.
  - exists d2. split; [exact Hp |].
    unfold Spec.packages_reviewed in Hrevp. cbn [Db.pending_packages Demo.db] in Hrevp.
    apply Forall2_cons_inv_l in Hrevp. destruct Hrevp as (row & rest & Hrow & Hrest & ->).
    apply Forall2_nil_inv_l in Hrest. subst rest.
    cbn in Hrow. destruct Hrow as (Hst & Hby & _).
    cbn [map]. rewrite Hst, Hby. split; reflexivity.
Defined.

(** A visitor and the vendor of the example database call the
    administrator's approval of a vendor. *)
Lemma role_gates_refuse_witness :
  (exists text,
     App.approve_vendor 7 (Demo.request Demo.anonymous []) Demo.db
       = ((App.Message false text, 401), Demo.db))
  /\ App.approve_vendor 7 (Demo.request Demo.vendor_session []) Demo.db
     = ((App.Message false "Admin access required", 403), Demo.db).
Proof.
  split.
  - apply (proj1 (role_gates_refuse 7 (Demo.request Demo.anonymous []) Demo.db)).
    + reflexivity.
    + cbn. apply list_elem_of_here.
  - apply (proj2 (role_gates_refuse 7 (Demo.request Demo.vendor_session []) Demo.db)).
    + cbn. discriminate.
    + cbn. discriminate.
    + cbn. apply list_elem_of_here.
Defined.

(** ** Soft deletion of packages *)

Section SoftDelete.
Context `{Runtime}.
Import Db App Spec.

Lemma Forall2_same_but_flag_refl (rows : list Package) :
  Forall2 same_but_flag rows rows.
Proof.
  induction rows as [| p rows IH]; constructor; [| exact IH].
  unfold same_but_flag. destruct p. reflexivity.
Qed.

Lemma update_same_but_flag (package_id status : Z) (rows : list Package) :
  Forall2 same_but_flag rows
    (update (fun p => p_package_id p =? package_id) (set_is_active status) rows).
Proof.
  apply update_Forall2; intros p _; unfold same_but_flag.
  - reflexivity.
  - destruct p. reflexivity.
Qed.

Lemma flag_writes (id : Z) (req : Request) (db : Db.t) :
  (Forall2 same_but_flag (packages db)
     (packages (snd (delete_vendor_package id req db)))
   /\ with_packages (packages db) (package_seq db)
        (snd (delete_vendor_package id req db)) = db)
  /\ (Forall2 same_but_flag (packages db)
        (packages (snd (toggle_package_status id req db)))
      /\ with_packages (packages db) (package_seq db)
           (snd (toggle_package_status id req db)) = db).
Proof.
  unfold delete_vendor_package, toggle_package_status, vendor_required.
  split; split; repeat case_match; cbn [snd packages with_packages];
    try apply Forall2_same_but_flag_refl;
    try apply update_same_but_flag;
    destruct db; reflexivity.
Qed.

(** X4: The two endpoints a vendor has on its live packages write the active
    flag and nothing else: whatever the request and whatever the reply, the
    table keeps every row, in order, each one as it was but for its flag,
    and the rest of the database is as before.  No package row is ever
    removed by a deletion. *)
Theorem vendor_writes_only_flags (id : Z) (req : Request) (db : Db.t) :
  (Forall2 same_but_flag (packages db)
     (packages (snd (delete_vendor_package id req db)))
   /\ with_packages (packages db) (package_seq db)
        (snd (delete_vendor_package id req db)) = db)
  /\ (Forall2 same_but_flag (packages db)
        (packages (snd (toggle_package_status id req db)))
      /\ with_packages (packages db) (package_seq db)
           (snd (toggle_package_status id req db)) = db).
Proof. exact (flag_writes id req db). Qed.

Lemma fetchone_by_id (rows : list Package) (p : Package) :
  NoDup (map p_package_id rows) -> p ∈ rows ->
  fetchone (fun x => p_package_id x =? p_package_id p) rows = Some p.
Proof.
  intros Hnd Hin. apply (fetchone_the_row p_package_id _ rows p Hnd Hin).
  - apply Z.eqb_refl.
  - intros y Hy. apply Z.eqb_eq. exact Hy.
Qed.



(** X6: A vendor that does not own a live package can neither delete nor
    toggle it: both calls are answered 403 and write nothing. *)
Theorem foreign_package_refused (db : Db.t) (p : Package) (req : Request) :
  NoDup (map p_package_id (packages db)) -> p ∈ packages db ->
  is_vendor req -> pool req = true -> p_vendor_id p <> s_vendor_id (session req) ->
  delete_vendor_package (p_package_id p) req db
    = ((Message false "Unauthorized: This package does not belong to you", 403), db)
  /\ toggle_package_status (p_package_id p) req db
     = ((Message false "Unauthorized", 403), db).
Proof.
  intros Hnd Hin Hvendor Hpool Hforeign.
  unfold delete_vendor_package, toggle_package_status.
  rewrite !vendor_passes by exact Hvendor. rewrite Hpool. cbn [negb].
  rewrite (fetchone_by_id _ _ Hnd Hin).
  rewrite bool_decide_eq_false_2 by exact Hforeign. split; reflexivity.
Qed.

End SoftDelete.


(** The administrator, who owns no package, calls the vendor's endpoints on
    the package of the example database. *)
Lemma foreign_package_refused_witness :
  App.delete_vendor_package 1 (Demo.request Demo.admin_session []) Demo.db
    = ((App.Message false "Unauthorized: This package does not belong to you", 403),
       Demo.db)
  /\ App.toggle_package_status 1 (Demo.request Demo.admin_session []) Demo.db
     = ((App.Message false "Unauthorized", 403), Demo.db).
Proof.
  apply (foreign_package_refused Demo.db Demo.hunza_week
           (Demo.request Demo.admin_session [])).
  - cbn. apply NoDup_singleton.
  - cbn. apply list_elem_of_here.
  - split; [eexists; reflexivity | right; reflexivity].
  - reflexivity.
  - cbn. discriminate.
Defined.

(** ** What a booking and a review write *)

Section Frames.
Context `{Runtime}.
Import Db App Spec.

Lemma fetchone_elem {A} (cond : A -> bool) (rows : list A) (x : A) :
  fetchone cond rows = Some x -> x ∈ rows /\ cond x = true.
Proof.
  unfold fetchone. intros Hx. apply find_some in Hx.
  split; [apply list_elem_of_In; exact (proj1 Hx) | exact (proj2 Hx)].
Qed.

Lemma read_booking_form_return (data : Py.dict) (form : BookingForm) :
  read_booking_form data = Py.Ok form ->
  f_fare_type form = Py.get data "fare_type"
  /\ (is_round_trip (f_fare_type form) = false ->
      f_return_date form = None /\ f_return_time form = None).
Proof.
  unfold read_booking_form. intros Hform.
  destruct (is_round_trip (Py.get data "fare_type")) eqn:Hrt;
    repeat match type of Hform with
           | Py.bind ?m _ = Py.Ok _ =>
               destruct m eqn:?; cbn [Py.bind] in Hform; [discriminate Hform |]
           end;
    injection Hform as <-; cbn; rewrite Hrt; split; try reflexivity;
    try discriminate; intros _; split; congruence.
Qed.

(** X7: Whatever the request, [create_booking] either leaves the database as it
    was, with a status other than 201, or answers 201 and appends one
    booking and nothing else.  That booking takes its id from the sequence,
    is "pending", belongs to the user of the session, names a package that
    exists, stores as its number of travellers the sum of the three groups,
    which is not zero (the sign of a count is not tested), carries an email
    with an at sign and a dot, and has a return date exactly when its fare
    is a round trip. *)
Theorem create_booking_writes_one_pending (req : Request) (db : Db.t) :
  let out := create_booking req db in
  (snd (fst out) <> 201 -> snd out = db)
  /\ (snd (fst out) = 201 ->
      exists b : Booking,
        snd out = with_bookings (bookings db ++ [b])%list (booking_seq db + 1) db
        /\ b_booking_id b = booking_seq db
        /\ b_status b = "pending"
        /\ b_booking_date b = now req
        /\ s_user_id (session req) = Some (b_user_id b) /\ b_user_id b <> 0
        /\ (exists p, p ∈ packages db /\ p_package_id p = b_package_id b)
        /\ b_num_travelers b = b_num_adults b + b_num_children b + b_num_infants b
        /\ b_num_travelers b <> 0
        /\ Py.contains "@" (b_customer_email b) = true
        /\ Py.contains "." (b_customer_email b) = true
        /\ (is_round_trip (b_fare_type b) = true <-> b_return_date b <> None)).
Proof.
  cbv zeta. unfold create_booking.
  destruct (s_user_id (session req)) as [user_id|] eqn:Hu;
    [| split; [reflexivity | discriminate]].
  destruct (user_id =? 0) eqn:Hzero; [split; [reflexivity | discriminate] |].
  destruct (missing_field (json req)); [split; [reflexivity | discriminate] |].
  destruct (py_int (Py.get (json req) "package_id")) as [|package_id];
    [split; [reflexivity | discriminate] |].
  destruct (read_booking_form (json req)) as [e|form] eqn:Hform;
    [destruct e; (split; [reflexivity | discriminate]) |].
  destruct (negb (Py.contains "@" (f_email form)) || negb (Py.contains "." (f_email form)))
    eqn:Hmail; [split; [reflexivity | discriminate] |].
  destruct (is_round_trip (f_fare_type form)
            && (negb (Py.truthy_str (default "" (f_return_date form)))
                || negb (Py.truthy_str (default "" (f_return_time form))))) eqn:Hreturn;
    [split; [reflexivity | discriminate] |].
  destruct (f_num_adults form + f_num_children form + f_num_infants form =? 0) eqn:Hnone;
    [split; [reflexivity | discriminate] |].
  destruct (Qle_bool (f_total_price form) 0); [split; [reflexivity | discriminate] |].
  destruct (pool req); cbn [negb]; [| split; [reflexivity | discriminate]].
  destruct (fetchone _ (packages db)) as [package_row|] eqn:Hrow;
    [| split; [reflexivity | discriminate]].
  apply fetchone_elem in Hrow. destruct Hrow as [Hrow Hid]. apply Z.eqb_eq in Hid.
  apply orb_false_elim in Hmail. destruct Hmail as [Hat Hdot].
  apply negb_false_iff in Hat. apply negb_false_iff in Hdot.
  apply Z.eqb_neq in Hzero. apply Z.eqb_neq in Hnone.
  destruct (read_booking_form_return _ _ Hform) as [_ Hone_way].
  destruct (insert_booking req user_id package_id form db) as [[booking_id db']|] eqn:Hins;
    [| split; [reflexivity | discriminate]].
  cbn [fst snd]. split; [intros Hst; contradiction Hst; reflexivity | intros _].
  unfold insert_booking in Hins.
  destruct (bindable (f_preferred_airline form) && bindable (f_preferred_seating form)
            && bindable (f_fare_type form)); [| discriminate Hins].
  destruct (to_date (f_departure_date form)) as [dep_date|]; [| discriminate Hins].
  destruct (is_round_trip (f_fare_type form)) eqn:Hrt.
  - cbn [andb] in Hreturn. apply orb_false_elim in Hreturn.
    destruct Hreturn as [Hrd _]. apply negb_false_iff in Hrd.
    destruct (f_return_date form) as [rd|]; [| discriminate Hrd].
    cbn [default from_option id] in Hrd. cbn [none_if_empty] in Hins. rewrite Hrd in Hins.
    destruct (to_date rd) as [ret|]; cbn [option_map] in Hins; [| discriminate Hins].
    injection Hins as <- <-. eexists. split; [reflexivity |]. cbn.
    rewrite Hrt.
    repeat match goal with |- _ /\ _ => split end;
      try reflexivity; try assumption; try (exists package_row; split; assumption).
    split; [intros _; discriminate | reflexivity].
  - destruct (Hone_way eq_refl) as [Hrd _]. rewrite Hrd in Hins.
    cbn [none_if_empty] in Hins.
    injection Hins as <- <-. eexists. split; [reflexivity |]. cbn.
    rewrite Hrt.
    repeat match goal with |- _ /\ _ => split end;
      try reflexivity; try assumption; try (exists package_row; split; assumption).
    split; [discriminate | intros Hne; contradiction Hne; reflexivity].
Qed.

(** X8: Whatever the request, [submit_review] either leaves the database as it
    was, with a status other than 200, or answers 200 and appends one
    review of an existing package, rated 1 to 5, under a name that is not
    empty.  So stored ratings that were in 1..5 stay in 1..5. *)
Theorem submit_review_keeps_ratings (package_id : Z) (req : Request) (db : Db.t) :
  let out := submit_review package_id req db in
  (snd (fst out) <> 200 -> snd out = db)
  /\ (snd (fst out) = 200 ->
      exists r : Review,
        snd out = with_reviews (reviews db ++ [r])%list (review_id_seq db + 1) db
        /\ r_review_id r = review_id_seq db
        /\ r_package_id r = package_id
        /\ (exists p, p ∈ packages db /\ p_package_id p = package_id)
        /\ 1 <= r_rating r <= 5
        /\ r_user_name r <> ""
        /\ r_user_id r = s_user_id (session req))
  /\ (Forall (fun r => 1 <= r_rating r <= 5) (reviews db) ->
      Forall (fun r => 1 <= r_rating r <= 5) (reviews (snd out))).
Proof.
  cbv zeta. unfold submit_review.
  destruct (negb (Py.truthy (Py.get (json req) "rating")));
    [split; [reflexivity | split; [discriminate | tauto]] |].
  destruct (py_int (Py.get (json req) "rating")) as [|n];
    [split; [reflexivity | split; [discriminate | tauto]] |].
  destruct (existsb (Z.eqb n) [1; 2; 3; 4; 5]) eqn:Hrange; cbn [negb];
    [| split; [reflexivity | split; [discriminate | tauto]]].
  assert (Hn : 1 <= n <= 5).
  { apply existsb_exists in Hrange. destruct Hrange as (k & Hk & Hnk).
    apply Z.eqb_eq in Hnk. subst k. cbn in Hk. lia. }
  destruct (Py.strip_value (Py.get_default (json req) "user_name" (Py.VStr "")))
    as [|user_name]; [split; [reflexivity | split; [discriminate | tauto]] |].
  destruct (pool req); cbn [negb];
    [| split; [reflexivity | split; [discriminate | tauto]]].
  destruct (fetchone _ (packages db)) as [p|] eqn:Hrow;
    [| split; [reflexivity | split; [discriminate | tauto]]].
  apply fetchone_elem in Hrow. destruct Hrow as [Hrow Hid]. apply Z.eqb_eq in Hid.
  cbn [fst snd]. split; [intros Hst; contradiction Hst; reflexivity |]. split.
  - intros _. eexists. split; [reflexivity |]. cbn.
    split; [reflexivity |]. split; [reflexivity |].
    split; [exists p; split; assumption |]. split; [exact Hn |].
    split; [| reflexivity].
    destruct user_name; cbn; discriminate.
  - intros Hall. cbn. apply Forall_app. split; [exact Hall |].
    constructor; [exact Hn | constructor].
Qed.

Lemma fetchone_same_name (rows rows' : list Package) (id : Z) :
  Forall2 same_but_flag rows rows' ->
  option_map p_name (fetchone (fun p => p_package_id p =? id) rows')
  = option_map p_name (fetchone (fun p => p_package_id p =? id) rows).
Proof.
  unfold fetchone. induction 1 as [| p p' rows rows' Hp _ IH]; [reflexivity |].
  unfold same_but_flag in Hp.
  assert (Hid : p_package_id p' = p_package_id p) by (rewrite Hp; reflexivity).
  assert (Hname : p_name p' = p_name p) by (rewrite Hp; reflexivity).
  cbn [List.find]. rewrite Hid.
  destruct (p_package_id p =? id); [| exact IH].
  cbn [option_map]. rewrite Hname. reflexivity.
Qed.

(** Bookings do not read the active flag: on a database that differs only
    in the flags of its packages the same request gets the same reply. *)
Lemma create_booking_flag_blind (req : Request) (db db' : Db.t) :
  Forall2 same_but_flag (packages db) (packages db') ->
  with_packages (packages db) (package_seq db) db' = db ->
  fst (create_booking req db') = fst (create_booking req db).
Proof.
  intros Hrows Hrest.
  assert (Hseq : booking_seq db' = booking_seq db) by (rewrite <- Hrest; reflexivity).
  unfold create_booking.
  destruct (s_user_id (session req)) as [user_id|]; [| reflexivity].
  destruct (user_id =? 0); [reflexivity |].
  destruct (missing_field (json req)); [reflexivity |].
  destruct (py_int (Py.get (json req) "package_id")) as [|package_id]; [reflexivity |].
  destruct (read_booking_form (json req)) as [e|form]; [destruct e; reflexivity |].
  repeat match goal with
         | |- fst (if ?c then _ else _) = fst (if ?c then _ else _) =>
             destruct c; [reflexivity |]
         end.
  pose proof (fetchone_same_name _ _ package_id Hrows) as Hname.
  destruct (fetchone _ (packages db')) as [p'|], (fetchone _ (packages db)) as [p|];
    cbn [option_map] in Hname; try discriminate Hname; try reflexivity.
  injection Hname as Hname.
  unfold insert_booking. rewrite Hseq, Hname.
  destruct (bindable (f_preferred_airline form) && bindable (f_preferred_seating form)
            && bindable (f_fare_type form)); [| reflexivity].
  destruct (to_date (f_departure_date form)); [| reflexivity].
  destruct (none_if_empty (f_return_date form)) as [s|]; [| reflexivity].
  destruct (to_date s); reflexivity.
Qed.

(** X9: A package that its vendor has deleted or switched off can still be
    booked: after either call, whoever made it and whatever it answered,
    every booking request gets the reply it would have got before. *)
Theorem booking_ignores_soft_delete (id : Z) (by_vendor req : Request) (db : Db.t) :
  fst (create_booking req (snd (delete_vendor_package id by_vendor db)))
  = fst (create_booking req db)
  /\ fst (create_booking req (snd (toggle_package_status id by_vendor db)))
     = fst (create_booking req db).
Proof.
  destruct (flag_writes id by_vendor db) as [[Hd1 Hd2] [Ht1 Ht2]].
  split; apply create_booking_flag_blind; assumption.
Qed.

End Frames.

(** The booking of the example is created; its row is pending and belongs
    to the user of the session. *)
Lemma create_booking_writes_one_pending_witness :
  exists b : Db.Booking,
    snd (App.create_booking (H := Demo.runtime) Demo.cheap_booking Demo.db)
      = Db.with_bookings (Db.bookings Demo.db ++ [b])%list 3 Demo.db
    /\ Db.b_status b = "pending" /\ Db.b_user_id b = 3.
Proof.
  destruct (proj2 (create_booking_writes_one_pending (H := Demo.runtime)
                     Demo.cheap_booking Demo.db))
    as (b & Hdb & _ & Hst & _ & Hu & _).
  - vm_compute. reflexivity.
  - exists b. split; [exact Hdb |]. split; [exact Hst |].
    change (Some 3 = Some (Db.b_user_id b)) in Hu. injection Hu as Hu.
    symmetry. exact Hu.
Defined.

(** The review of the example is written with a rating in range. *)
Lemma submit_review_keeps_ratings_witness :
  exists r : Db.Review,
    Db.reviews (snd (App.submit_review (H := Demo.runtime) 1 Demo.half_star_review Demo.db))
      = [r]
    /\ 1 <= Db.r_rating r <= 5.
Proof.
  destruct (proj1 (proj2 (submit_review_keeps_ratings (H := Demo.runtime) 1
                            Demo.half_star_review Demo.db)))
    as (r & Hdb & _ & _ & _ & Hr & _).
  - vm_compute. reflexivity.
  - exists r. split; [rewrite Hdb; reflexivity | exact Hr].
Defined.

(** ** Approving and rejecting a vendor *)

Section VendorAccounts.
Context `{Runtime}.
Import Db App Spec.


Lemma filter_none {A} (cond : A -> bool) (rows : list A) :
  (forall x, x ∈ rows -> cond x = false) -> List.filter cond rows = [].
Proof.
  intros Hnone. induction rows as [| a rows IH]; [reflexivity |].
  cbn [List.filter]. rewrite (Hnone a) by apply list_elem_of_here.
  apply IH. intros x Hx. apply Hnone. apply list_elem_of_further. exact Hx.
Qed.


Lemma key_determines_row_text {A} (key : A -> string) (rows : list A) (x y : A) :
  NoDup (map key rows) -> x ∈ rows -> y ∈ rows -> key x = key y -> x = y.
Proof.
  intros Hnd Hx Hy Hkey.
  induction rows as [|a rows IH]; [inversion Hx |].
  cbn [map] in Hnd. apply NoDup_cons in Hnd. destruct Hnd as [Hnotin Hnd].
  apply elem_of_cons in Hx. apply elem_of_cons in Hy.
  destruct Hx as [-> | Hx], Hy as [-> | Hy].
  - reflexivity.
  - exfalso. apply Hnotin. rewrite Hkey.
    apply list_elem_of_In, in_map, list_elem_of_In. exact Hy.
  - exfalso. apply Hnotin. rewrite <- Hkey.
    apply list_elem_of_In, in_map, list_elem_of_In. exact Hx.
  - apply IH; assumption.
Qed.

Lemma joined_vendor (db : Db.t) (row : Package * Destination * VendorProfile) :
  row ∈ active_packages_joined db ->
  snd row ∈ vendor_profiles db
  /\ p_vendor_id (fst (fst row)) = Some (vp_vendor_id (snd row)).
Proof.
  unfold active_packages_joined. rewrite list_elem_of_In.
  intros Hrow. apply in_flat_map in Hrow. destruct Hrow as (p & _ & Hrow).
  apply in_flat_map in Hrow. destruct Hrow as (d & _ & Hrow).
  apply in_flat_map in Hrow. destruct Hrow as (vp & Hvp & Hrow).
  destruct Hrow as [<- | []]. cbn.
  apply filter_In in Hvp. destruct Hvp as [Hvp Hjoin].
  split; [apply list_elem_of_In; exact Hvp |].
  destruct (p_vendor_id p) as [v|]; [| discriminate Hjoin].
  cbn in Hjoin. apply Z.eqb_eq in Hjoin. congruence.
Qed.

(** X11: The keys of [vendor_profiles] and [packages] and the user names being
    unique, an administrator rejects a vendor.  From then on no login under
    the user name of the vendor's account is answered 200 or changes the
    session, whatever the password; and no package of that vendor is in any
    reply of the public listing, though its rows are still in [packages]. *)
Theorem rejected_vendor_locked_out (req : Request) (db : Db.t) (admin_id : Z)
    (vp : VendorProfile) :
  is_admin req admin_id -> pool req = true ->
  NoDup (map vp_vendor_id (vendor_profiles db)) -> vp ∈ vendor_profiles db ->
  NoDup (map u_username (users db)) -> NoDup (map p_package_id (packages db)) ->
  let db' := snd (reject_vendor (vp_vendor_id vp) req db) in
  (forall (u : User) (attempt : Request),
     u ∈ users db -> u_user_id u = vp_user_id vp ->
     Py.strip_value (Py.get_default (json attempt) "username" (Py.VStr ""))
       = Py.Ok (u_username u) ->
     snd (fst (fst (login attempt db'))) <> 200
     /\ snd (login attempt db') = session attempt)
  /\ (forall (p : Package) (visitor : Request),
        p ∈ packages db -> p_vendor_id p = Some (vp_vendor_id vp) ->
        p ∈ packages db'
        /\ Py.VInt (p_package_id p)
           ∉ listed_ids (fst (fst (get_packages visitor db')))).
Proof.
  intros Hadmin Hpool Hnd Hin Hnames Hids db'.
  assert (Hrow : fetchone (fun x => vp_vendor_id x =? vp_vendor_id vp)
                   (vendor_profiles db) = Some vp).
  { apply (fetchone_the_row vp_vendor_id _ _ vp Hnd Hin).
    - apply Z.eqb_refl.
    - intros y Hy. apply Z.eqb_eq. exact Hy. }
  assert (Hdb' : db' = with_users
                         (delete (fun u => u_user_id u =? vp_user_id vp) (users db))
                         (with_user_roles
                            (delete (fun ur => eq_null (ur_user_id ur) (Some (vp_user_id vp)))
                               (user_roles db))
                            (with_vendor_profiles
                               (delete (fun x => vp_vendor_id x =? vp_vendor_id vp)
                                  (vendor_profiles db)) db))).
  { unfold db', reject_vendor. rewrite (admin_passes _ _ _ _ Hadmin).
    rewrite Hpool. cbn [negb]. rewrite Hrow. reflexivity. }
  clearbody db'. subst db'. split.
  - intros u attempt Hu Huid Hname.
    assert (Hrows : login_rows (u_username u)
                      (with_users
                         (delete (fun u => u_user_id u =? vp_user_id vp) (users db))
                         (with_user_roles
                            (delete (fun ur => eq_null (ur_user_id ur) (Some (vp_user_id vp)))
                               (user_roles db))
                            (with_vendor_profiles
                               (delete (fun x => vp_vendor_id x =? vp_vendor_id vp)
                                  (vendor_profiles db)) db))) = []).
    { unfold login_rows. cbn [users with_users].
      rewrite filter_none; [reflexivity |].
      intros x Hx. apply delete_elem in Hx. destruct Hx as [Hx Hkept].
      apply String.eqb_neq. intros Hsame.
      rewrite (key_determines_row_text u_username (users db) x u Hnames Hx Hu Hsame)
        in Hkept.
      rewrite Huid, Z.eqb_refl in Hkept. discriminate Hkept. }
    unfold login. rewrite Hname.
    destruct (negb (Py.truthy_str (u_username u)) || negb (Py.truthy _));
      [split; [discriminate | reflexivity] |].
    destruct (negb (pool attempt)); [split; [discriminate | reflexivity] |].
    rewrite Hrows. split; [discriminate | reflexivity].
  - intros p visitor Hp Hvendor. split; [exact Hp |].
    intros Hlisted. unfold get_packages in Hlisted.
    destruct (pool visitor); cbn [negb] in Hlisted; [| inversion Hlisted].
    destruct (catalog_rows (args visitor !! "destination_id") _) as [rows|] eqn:Hrows;
      [| inversion Hlisted].
    cbn [fst listed_ids] in Hlisted.
    apply list_elem_of_In in Hlisted. apply in_map_iff in Hlisted.
    destruct Hlisted as (entry & Hid & Hentry).
    apply in_map_iff in Hentry. destruct Hentry as (row & <- & Hrow').
    rewrite package_dict_id in Hid. injection Hid as Hid.
    apply list_elem_of_In in Hrow'.
    apply (catalog_rows_active _ _ _ _ Hrows) in Hrow'.
    destruct (joined_is_active _ _ Hrow') as [Hq _].
    destruct (joined_vendor _ _ Hrow') as [Hvp' Hjoin].
    cbn [packages vendor_profiles with_users with_user_roles with_vendor_profiles]
      in Hq, Hvp'.
    apply delete_elem in Hvp'. destruct Hvp' as [_ Hkept].
    rewrite (key_determines_row p_package_id _ _ _ Hids Hq Hp Hid) in Hjoin.
    rewrite Hvendor in Hjoin. injection Hjoin as Hjoin.
    rewrite <- Hjoin, Z.eqb_refl in Hkept. discriminate Hkept.
Qed.

End VendorAccounts.


(** The administrator rejects vendor 7 of the example database; its user
    tries to log in and a visitor lists the catalog. *)
Lemma rejected_vendor_locked_out_witness :
  let db' := snd (App.reject_vendor 7 (Demo.request Demo.admin_session []) Demo.db) in
  snd (fst (fst (App.login (H := Demo.runtime) Demo.wrong_login db'))) <> 200
  /\ Py.VInt 1 ∉ Spec.listed_ids
                   (fst (fst (App.get_packages (H := Demo.runtime)
                                (Demo.request Demo.anonymous []) db'))).
Proof.
  destruct (rejected_vendor_locked_out (H := Demo.runtime)
              (Demo.request Demo.admin_session []) Demo.db 1 Demo.jinnah_profile)
    as [Hlogin Hlist].
  - split; reflexivity.
  - reflexivity.
  - cbn. apply NoDup_singleton.
  - cbn. apply list_elem_of_here.
  - cbn. apply NoDup_cons. split; [| apply NoDup_singleton].
    intros Hin. apply elem_of_cons in Hin. destruct Hin as [Hin | Hin];
      [discriminate Hin | inversion Hin].
  - cbn. apply NoDup_singleton.
  - split.
    + apply (Hlogin Demo.jinnah_user Demo.wrong_login).
      * cbn. apply list_elem_of_further, list_elem_of_here.
      * reflexivity.
      * vm_compute. reflexivity.
    + apply (Hlist Demo.hunza_week (Demo.request Demo.anonymous [])).
      * cbn. apply list_elem_of_here.
      * reflexivity.
Defined.

(** ** Registration *)

Section Accounts.
Context `{Runtime}.
Import Db App Spec.

(** What a registration has read and written: nothing unless it answers
    201, and then one account, with a profile when the type is vendor. *)
Lemma register_cases (user_id vendor_id : Z) (req : Request) (db : Db.t) :
  let out := register user_id vendor_id req db in
  (snd (fst out) <> 201 /\ snd out = db)
  \/ (snd (fst out) = 201
      /\ exists (full_name username email phone password account_type : string)
                (role : UserRole),
           read_account_form (json req) = Py.Ok (full_name, username, email, phone)
           /\ Py.get_default (json req) "password" (Py.VStr "") = Py.VStr password
           /\ Py.get_default (json req) "account_type" (Py.VStr "customer")
              = Py.VStr account_type
           /\ Py.truthy_str username = true /\ Py.truthy_str password = true
           /\ pool req = true
           /\ fetchone (fun ur => String.eqb (ur_role_name ur) account_type)
                (user_roles db) = Some role
           /\ fetchone (fun u => String.eqb (u_username u) username
                                 || String.eqb (u_email u) email) (users db) = None
           /\ let u := {| u_user_id := user_id; u_username := username;
                          u_email := email;
                          u_password_hash :=
                            generate_password_hash (salt req) password;
                          u_full_name := full_name; u_phone := phone;
                          u_role_id := ur_role_id role;
                          u_is_active :=
                            if String.eqb account_type "customer" then 1 else 0;
                          u_last_login := None |} in
              if String.eqb account_type "vendor" then
                exists vp : VendorProfile,
                  vp_vendor_id vp = vendor_id /\ vp_user_id vp = user_id
                  /\ vp_verification_status vp = "pending"
                  /\ out = ((Message true "Vendor registration submitted! Your account will be activated after admin approval. You will receive an email notification.", 201),
                            with_vendor_profiles (vendor_profiles db ++ [vp])%list
                              (with_users (users db ++ [u])%list db))
              else
                out = ((Message true "Registration successful! You can now login.", 201),
                       with_users (users db ++ [u])%list db)).
Proof.
  cbv zeta. unfold register.
  destruct (read_account_form (json req)) as [|[[[full_name username] email] phone]];
    [left; split; [discriminate | reflexivity] |].
  destruct (Py.truthy_str full_name && Py.truthy_str username && Py.truthy_str email
            && Py.truthy_str phone
            && Py.truthy (Py.get_default (json req) "password" (Py.VStr ""))) eqn:Hall;
    cbn [negb]; [| left; split; [discriminate | reflexivity]].
  destruct (py_len (Py.get_default (json req) "password" (Py.VStr ""))) as [|n];
    [left; split; [discriminate | reflexivity] |].
  destruct (n <? 6); [left; split; [discriminate | reflexivity] |].
  destruct (pool req); cbn [negb]; [| left; split; [discriminate | reflexivity]].
  destruct (Py.get_default (json req) "account_type" (Py.VStr "customer"))
    as [| | | |account_type| |];
    try (left; split; [discriminate | reflexivity]).
  destruct (fetchone _ (user_roles db)) as [role|] eqn:Hrole;
    [| left; split; [discriminate | reflexivity]].
  destruct (fetchone _ (users db)) eqn:Hdup;
    [left; split; [discriminate | reflexivity] |].
  destruct (Py.get_default (json req) "password" (Py.VStr ""))
    as [| | | |password| |];
    try (left; split; [discriminate | reflexivity]).
  apply andb_prop in Hall. destruct Hall as [Hall Hpw].
  apply andb_prop in Hall. destruct Hall as [Hall _].
  apply andb_prop in Hall. destruct Hall as [Hall _].
  apply andb_prop in Hall. destruct Hall as [_ Hun].
  cbn [is_account_type].
  destruct (String.eqb account_type "vendor") eqn:Hvendor.
  - destruct (read_vendor_form (json req)) as [|[[company_name business_license] image_url]];
      [left; split; [discriminate | reflexivity] |].
    destruct (negb (Py.truthy_str company_name) || negb (Py.truthy_str business_license));
      [left; split; [discriminate | reflexivity] |].
    right. split; [reflexivity |].
    exists full_name, username, email, phone, password, account_type, role.
    repeat (split; [first [reflexivity | assumption] |]).
    rewrite Hvendor. eexists. split; [| split; [| split; [| reflexivity]]]; reflexivity.
  - right. split; [reflexivity |].
    exists full_name, username, email, phone, password, account_type, role.
    repeat (split; [first [reflexivity | assumption] |]).
    rewrite Hvendor. reflexivity.
Qed.

Lemma NoDup_snoc_key {A} (key : A -> string) (rows : list A) (x : A) :
  NoDup (map key rows) -> (forall y, y ∈ rows -> key y <> key x) ->
  NoDup (map key (rows ++ [x])).
Proof.
  intros Hnd Hfresh. rewrite map_app. apply NoDup_app.
  split; [exact Hnd |]. split; [| apply NoDup_singleton].
  intros k Hk Hx. cbn in Hx. apply elem_of_cons in Hx.
  destruct Hx as [-> | Hx]; [| inversion Hx].
  apply list_elem_of_In, in_map_iff in Hk. destruct Hk as (y & Hy & Hin).
  apply (Hfresh y); [apply list_elem_of_In; exact Hin | exact Hy].
Qed.

Lemma fetchone_is_none {A} (cond : A -> bool) (rows : list A) (x : A) :
  fetchone cond rows = None -> x ∈ rows -> cond x = false.
Proof.
  unfold fetchone. intros Hnone Hx.
  apply (find_none _ _ Hnone). apply list_elem_of_In. exact Hx.
Qed.

(** X12: Registration keeps user names and emails unique: when no two accounts
    share a user name and no two share an email, the same holds after any
    registration request; one that is not answered 201 writes nothing. *)
Theorem register_keeps_accounts_distinct (user_id vendor_id : Z) (req : Request)
    (db : Db.t) :
  NoDup (map u_username (users db)) -> NoDup (map u_email (users db)) ->
  let out := register user_id vendor_id req db in
  NoDup (map u_username (users (snd out)))
  /\ NoDup (map u_email (users (snd out)))
  /\ (snd (fst out) <> 201 -> snd out = db).
Proof.
  intros Hnames Hemails out.
  destruct (register_cases user_id vendor_id req db) as [[Hst Hdb] | [Hst Hnew]];
    fold out in Hst; try fold out in Hdb.
  - rewrite Hdb. split; [exact Hnames |]. split; [exact Hemails | reflexivity].
  - destruct Hnew as (full_name & username & email & phone & password & account_type
                      & role & _ & _ & _ & _ & _ & _ & _ & Hdup & Hout).
    cbv zeta in Hout. fold out in Hout.
    assert (Husers : users (snd out)
                     = (users db ++
                          [ {| u_user_id := user_id; u_username := username;
                               u_email := email;
                               u_password_hash :=
                                 generate_password_hash (salt req) password;
                               u_full_name := full_name; u_phone := phone;
                               u_role_id := ur_role_id role;
                               u_is_active :=
                                 if String.eqb account_type "customer" then 1 else 0;
                               u_last_login := None |} ])%list).
    { destruct (String.eqb account_type "vendor").
      - destruct Hout as (vp & _ & _ & _ & ->). reflexivity.
      - rewrite Hout. reflexivity. }
    rewrite Husers. split; [| split; [| intros Hne; contradiction]].
    + apply NoDup_snoc_key; [exact Hnames |].
      intros y Hy. cbn. apply String.eqb_neq.
      pose proof (fetchone_is_none _ _ y Hdup Hy) as Hy'. cbn in Hy'.
      apply orb_false_elim in Hy'. exact (proj1 Hy').
    + apply NoDup_snoc_key; [exact Hemails |].
      intros y Hy. cbn. apply String.eqb_neq.
      pose proof (fetchone_is_none _ _ y Hdup Hy) as Hy'. cbn in Hy'.
      apply orb_false_elim in Hy'. exact (proj2 Hy').
Qed.

(** X13: Nobody registers into an active account of a role other than customer:
    after any registration request, an account that was not there before is
    the one of the given key, has never logged in, and is inactive unless
    its role is one that [user_roles] names "customer"; a vendor profile
    that was not there before is pending. *)
Theorem register_activates_customers_only (user_id vendor_id : Z) (req : Request)
    (db : Db.t) :
  let out := register user_id vendor_id req db in
  Forall (fun u =>
            u ∈ users db
            \/ (u_user_id u = user_id /\ u_last_login u = None
                /\ (u_is_active u = 0
                    \/ (u_is_active u = 1
                        /\ exists role, role ∈ user_roles db
                                        /\ ur_role_name role = "customer"
                                        /\ u_role_id u = ur_role_id role))))
    (users (snd out))
  /\ Forall (fun vp =>
               vp ∈ vendor_profiles db
               \/ (vp_vendor_id vp = vendor_id /\ vp_user_id vp = user_id
                   /\ vp_verification_status vp = "pending"))
       (vendor_profiles (snd out)).
Proof.
  intros out.
  assert (Hold : forall {A} (rows : list A) (P : A -> Prop),
            Forall (fun x => x ∈ rows \/ P x) rows).
  { intros A rows P. apply Forall_forall. intros x Hx. left. exact Hx. }
  destruct (register_cases user_id vendor_id req db) as [[Hst Hdb] | [Hst Hnew]];
    fold out in Hst; try fold out in Hdb.
  - rewrite Hdb. split; apply Hold.
  - destruct Hnew as (full_name & username & email & phone & password & account_type
                      & role & _ & _ & _ & _ & _ & _ & Hrole & _ & Hout).
    cbv zeta in Hout. fold out in Hout.
    apply fetchone_elem in Hrole. destruct Hrole as [Hrole Hname].
    apply String.eqb_eq in Hname.
    assert (Hu : forall rows u, u = {| u_user_id := user_id; u_username := username;
                               u_email := email;
                               u_password_hash :=
                                 generate_password_hash (salt req) password;
                               u_full_name := full_name; u_phone := phone;
                               u_role_id := ur_role_id role;
                               u_is_active :=
                                 if String.eqb account_type "customer" then 1 else 0;
                               u_last_login := None |} ->
              rows = (users db ++ [u])%list ->
              Forall (fun u =>
                u ∈ users db
                \/ (u_user_id u = user_id /\ u_last_login u = None
                    /\ (u_is_active u = 0
                        \/ (u_is_active u = 1
                            /\ exists role, role ∈ user_roles db
                                            /\ ur_role_name role = "customer"
                                            /\ u_role_id u = ur_role_id role))))
                rows).
    { intros rows u -> ->. apply Forall_app. split; [apply Hold |].
      constructor; [| constructor]. right. cbn.
      split; [reflexivity |]. split; [reflexivity |].
      destruct (String.eqb account_type "customer") eqn:Hc; [right | left; reflexivity].
      apply String.eqb_eq in Hc. split; [reflexivity |].
      exists role. split; [exact Hrole |]. split; [congruence | reflexivity]. }
    destruct (String.eqb account_type "vendor").
    + destruct Hout as (vp & Hvid & Huid & Hpending & ->). cbn [snd users vendor_profiles
        with_users with_vendor_profiles]. split.
      * eapply Hu; reflexivity.
      * apply Forall_app. split; [apply Hold |].
        constructor; [| constructor]. right. split; [exact Hvid |].
        split; [exact Huid | exact Hpending].
    + rewrite Hout. cbn [snd users vendor_profiles with_users]. split.
      * eapply Hu; reflexivity.
      * apply Hold.
Qed.

End Accounts.

(** The customer of the example registers; the user names stay distinct. *)
Lemma register_keeps_accounts_distinct_witness :
  NoDup (map Db.u_username
           (Db.users (snd (App.register (H := Demo.runtime) 6 10
                             Demo.signup_customer Demo.open_db)))).
Proof.
  apply (register_keeps_accounts_distinct (H := Demo.runtime) 6 10
           Demo.signup_customer Demo.open_db).
  - vm_compute. repeat (apply NoDup_cons; split;
      [intros Hin; repeat (apply elem_of_cons in Hin; destruct Hin as [Hin | Hin];
                           [discriminate Hin |]); inversion Hin |]).
    apply NoDup_nil. exact I.
  - vm_compute. repeat (apply NoDup_cons; split;
      [intros Hin; repeat (apply elem_of_cons in Hin; destruct Hin as [Hin | Hin];
                           [discriminate Hin |]); inversion Hin |]).
    apply NoDup_nil. exact I.
Defined.

(** ** Logging in *)

Section Sessions.
Context `{Runtime}.
Import Db App Spec.




End Sessions.


(** ** From registration to the first login *)

Section RoundTrips.
Context `{Runtime}.
Import Db App Spec.

Lemma read_account_form_username (data : Py.dict)
    (full_name username email phone : string) :
  read_account_form data = Py.Ok (full_name, username, email, phone) ->
  Py.strip_value (Py.get_default data "username" (Py.VStr "")) = Py.Ok username.
Proof.
  unfold read_account_form. intros Hform.
  repeat match type of Hform with
         | Py.bind ?m _ = Py.Ok _ =>
             destruct m eqn:?; cbn [Py.bind] in Hform; [discriminate Hform |]
         end.
  injection Hform as _ <- _ _. reflexivity.
Qed.

Lemma filter_snoc_only {A} (cond : A -> bool) (rows : list A) (x : A) :
  (forall y, y ∈ rows -> cond y = false) -> cond x = true ->
  List.filter cond (rows ++ [x]) = [x].
Proof.
  intros Hnone Hx. rewrite List.filter_app, (filter_none _ _ Hnone). cbn. rewrite Hx.
  reflexivity.
Qed.

Lemma filter_key_single {A} (key : A -> Z) (rows : list A) (x : A) :
  NoDup (map key rows) -> x ∈ rows ->
  List.filter (fun y => key y =? key x) rows = [x].
Proof.
  intros Hnd Hin. induction rows as [| a rows IH]; [inversion Hin |].
  cbn [map] in Hnd. apply NoDup_cons in Hnd. destruct Hnd as [Hnotin Hnd].
  cbn [List.filter]. apply elem_of_cons in Hin. destruct Hin as [-> | Hin].
  - rewrite Z.eqb_refl. f_equal. apply filter_none.
    intros y Hy. apply Z.eqb_neq. intros Hkey. apply Hnotin. rewrite <- Hkey.
    apply list_elem_of_In, in_map, list_elem_of_In. exact Hy.
  - destruct (key a =? key x) eqn:Ha; [| apply IH; assumption].
    exfalso. apply Z.eqb_eq in Ha. apply Hnotin. rewrite Ha.
    apply list_elem_of_In, in_map, list_elem_of_In. exact Hin.
Qed.

Lemma filter_update {A} (cond c : A -> bool) (set : A -> A) (rows : list A) :
  (forall x, cond (set x) = cond x) ->
  List.filter cond (update c set rows) = update c set (List.filter cond rows).
Proof.
  intros Hset. unfold update. induction rows as [| a rows IH]; [reflexivity |].
  cbn [map List.filter].
  replace (cond (if c a then set a else a)) with (cond a)
    by (destruct (c a); [symmetry; apply Hset | reflexivity]).
  destruct (cond a); cbn [map]; rewrite IH; reflexivity.
Qed.

Lemma fetchone_snoc {A} (cond : A -> bool) (rows : list A) (x : A) :
  (forall y, y ∈ rows -> cond y = false) -> cond x = true ->
  fetchone cond (rows ++ [x]) = Some x.
Proof.
  intros Hnone Hx. unfold fetchone. induction rows as [| a rows IH].
  - cbn. rewrite Hx. reflexivity.
  - cbn. rewrite (Hnone a) by apply list_elem_of_here.
    apply IH. intros y Hy. apply Hnone. apply list_elem_of_further. exact Hy.
Qed.

(** The rows of the login query when one account has the user name and
    one role has its role id. *)
Lemma login_rows_single (username : string) (db : Db.t) (u : User) (role : UserRole) :
  List.filter (fun x => String.eqb (u_username x) username) (users db) = [u] ->
  List.filter (fun ur => ur_role_id ur =? u_role_id u) (user_roles db) = [role] ->
  login_rows username db
  = match List.filter (fun vp => vp_user_id vp =? u_user_id u) (vendor_profiles db) with
    | [] => [(u, role, None)]
    | vps => map (fun vp => (u, role, Some vp)) vps
    end.
Proof.
  intros Hu Hrole. unfold login_rows. rewrite Hu. cbn [flat_map].
  rewrite Hrole. cbn [flat_map]. rewrite !app_nil_r. reflexivity.
Qed.

(** The reply of [login] once a row is found and the secure check
    accepts the password. *)
Lemma login_verified (req : Request) (db : Db.t) (username password : string)
    (u : User) (role : UserRole) (vp : option VendorProfile)
    (rest : list (User * UserRole * option VendorProfile)) :
  Py.strip_value (Py.get_default (json req) "username" (Py.VStr "")) = Py.Ok username ->
  Py.get_default (json req) "password" (Py.VStr "") = Py.VStr password ->
  Py.truthy_str username = true -> Py.truthy_str password = true -> pool req = true ->
  login_rows username db = (u, role, vp) :: rest ->
  check_password_hash (u_password_hash u) password = Some true ->
  login req db
  = if u_is_active u =? 0 then
      if String.eqb (ur_role_name role) "vendor" then
        ((Message false "Your vendor account is pending admin approval. Please wait for activation email.", 403),
         db, session req)
      else ((Message false "Account is inactive", 403), db, session req)
    else if String.eqb (ur_role_name role) "vendor"
            && negb (bool_decide (option_map vp_verification_status vp = Some "verified")) then
      ((Message false ("Vendor account status: "
                       +:+ show_str (option_map vp_verification_status vp)
                       +:+ ". Please contact admin."), 403),
       db, session req)
    else
      ((LoggedIn "Login successful"
          (if String.eqb (ur_role_name role) "admin" then "/admin" else "/index")
          (u_user_id u) (u_username u) (u_email u) (u_full_name u) (ur_role_name role),
        200),
       with_users (update (fun u' => u_user_id u' =? u_user_id u)
                     (set_last_login (now req)) (users db)) db,
       {| s_user_id := Some (u_user_id u);
          s_username := Some (u_username u);
          s_email := Some (u_email u);
          s_full_name := Some (u_full_name u);
          s_role := Some (ur_role_name role);
          s_vendor_id :=
            match option_map vp_vendor_id vp with
            | Some v => if v =? 0 then s_vendor_id (session req) else Some v
            | None => s_vendor_id (session req)
            end |}).
Proof.
  intros Hname Hpw Hun Hpwt Hpool Hrows Hcheck.
  unfold login. rewrite Hname, Hpw. cbn [Py.truthy].
  rewrite Hun, Hpwt, Hpool. cbn [negb orb]. rewrite Hrows, Hcheck.
  cbn [negb andb orb]. reflexivity.
Qed.

(** X15: A customer registers and logs in with the same form: when the secure
    check accepts the hash made of a password and role ids are unique, a
    registration of type customer answered 201 is followed by a login
    answered 200 for the new account, as a customer.  The login stamps the
    account's [last_login]; the session it opens is answered 200 by the
    session check, and 401 once logged out. *)
Theorem register_then_login (user_id vendor_id : Z) (req : Request) (db : Db.t) :
  (forall salt password,
     check_password_hash (generate_password_hash salt password) password = Some true) ->
  NoDup (map ur_role_id (user_roles db)) ->
  Py.get_default (json req) "account_type" (Py.VStr "customer") = Py.VStr "customer" ->
  snd (fst (register user_id vendor_id req db)) = 201 ->
  let db' := snd (register user_id vendor_id req db) in
  exists (username email full_name : string) (db'' : Db.t) (s : Session),
    login req db'
      = ((LoggedIn "Login successful" "/index" user_id username email full_name
            "customer", 200), db'', s)
    /\ s_user_id s = Some user_id /\ s_role s = Some "customer"
    /\ (exists u, u ∈ users db'' /\ u_user_id u = user_id
                  /\ u_last_login u = Some (now req))
    /\ snd (check_session s) = 200
    /\ snd (check_session (snd (logout s))) = 401.
Proof.
  intros Hhash Hroles Htype Hst db'.
  destruct (register_cases user_id vendor_id req db) as [[Hne _] | [_ Hnew]];
    [contradiction |].
  destruct Hnew as (full_name & username & email & phone & password & account_type
                    & role & Hform & Hpw & Htype' & Hun & Hpwt & Hpool & Hrole & Hdup
                    & Hout).
  rewrite Htype in Htype'. injection Htype' as <-.
  cbv zeta in Hout. cbn [String.eqb Ascii.eqb Bool.eqb andb] in Hout.
  fold db' in Hout.
  set (u := {| u_user_id := user_id; u_username := username; u_email := email;
               u_password_hash := generate_password_hash (salt req) password;
               u_full_name := full_name; u_phone := phone;
               u_role_id := ur_role_id role; u_is_active := 1;
               u_last_login := None |}) in *.
  assert (Hdb' : db' = with_users (users db ++ [u])%list db)
    by (unfold db'; rewrite Hout; reflexivity).
  apply fetchone_elem in Hrole. destruct Hrole as [Hrole Hrname].
  apply String.eqb_eq in Hrname.
  assert (Hrows : exists vp rest, login_rows username db' = (u, role, vp) :: rest).
  { rewrite (login_rows_single username db' u role).
    - destruct (List.filter _ (vendor_profiles db')) as [| vp vps];
        [exists None, [] | exists (Some vp), (map (fun vp => (u, role, Some vp)) vps)];
        reflexivity.
    - rewrite Hdb'. cbn [users with_users]. apply filter_snoc_only.
      + intros y Hy. pose proof (fetchone_is_none _ _ y Hdup Hy) as Hy'. cbn in Hy'.
        apply orb_false_elim in Hy'. exact (proj1 Hy').
      + cbn. apply String.eqb_refl.
    - rewrite Hdb'. cbn [user_roles with_users u_role_id u].
      apply filter_key_single; assumption. }
  destruct Hrows as (vp & rest & Hrows).
  rewrite (login_verified req db' username password u role vp rest
             (read_account_form_username _ _ _ _ _ Hform) Hpw Hun Hpwt Hpool Hrows
             (Hhash _ _)).
  rewrite Hrname. cbn [u_is_active u Z.eqb String.eqb Ascii.eqb Bool.eqb andb].
  eexists _, _, _, _, _. split; [reflexivity |].
  split; [reflexivity |]. split; [reflexivity |]. split.
  - exists (set_last_login (now req) u). split; [| split; reflexivity].
    cbn [users with_users]. apply update_elem; [| apply Z.eqb_refl].
    rewrite Hdb'. cbn [users with_users]. apply elem_of_app. right.
    apply list_elem_of_here.
  - split; reflexivity.
Qed.

End RoundTrips.

(** The customer of the example registers and logs in. *)
Lemma register_then_login_witness :
  exists (db'' : Db.t) (s : App.Session),
    App.login (H := Demo.runtime) Demo.signup_customer
      (snd (App.register (H := Demo.runtime) 6 10 Demo.signup_customer Demo.open_db))
    = ((App.LoggedIn "Login successful" "/index" 6 "amna" "amna@example.pk" "Amna Khan"
          "customer", 200), db'', s)
    /\ App.s_user_id s = Some 6.
Proof.
  destruct (register_then_login (H := Demo.runtime) 6 10 Demo.signup_customer Demo.open_db)
    as (username & email & full_name & db'' & s & Hlogin & Hs & _).
  - intros salt password. cbn. rewrite String.eqb_refl. reflexivity.
  - vm_compute. repeat (apply NoDup_cons; split;
      [intros Hin; repeat (apply elem_of_cons in Hin; destruct Hin as [Hin | Hin];
                           [discriminate Hin |]); inversion Hin |]).
    apply NoDup_nil. exact I.
  - vm_compute. reflexivity.
  - vm_compute. reflexivity.
  - exists db'', s. split; [| exact Hs].
    rewrite Hlogin. vm_compute in Hlogin. injection Hlogin as <- <- <- _ _.
    reflexivity.
Defined.

(** ** From a vendor's registration to its first login *)

Section Onboarding.
Context `{Runtime}.
Import Db App Spec.

(** X16: A vendor registers, is refused at the login, is approved and logs in:
    the secure check accepting the hash made of a password, role ids being
    unique and the keys given to the new rows being fresh, a registration
    of type vendor answered 201 is followed by a login answered 403 that
    writes nothing; once an administrator has approved the new vendor id,
    the same login is answered 200 and opens a session of role vendor for
    the new account and the new vendor id. *)
Theorem vendor_onboarding (user_id vendor_id : Z) (req admin_req : Request) (db : Db.t)
    (admin_id : Z) :
  (forall salt password,
     check_password_hash (generate_password_hash salt password) password = Some true) ->
  NoDup (map ur_role_id (user_roles db)) ->
  (forall vp, vp ∈ vendor_profiles db ->
              vp_user_id vp <> user_id /\ vp_vendor_id vp <> vendor_id) ->
  vendor_id <> 0 ->
  Py.get_default (json req) "account_type" (Py.VStr "customer") = Py.VStr "vendor" ->
  snd (fst (register user_id vendor_id req db)) = 201 ->
  is_admin admin_req admin_id -> pool admin_req = true ->
  let db1 := snd (register user_id vendor_id req db) in
  login req db1
    = ((Message false "Your vendor account is pending admin approval. Please wait for activation email.", 403),
       db1, session req)
  /\ exists db2 : Db.t,
       approve_vendor vendor_id admin_req db1
         = ((Message true "Vendor approved successfully", 200), db2)
       /\ exists (username email full_name : string) (db3 : Db.t) (s : Session),
            login req db2
              = ((LoggedIn "Login successful" "/index" user_id username email full_name
                    "vendor", 200), db3, s)
            /\ s_user_id s = Some user_id /\ s_role s = Some "vendor"
            /\ s_vendor_id s = Some vendor_id.
Proof.
  intros Hhash Hroles Hfresh Hvid Htype Hst Hadmin Hadmin_pool db1.
  destruct (register_cases user_id vendor_id req db) as [[Hne _] | [_ Hnew]];
    [contradiction |].
  destruct Hnew as (full_name & username & email & phone & password & account_type
                    & role & Hform & Hpw & Htype' & Hun & Hpwt & Hpool & Hrole & Hdup
                    & Hout).
  rewrite Htype in Htype'. injection Htype' as <-.
  cbv zeta in Hout. cbn [String.eqb Ascii.eqb Bool.eqb andb] in Hout.
  destruct Hout as (vp & Hvp_id & Hvp_user & Hvp_status & Hout).
  fold db1 in Hout.
  set (u := {| u_user_id := user_id; u_username := username; u_email := email;
               u_password_hash := generate_password_hash (salt req) password;
               u_full_name := full_name; u_phone := phone;
               u_role_id := ur_role_id role; u_is_active := 0;
               u_last_login := None |}) in *.
  assert (Hdb1 : db1 = with_vendor_profiles (vendor_profiles db ++ [vp])%list
                         (with_users (users db ++ [u])%list db))
    by (unfold db1; rewrite Hout; reflexivity).
  clearbody db1. subst db1. clear Hout.
  apply fetchone_elem in Hrole. destruct Hrole as [Hrole Hrname].
  apply String.eqb_eq in Hrname.
  pose proof (read_account_form_username _ _ _ _ _ Hform) as Hname.
  assert (Hothers : forall y, y ∈ users db -> String.eqb (u_username y) username = false).
  { intros y Hy. pose proof (fetchone_is_none _ _ y Hdup Hy) as Hy'. cbn in Hy'.
    apply orb_false_elim in Hy'. exact (proj1 Hy'). }
  assert (Hprofiles : List.filter (fun x => vp_user_id x =? user_id)
                        (vendor_profiles db ++ [vp]) = [vp]).
  { apply filter_snoc_only.
    - intros y Hy. apply Z.eqb_neq. exact (proj1 (Hfresh y Hy)).
    - apply Z.eqb_eq. exact Hvp_user. }
  split.
  - rewrite (login_verified req _ username password u role (Some vp) []
               Hname Hpw Hun Hpwt Hpool).
    + rewrite Hrname. reflexivity.
    + rewrite (login_rows_single username _ u role).
      * cbn [vendor_profiles with_vendor_profiles with_users u_user_id u].
        rewrite Hprofiles. reflexivity.
      * cbn [users with_users with_vendor_profiles].
        apply filter_snoc_only; [exact Hothers | cbn; apply String.eqb_refl].
      * cbn [user_roles with_users with_vendor_profiles u_role_id u].
        apply filter_key_single; assumption.
    + apply Hhash.
  - unfold approve_vendor. rewrite (admin_passes _ _ _ _ Hadmin).
    rewrite Hadmin_pool. cbn [negb vendor_profiles with_vendor_profiles].
    rewrite (fetchone_snoc _ _ vp).
    2: { intros y Hy. apply andb_false_intro1. apply Z.eqb_neq.
         exact (proj2 (Hfresh y Hy)). }
    2: { rewrite Hvp_id, Z.eqb_refl, Hvp_status. reflexivity. }
    eexists. split; [reflexivity |].
    rewrite Hvp_user.
    rewrite (login_verified req _ username password (set_user_active 1 u) role
               (Some (set_verification_status "verified" vp)) []
               Hname Hpw Hun Hpwt Hpool).
    + rewrite Hrname.
      cbn [u_is_active set_user_active Z.eqb String.eqb Ascii.eqb Bool.eqb andb
           option_map vp_verification_status set_verification_status negb].
      rewrite bool_decide_eq_true_2 by reflexivity. cbn [negb andb].
      eexists _, _, _, _, _. split; [reflexivity |].
      split; [reflexivity |]. split; [reflexivity |].
      cbn [s_vendor_id option_map vp_vendor_id set_verification_status].
      rewrite Hvp_id. destruct (vendor_id =? 0) eqn:Hz; [| reflexivity].
      apply Z.eqb_eq in Hz. contradiction.
    + rewrite (login_rows_single username _ (set_user_active 1 u) role).
      * cbn [vendor_profiles with_vendor_profiles with_users u_user_id u
             set_user_active].
        rewrite filter_update by reflexivity. rewrite Hprofiles.
        cbn. rewrite Hvp_id, Z.eqb_refl. reflexivity.
      * cbn [users with_users with_vendor_profiles].
        rewrite filter_update by reflexivity.
        rewrite (filter_snoc_only _ _ u Hothers) by (cbn; apply String.eqb_refl).
        cbn. rewrite Z.eqb_refl. reflexivity.
      * cbn [user_roles with_users with_vendor_profiles u_role_id u set_user_active].
        apply filter_key_single; assumption.
    + apply Hhash.
Qed.

(** X17: An account whose stored hash is a legacy digest: when the secure
    check refuses the stored hash and the digest of the password equals
    it, the login of an active account, verified if it is a vendor's, is
    answered 200, and every account of that user id then stores the hash
    made of the password and the salt instead of the digest. *)
Theorem legacy_hash_replaced (req : Request) (db : Db.t) (username password : string)
    (u : User) (role : UserRole) (vp : option VendorProfile)
    (rest : list (User * UserRole * option VendorProfile)) :
  Py.strip_value (Py.get_default (json req) "username" (Py.VStr "")) = Py.Ok username ->
  Py.get_default (json req) "password" (Py.VStr "") = Py.VStr password ->
  Py.truthy_str username = true -> Py.truthy_str password = true -> pool req = true ->
  login_rows username db = (u, role, vp) :: rest ->
  check_password_hash (u_password_hash u) password <> Some true ->
  sha256_hexdigest password = u_password_hash u ->
  u_is_active u <> 0 ->
  (ur_role_name role = "vendor" ->
   option_map vp_verification_status vp = Some "verified") ->
  snd (fst (fst (login req db))) = 200
  /\ s_user_id (snd (login req db)) = Some (u_user_id u)
  /\ forall u', u' ∈ users (snd (fst (login req db))) -> u_user_id u' = u_user_id u ->
       u_password_hash u' = generate_password_hash (salt req) password
       /\ u_last_login u' = Some (now req).
Proof.
  intros Hname Hpw Hun Hpwt Hpool Hrows Hinsecure Hdigest Hactive Hrole.
  unfold login. rewrite Hname, Hpw. cbn [Py.truthy].
  rewrite Hun, Hpwt, Hpool. cbn [negb orb]. rewrite Hrows.
  replace (match check_password_hash (u_password_hash u) password with
           | Some true => true
           | _ => false
           end) with false
    by (destruct (check_password_hash (u_password_hash u) password) as [[|]|];
        [congruence | reflexivity | reflexivity]).
  rewrite Hdigest, String.eqb_refl. cbn [negb andb orb].
  apply Z.eqb_neq in Hactive. rewrite Hactive.
  replace (String.eqb (ur_role_name role) "vendor"
           && negb (bool_decide (option_map vp_verification_status vp = Some "verified")))
    with false.
  2: { destruct (String.eqb (ur_role_name role) "vendor") eqn:Hv; [| reflexivity].
       apply String.eqb_eq in Hv. rewrite bool_decide_eq_true_2 by (apply Hrole; exact Hv).
       reflexivity. }
  cbn [fst snd].
  split; [reflexivity |]. split; [reflexivity |].
  intros u' Hu' Hid. cbn [users with_users] in Hu'.
  apply update_elem_inv in Hu'. destruct Hu' as (x & Hx & ->).
  apply update_elem_inv in Hx. destruct Hx as (y & _ & ->).
  destruct (u_user_id y =? u_user_id u) eqn:Hy.
  - cbn [u_user_id set_password_hash]. rewrite Hy. split; reflexivity.
  - rewrite Hy in Hid. apply Z.eqb_neq in Hy. contradiction.
Qed.

End Onboarding.

(** The vendor of the example registers, is refused, is approved by the
    administrator and logs in. *)
Lemma vendor_onboarding_witness :
  let db1 := snd (App.register (H := Demo.runtime) 6 10 Demo.signup_vendor Demo.open_db) in
  snd (fst (fst (App.login (H := Demo.runtime) Demo.signup_vendor db1))) = 403
  /\ exists (db2 db3 : Db.t) (s : App.Session),
       App.approve_vendor 10 (Demo.request Demo.admin_session []) db1
         = ((App.Message true "Vendor approved successfully", 200), db2)
       /\ snd (fst (fst (App.login (H := Demo.runtime) Demo.signup_vendor db2))) = 200
       /\ snd (App.login (H := Demo.runtime) Demo.signup_vendor db2) = s
       /\ App.s_vendor_id s = Some 10.
Proof.
  destruct (vendor_onboarding (H := Demo.runtime) 6 10 Demo.signup_vendor
              (Demo.request Demo.admin_session []) Demo.open_db 1)
    as (Hrefused & db2 & Happrove & username & email & full_name & db3 & s & Hlogin
        & _ & _ & Hvendor).
  - intros salt password. cbn. rewrite String.eqb_refl. reflexivity.
  - vm_compute. repeat (apply NoDup_cons; split;
      [intros Hin; repeat (apply elem_of_cons in Hin; destruct Hin as [Hin | Hin];
                           [discriminate Hin |]); inversion Hin |]).
    apply NoDup_nil. exact I.
  - intros vp Hvp. cbn in Hvp.
    repeat (apply elem_of_cons in Hvp; destruct Hvp as [-> | Hvp];
            [split; cbn; lia |]).
    inversion Hvp.
  - lia.
  - vm_compute. reflexivity.
  - vm_compute. reflexivity.
  - split; reflexivity.
  - reflexivity.
  - cbv zeta. split; [rewrite Hrefused; reflexivity |].
    exists db2, db3, s. split; [exact Happrove |].
    rewrite Hlogin. split; [reflexivity |]. split; [reflexivity | exact Hvendor].
Defined.

(** The vendor's user of the example database, whose stored hash is a
    legacy digest, logs in. *)
Lemma legacy_hash_replaced_witness :
  snd (fst (fst (App.login (H := Demo.runtime) Demo.legacy_login Demo.db))) = 200
  /\ App.s_user_id (snd (App.login (H := Demo.runtime) Demo.legacy_login Demo.db))
     = Some 3.
Proof.
  destruct (legacy_hash_replaced (H := Demo.runtime) Demo.legacy_login Demo.db
              "jinnah" "takeoff" Demo.jinnah_user
              {| Db.ur_role_id := 2; Db.ur_role_name := "vendor"; Db.ur_user_id := Some 3 |}
              (Some Demo.jinnah_profile) []) as (Hst & Hs & _).
  - vm_compute. reflexivity.
  - vm_compute. reflexivity.
  - reflexivity.
  - reflexivity.
  - reflexivity.
  - vm_compute. reflexivity.
  - vm_compute. discriminate.
  - vm_compute. reflexivity.
  - cbn. lia.
  - intros _. reflexivity.
  - split; assumption.
Defined.

(** ** Destinations: from submission to the listing *)

Section Destinations.
Import Db App Spec.

Lemma text_le_total {A} (key : A -> string) : Total (text_le key).
Proof.
  intros x y. unfold text_le.
  destruct (String.leb_total (key x) (key y)) as [Hle | Hle]; rewrite Hle;
    [left | right]; exact I.
Qed.

(** X18: The listing of destinations, when a connection is at hand, has every
    row of the table once, in ascending order of name.  The highlights have
    at most three rows of the table, in ascending order of name, and all of
    the table when it has no more than three rows. *)
Theorem listings_sorted (req : Request) (db : Db.t) :
  pool req = true ->
  (exists rows : list Destination,
     get_destinations req db = (Listed "destinations" (map destination_dict rows), 200)
     /\ rows ≡ₚ destinations db /\ Sorted (text_le d_name) rows)
  /\ (exists rows : list Destination,
        get_highlights req db = (Listed "highlights" (map highlight_dict rows), 200)
        /\ (length rows <= 3)%nat
        /\ (forall d, d ∈ rows -> d ∈ destinations db)
        /\ Sorted (text_le d_name) rows
        /\ ((length (destinations db) <= 3)%nat -> rows ≡ₚ destinations db)).
Proof.
  intros Hpool. unfold get_destinations, get_highlights, order_by_text.
  rewrite Hpool. cbn [negb]. split.
  - eexists. split; [reflexivity |].
    split; [apply merge_sort_Permutation | apply Sorted_merge_sort, text_le_total].
  - eexists. split; [reflexivity |].
    split.
    { rewrite merge_sort_Permutation, length_take. lia. }
    split.
    { intros d Hd. rewrite merge_sort_Permutation in Hd.
      apply (subseteq_take 3). exact Hd. }
    split; [apply Sorted_merge_sort, text_le_total |].
    intros Hshort. rewrite merge_sort_Permutation, take_ge by lia. reflexivity.
Qed.

(** X19: A destination goes from a vendor's submission to the public listing
    only through an approval.  A submission that is not answered 201 writes
    nothing; one that is answered 201 leaves the live table as it was.
    When the key of the submitted row is fresh, an administrator's approval
    of it is answered 200 and appends one live destination carrying the
    name, country and description of the form, stripped and not empty, and
    its image address or none; every listing of destinations then has it. *)
Theorem submitted_destination_goes_live (pending_id : Z) (req admin_req : Request)
    (db : Db.t) (admin_id : Z) :
  (forall pd, pd ∈ pending_destinations db -> pd_pending_id pd <> pending_id) ->
  is_admin admin_req admin_id -> pool admin_req = true ->
  let out := vendor_add_destination pending_id req db in
  (snd (fst out) <> 201 -> snd out = db)
  /\ (snd (fst out) = 201 ->
      destinations (snd out) = destinations db
      /\ exists (name country description image_url : string) (db2 : Db.t),
           read_destination_form (json req)
             = Py.Ok (name, country, description, image_url)
           /\ name <> "" /\ country <> "" /\ description <> ""
           /\ approve_destination pending_id admin_req (snd out)
              = ((Message true "Destination approved", 200), db2)
           /\ destinations db2
              = (destinations db ++
                   [ {| d_destination_id := destination_seq db; d_name := name;
                        d_country := country; d_description := description;
                        d_image_url := text_or_null image_url |} ])%list
           /\ forall visitor : Request, pool visitor = true ->
                exists rows : list Py.dict,
                  get_destinations visitor db2 = (Listed "destinations" rows, 200)
                  /\ destination_dict
                       {| d_destination_id := destination_seq db; d_name := name;
                          d_country := country; d_description := description;
                          d_image_url := text_or_null image_url |} ∈ rows).
Proof.
  intros Hfresh Hadmin Hadmin_pool. cbv zeta.
  unfold vendor_add_destination, vendor_required.
  destruct (s_user_id (session req)); [| split; [reflexivity | discriminate]].
  destruct (negb _); [split; [reflexivity | discriminate] |].
  destruct (read_destination_form (json req))
    as [|[[[name country] description] image_url]];
    [split; [reflexivity | discriminate] |].
  destruct (Py.truthy_str name && Py.truthy_str country && Py.truthy_str description)
    eqn:Hall; cbn [negb]; [| split; [reflexivity | discriminate]].
  destruct (pool req); cbn [negb]; [| split; [reflexivity | discriminate]].
  cbn [fst snd]. split; [intros Hne; contradiction Hne; reflexivity | intros _].
  split; [reflexivity |].
  apply andb_prop in Hall. destruct Hall as [Hall Hd].
  apply andb_prop in Hall. destruct Hall as [Hn Hc].
  exists name, country, description, image_url.
  unfold approve_destination. rewrite (admin_passes _ _ _ _ Hadmin).
  rewrite Hadmin_pool. cbn [negb pending_destinations with_pending_destinations].
  rewrite (fetchone_snoc _ _
             {| pd_pending_id := pending_id; pd_vendor_id := s_vendor_id (session req);
                pd_name := name; pd_country := country; pd_description := description;
                pd_image_url := text_or_null image_url; pd_status := "pending";
                pd_reviewed_at := None; pd_reviewed_by := None |}).
  2: { intros y Hy. apply andb_false_intro1. apply Z.eqb_neq. exact (Hfresh y Hy). }
  2: { cbn. rewrite Z.eqb_refl. reflexivity. }
  eexists. split; [reflexivity |].
  split; [destruct name; [discriminate Hn | discriminate] |].
  split; [destruct country; [discriminate Hc | discriminate] |].
  split; [destruct description; [discriminate Hd | discriminate] |].
  split; [reflexivity |]. split; [reflexivity |].
  intros visitor Hvisitor. unfold get_destinations, order_by_text.
  rewrite Hvisitor. cbn [negb]. eexists. split; [reflexivity |].
  apply list_elem_of_fmap. eexists. split; [reflexivity |].
  rewrite merge_sort_Permutation. cbn [destinations with_destinations
    with_pending_destinations pd_name pd_country pd_description pd_image_url].
  apply elem_of_app. right. apply list_elem_of_here.
Qed.

End Destinations.

(** The listing of the example database holds its one destination. *)
Lemma listings_sorted_witness :
  App.get_destinations (Demo.request Demo.anonymous []) Demo.db
  = (App.Listed "destinations" [App.destination_dict Demo.hunza], 200).
Proof.
  destruct (listings_sorted (Demo.request Demo.anonymous []) Demo.db)
    as [(rows & Hlist & Hperm & _) _].
  - reflexivity.
  - rewrite Hlist. cbn in Hperm. apply Permutation_singleton_r in Hperm.
    rewrite Hperm. reflexivity.
Defined.

(** The vendor of the example database submits a destination of key 2 and
    the administrator approves it. *)
Lemma submitted_destination_goes_live_witness :
  exists db2 : Db.t,
    App.approve_destination 2 (Demo.request Demo.admin_session [])
      (snd (App.vendor_add_destination 2 Demo.submit_fairy_meadows Demo.db))
    = ((App.Message true "Destination approved", 200), db2)
    /\ map Db.d_name (Db.destinations db2) = ["Hunza"; "Fairy Meadows"].
Proof.
  destruct (submitted_destination_goes_live 2 Demo.submit_fairy_meadows
              (Demo.request Demo.admin_session []) Demo.db 1) as [_ Hlive].
  - intros pd Hpd. cbn in Hpd. apply elem_of_cons in Hpd.
    destruct Hpd as [-> | Hpd]; [cbn; lia | inversion Hpd].
  - split; reflexivity.
  - reflexivity.
  - destruct Hlive as (_ & name & country & description & image_url & db2 & Hform
                       & _ & _ & _ & Happrove & Hrows & _).
    + vm_compute. reflexivity.
    + exists db2. split; [exact Happrove |]. rewrite Hrows.
      vm_compute in Hform. injection Hform as <- _ _ _. reflexivity.
Defined.

(** ** The assistant when the provider answers *)

Section Answers.
Context `{Runtime}.
Import Db App Spec.

Lemma available_client (self : Chatbot.TravelChatbot) :
  Chatbot.unavailable self = false ->
  exists create : Chatbot.Client, Chatbot.client self = Some create.
Proof.
  unfold Chatbot.unavailable. intros Hav.
  apply orb_false_elim in Hav. destruct Hav as [_ Hclient].
  destruct (Chatbot.client self) as [create|]; [exists create; reflexivity |].
  discriminate Hclient.
Qed.

Lemma chartable_Forall (reviews : list Chatbot.Review) :
  forallb Chatbot.chartable reviews = true
  <-> Forall (fun r => 1 <= Chatbot.rating r <= 5) reviews.
Proof.
  rewrite forallb_forall, Forall_forall. unfold Chatbot.chartable.
  split; intros Hall r Hr.
  - apply list_elem_of_In in Hr. specialize (Hall r Hr). lia.
  - apply list_elem_of_In in Hr. specialize (Hall r Hr). lia.
Qed.

(** X20: More than two reviews, the chatbot holding a client.  When every
    rating is in 1..5 a summary is returned whatever the provider does, and
    its [total_reviews] and [avg_rating] are the number of the reviews and
    their rounded mean: a provider's answer cannot set them.  When a rating
    is outside 1..5 the method raises [KeyError] before any call. *)
Theorem summary_counts_are_computed (self : Chatbot.TravelChatbot)
    (reviews : list Chatbot.Review) (package_name : string) :
  Chatbot.unavailable self = false -> (2 < length reviews)%nat ->
  (Forall (fun r => 1 <= Chatbot.rating r <= 5) reviews ->
     exists d : Py.dict,
       Chatbot.summarize_reviews self reviews package_name = Py.Ok d
       /\ d !! "total_reviews" = Some (Py.VInt (Z.of_nat (length reviews)))
       /\ d !! "avg_rating"
          = Some (Py.VFloat (round_1 (Chatbot.avg_rating reviews))))
  /\ (~ Forall (fun r => 1 <= Chatbot.rating r <= 5) reviews ->
      Chatbot.summarize_reviews self reviews package_name = Py.Raise Py.KeyError).
Proof.
  intros Hav Hmany.
  destruct (available_client self Hav) as (create & Hclient).
  unfold Chatbot.summarize_reviews. rewrite Hav, Hclient.
  replace (length reviews =? 0)%nat with false by (symmetry; apply Nat.eqb_neq; lia).
  replace (length reviews <=? 2)%nat with false by (symmetry; apply Nat.leb_gt; lia).
  split.
  - intros Hrange. apply chartable_Forall in Hrange. rewrite Hrange. cbn [negb].
    eexists. split; [reflexivity |].
    assert (Hfallback :
              Chatbot.summary_fallback reviews !! "total_reviews"
              = Some (Py.VInt (Z.of_nat (length reviews)))
              /\ Chatbot.summary_fallback reviews !! "avg_rating"
                 = Some (Py.VFloat (round_1 (Chatbot.avg_rating reviews)))).
    { unfold Chatbot.summary_fallback. cbn [list_to_map foldr uncurry fst snd].
      split; rewrite !lookup_insert_ne by discriminate; apply lookup_insert_eq. }
    destruct (create _) as [|[response|]]; try exact Hfallback.
    destruct (Provider.choices response) as [|first more]; [exact Hfallback |].
    destruct (Provider.content first) as [text|]; [| exact Hfallback].
    destruct (json_loads text) as [[| | | | | |summary_data]|]; try exact Hfallback.
    split.
    + rewrite lookup_insert_ne by discriminate. apply lookup_insert_eq.
    + apply lookup_insert_eq.
  - intros Hrange.
    destruct (forallb Chatbot.chartable reviews) eqn:Hchart; [| reflexivity].
    apply chartable_Forall in Hchart. contradiction.
Qed.

(** X21: A parsed intent has the nine keys of the booking search and no
    other.  It is read from the object that [json.loads] makes of the
    arguments of the first tool call of the first choice of the provider's
    response: under each of the nine keys it has what that object has
    under the key, or the key's default when the object lacks it; what
    else the object carries is dropped. *)
Theorem intent_has_nine_keys (self : Chatbot.TravelChatbot) (user_query : string)
    (d : Py.dict) :
  Chatbot.extract_booking_intent self user_query = Some d ->
  (forall k : string, is_Some (d !! k) <-> k ∈ intent_keys)
  /\ exists (create : Chatbot.Client) (response : Provider.Response)
            (message : Provider.Message) (more : list Provider.Message)
            (function_call : Provider.ToolCall) (calls : list Provider.ToolCall)
            (args : list (string * Py.value)),
       Chatbot.client self = Some create
       /\ create (Chatbot.IntentExtraction (Chatbot.model self) user_query)
          = Provider.Returns (Some response)
       /\ Provider.choices response = message :: more
       /\ Provider.tool_calls message = function_call :: calls
       /\ json_loads (Provider.arguments function_call) = Some (Py.VDict args)
       /\ d !! "destination_type"
          = Some (Chatbot.assoc_get args "destination_type" (Py.VStr "Any"))
       /\ d !! "destination_name"
          = Some (Chatbot.assoc_get args "destination_name" (Py.VStr ""))
       /\ d !! "duration_days" = Some (Chatbot.assoc_get args "duration_days" Py.VNone)
       /\ d !! "adults" = Some (Chatbot.assoc_get args "adults" (Py.VInt 1))
       /\ d !! "children" = Some (Chatbot.assoc_get args "children" (Py.VInt 0))
       /\ d !! "infants" = Some (Chatbot.assoc_get args "infants" (Py.VInt 0))
       /\ d !! "max_budget" = Some (Chatbot.assoc_get args "max_budget" Py.VNone)
       /\ d !! "preferred_month"
          = Some (Chatbot.assoc_get args "preferred_month" (Py.VStr ""))
       /\ d !! "interests" = Some (Chatbot.assoc_get args "interests" (Py.VList [])).
Proof.
  unfold Chatbot.extract_booking_intent. intros Hd.
  destruct (Chatbot.unavailable self); [discriminate Hd |].
  destruct (Chatbot.client self) as [create|]; [| discriminate Hd].
  destruct (create _) as [|[response|]] eqn:Hcreate; try discriminate Hd.
  destruct (Provider.choices response) as [|message more] eqn:Hchoices;
    [discriminate Hd |].
  destruct (Provider.tool_calls message) as [|function_call calls] eqn:Hcalls;
    [discriminate Hd |].
  destruct (json_loads _) as [[| | | | | |args]|] eqn:Hargs; try discriminate Hd.
  injection Hd as <-. split.
  - intros k. rewrite <- elem_of_dom, !dom_insert_L, dom_empty_L.
    unfold intent_keys. rewrite !elem_of_union, !elem_of_singleton, !elem_of_cons.
    rewrite elem_of_empty, elem_of_nil. tauto.
  - exists create, response, message, more, function_call, calls, args.
    split; [reflexivity |]. split; [exact Hcreate |]. split; [exact Hchoices |].
    split; [exact Hcalls |]. split; [exact Hargs |].
    cbn [list_to_map foldr uncurry fst snd].
    repeat split; rewrite !lookup_insert_ne by discriminate; apply lookup_insert_eq.
Qed.

End Answers.

(** Four ratings in range are summarised while the provider is down; with
    a rating of 0 among them the method raises. *)
Lemma summary_counts_are_computed_witness :
  (exists d : Py.dict,
     Chatbot.summarize_reviews (H := Demo.runtime) (Chatbot.init (Some Demo.raising))
       Demo.four_ratings "Hunza Week" = Py.Ok d
     /\ d !! "total_reviews" = Some (Py.VInt 4))
  /\ Chatbot.summarize_reviews (H := Demo.runtime) (Chatbot.init (Some Demo.raising))
       Demo.bad_ratings "Hunza Week" = Py.Raise Py.KeyError.
Proof.
  split.
  - destruct (summary_counts_are_computed (H := Demo.runtime)
                (Chatbot.init (Some Demo.raising)) Demo.four_ratings "Hunza Week")
      as [Hok _].
    + reflexivity.
    + cbn. lia.
    + destruct Hok as (d & Hd & Htotal & _).
      * repeat constructor; cbn; lia.
      * exists d. split; [exact Hd | exact Htotal].
  - apply (summary_counts_are_computed (H := Demo.runtime)
             (Chatbot.init (Some Demo.raising)) Demo.bad_ratings "Hunza Week").
    + reflexivity.
    + cbn. lia.
    + intros Hall. apply Forall_cons in Hall. destruct Hall as [_ Hall].
      apply Forall_cons in Hall. destruct Hall as [Hzero _].
      cbn in Hzero. lia.
Defined.

(** The provider's tool call carries an object that holds two adults: the
    intent has them, and the defaults under the keys the object lacks. *)
Lemma intent_has_nine_keys_witness :
  exists d : Py.dict,
    Chatbot.extract_booking_intent (H := Demo.reading_runtime)
      (Chatbot.init (Some Demo.two_adults_tool_call)) "a week in Hunza" = Some d
    /\ d !! "adults" = Some (Py.VInt 2)
    /\ d !! "children" = Some (Py.VInt 0)
    /\ d !! "destination_type" = Some (Py.VStr "Any")
    /\ d !! "price" = None.
Proof.
  destruct (Chatbot.extract_booking_intent (H := Demo.reading_runtime)
              (Chatbot.init (Some Demo.two_adults_tool_call)) "a week in Hunza")
    as [d|] eqn:Hd; [| vm_compute in Hd; discriminate Hd].
  exists d. split; [reflexivity |].
  destruct (intent_has_nine_keys (H := Demo.reading_runtime)
              (Chatbot.init (Some Demo.two_adults_tool_call)) "a week in Hunza" d Hd)
    as (Hkeys & create & response & message & more & function_call & calls & args
        & Hclient & Hcreate & Hchoices & Hcalls & Hargs
        & Htype & _ & _ & Hadults & Hchildren & _).
  cbn in Hclient. injection Hclient as <-.
  unfold Demo.two_adults_tool_call in Hcreate. injection Hcreate as <-.
  cbn in Hchoices. injection Hchoices as <- <-.
  cbn in Hcalls. injection Hcalls as <- <-.
  vm_compute in Hargs. injection Hargs as <-.
  split; [exact Hadults |]. split; [exact Hchildren |]. split; [exact Htype |].
  apply eq_None_not_Some. intros Hprice. apply Hkeys in Hprice.
  unfold Spec.intent_keys in Hprice. rewrite !elem_of_cons, elem_of_nil in Hprice.
  repeat (destruct Hprice as [Hprice | Hprice]; [discriminate Hprice |]).
  exact Hprice.
Defined.

(** ** Generated descriptions and the chat endpoint *)

Section Descriptions.
Context `{Runtime}.
Import Db App Spec.

Lemma replace_star (s : string) : Py.contains "*" (Py.replace "*" "" s) = false.
Proof.
  unfold Py.replace. induction s as [| c s IH]; [reflexivity |].
  cbn [Py.replace_from Py.startswith String.length Nat.sub].
  destruct (Ascii.eqb "*" c) eqn:Hc.
  - destruct s; exact IH.
  - cbn [Py.contains Py.startswith]. rewrite Hc. exact IH.
Qed.

Lemma descriptions_no_asterisk (self : Chatbot.TravelChatbot)
    (create : string -> string -> Py.value -> Py.value -> Provider.Outcome)
    (name country : string) (description_type additional_context : Py.value)
    (description : string) :
  Chatbot.generate_description self create name country description_type
    additional_context = Py.Ok (Chatbot.Described description) ->
  Py.contains "*" description = false
  /\ Chatbot.unavailable self = false /\ name <> "" /\ country <> "".
Proof.
  unfold Chatbot.generate_description. intros Hd.
  destruct (Chatbot.unavailable self); [discriminate Hd |].
  destruct name as [| a name]; [discriminate Hd |].
  destruct country as [| b country]; [discriminate Hd |].
  cbn [Py.truthy_str negb orb] in Hd.
  destruct description_type; try discriminate Hd.
  destruct (create _ _ _ _) as [|[response|]]; try discriminate Hd.
  destruct (Provider.choices response) as [|first more]; [discriminate Hd |].
  destruct (Provider.content first) as [text|]; [| discriminate Hd].
  injection Hd as <-. unfold Chatbot.strip_markdown.
  split; [apply replace_star |]. split; [reflexivity |]. split; discriminate.
Qed.

(** X22: A description that [generate_description] returns holds no asterisk,
    whatever the provider wrote; and one is returned only when the chatbot
    holds a client and both the name and the country are given. *)
Theorem descriptions_carry_no_asterisk (self : Chatbot.TravelChatbot)
    (create : string -> string -> Py.value -> Py.value -> Provider.Outcome)
    (name country : string) (description_type additional_context : Py.value)
    (description : string) :
  Chatbot.generate_description self create name country description_type
    additional_context = Py.Ok (Chatbot.Described description) ->
  Py.contains "*" description = false
  /\ Chatbot.unavailable self = false /\ name <> "" /\ country <> "".
Proof. apply descriptions_no_asterisk. Qed.

(** X23: The endpoint that generates descriptions answers 200 exactly when it
    returns a description, which then holds no asterisk.  A request whose
    name, or else whose country, is blank once stripped is answered 400
    whatever the chatbot and the provider are. *)
Theorem description_endpoint_replies (chatbot : Chatbot.TravelChatbot)
    (create : string -> string -> Py.value -> Py.value -> Provider.Outcome)
    (req : Request) :
  let out := generate_ai_description chatbot create req in
  (snd out = 200 <-> exists description, fst out = Chatbot.Described description)
  /\ (forall description, fst out = Chatbot.Described description ->
        Py.contains "*" description = false)
  /\ (forall name country : string,
        Py.strip_value (Py.get_default (json req) "name" (Py.VStr "")) = Py.Ok name ->
        Py.strip_value (Py.get_default (json req) "country" (Py.VStr "")) = Py.Ok country ->
        name = "" \/ country = "" ->
        out = (Chatbot.NotDescribed
                 (if negb (Py.truthy_str name) then "Please provide a destination name"
                  else "Please provide a country"), 400)).
Proof.
  cbv zeta. unfold generate_ai_description.
  destruct (Py.strip_value (Py.get_default (json req) "name" (Py.VStr "")))
    as [|name].
  { split; [split; [discriminate | intros (d & Hd); discriminate Hd] |].
    split; [intros d Hd; discriminate Hd | intros n c Hn; discriminate Hn]. }
  destruct (Py.strip_value (Py.get_default (json req) "country" (Py.VStr "")))
    as [|country].
  { split; [split; [discriminate | intros (d & Hd); discriminate Hd] |].
    split; [intros d Hd; discriminate Hd | intros n c _ Hc; discriminate Hc]. }
  destruct name as [| a name]; cbn [Py.truthy_str negb].
  { split; [split; [discriminate | intros (d & Hd); discriminate Hd] |].
    split; [intros d Hd; discriminate Hd |].
    intros n c Hn _ _. injection Hn as <-. reflexivity. }
  destruct country as [| b country]; cbn [Py.truthy_str negb].
  { split; [split; [discriminate | intros (d & Hd); discriminate Hd] |].
    split; [intros d Hd; discriminate Hd |].
    intros n c Hn _ _. injection Hn as <-. reflexivity. }
  destruct (Chatbot.generate_description chatbot create (String a name)
              (String b country) _ _) as [e|[description|error|prefix]] eqn:Hgen;
    cbn [fst snd].
  - split; [split; [discriminate | intros (d & Hd); discriminate Hd] |].
    split; [intros d Hd; discriminate Hd |].
    intros n c Hn Hc [-> | ->]; [discriminate Hn | discriminate Hc].
  - split; [split; [intros _; eexists; reflexivity | reflexivity] |].
    split.
    + intros d Hd. injection Hd as <-.
      exact (proj1 (descriptions_no_asterisk _ _ _ _ _ _ _ Hgen)).
    + intros n c Hn Hc [-> | ->]; [discriminate Hn | discriminate Hc].
  - split; [split; [discriminate | intros (d & Hd); discriminate Hd] |].
    split; [intros d Hd; discriminate Hd |].
    intros n c Hn Hc [-> | ->]; [discriminate Hn | discriminate Hc].
  - split; [split; [discriminate | intros (d & Hd); discriminate Hd] |].
    split; [intros d Hd; discriminate Hd |].
    intros n c Hn Hc [-> | ->]; [discriminate Hn | discriminate Hc].
Qed.

End Descriptions.

(** The copywriter of the example opens with a preamble and marks two
    words up; the description keeps neither. *)
Lemma descriptions_carry_no_asterisk_witness :
  Chatbot.generate_description (Chatbot.init (Some Demo.raising)) Demo.copywriter
    "Skardu" "Pakistan" (Py.VStr "destination") (Py.VStr "")
  = Py.Ok (Chatbot.Described "Skardu is a cold desert.")
  /\ Py.contains "*" "Skardu is a cold desert." = false.
Proof.
  split; [vm_compute; reflexivity |].
  apply (descriptions_carry_no_asterisk (Chatbot.init (Some Demo.raising))
           Demo.copywriter "Skardu" "Pakistan" (Py.VStr "destination") (Py.VStr "")).
  vm_compute. reflexivity.
Defined.

(** The vendor of the example asks for a description of Skardu. *)
Lemma description_endpoint_replies_witness :
  snd (App.generate_ai_description (Chatbot.init (Some Demo.raising)) Demo.copywriter
         Demo.describe_skardu) = 200.
Proof.
  apply (proj1 (description_endpoint_replies (Chatbot.init (Some Demo.raising))
                  Demo.copywriter Demo.describe_skardu)).
  exists "Skardu is a cold desert.". vm_compute. reflexivity.
Defined.

(** ** The chat endpoint *)

Section ChatEndpoint.
Import Db App Spec.

Lemma context_names_are_text (rows : list Destination) :
  forallb (fun d => match Py.get_default d "name" (Py.VStr "Unknown") with
                    | Py.VStr _ => true
                    | _ => false
                    end) (take 15 (map destination_context rows)) = true.
Proof.
  apply forallb_forall. intros d Hd.
  apply list_elem_of_In, (subseteq_take 15), list_elem_of_fmap in Hd.
  destruct Hd as (row & -> & _).
  unfold Py.get_default, destination_context.
  cbn [list_to_map foldr uncurry fst snd].
  rewrite lookup_insert_ne by discriminate. rewrite lookup_insert_eq. reflexivity.
Qed.

Lemma objects_Forall (items : list Py.value) :
  forallb (fun msg => match msg with Py.VDict _ => true | _ => false end) items = true
  <-> Forall (fun msg => exists fields, msg = Py.VDict fields) items.
Proof.
  rewrite forallb_forall, Forall_forall. split; intros Hall msg Hmsg.
  - apply list_elem_of_In in Hmsg. specialize (Hall msg Hmsg).
    destruct msg; try discriminate Hall. eexists. reflexivity.
  - apply list_elem_of_In in Hmsg. destruct (Hall msg Hmsg) as (fields & ->).
    reflexivity.
Qed.

(** With the context the endpoint builds, what [chat] reads before the
    call raises exactly when the history is not readable. *)
Lemma chat_messages_history (rows : list Destination) (history : Py.value) :
  (history_readable history ->
   Chatbot.chat_messages (map destination_context rows) history = Py.Ok tt)
  /\ (~ history_readable history ->
      exists e, Chatbot.chat_messages (map destination_context rows) history
                = Py.Raise e).
Proof.
  unfold Chatbot.chat_messages, history_readable.
  rewrite context_names_are_text. split.
  - intros [-> | (items & -> & Hitems)]; [reflexivity |].
    apply objects_Forall in Hitems. rewrite Hitems.
    destruct (Py.truthy (Py.VList items)); reflexivity.
  - intros Hbad.
    destruct (Py.truthy history) eqn:Htrue; [| contradiction Hbad; left; reflexivity].
    destruct history as [| | | | |items|]; try (eexists; reflexivity).
    destruct (forallb _ (Chatbot.last_n 10 items)) eqn:Hitems; [| eexists; reflexivity].
    contradiction Hbad. right. exists items. split; [reflexivity |].
    apply objects_Forall. exact Hitems.
Qed.

(** X24: The chat endpoint never writes.  It answers 200 exactly when its
    reply is a chat reply that succeeded.  Without a connection its reply
    does not depend on the database: the assistant is asked without context.
    For a message that is not blank and a chatbot that holds a client: when
    the history is readable and the provider answers every call with a
    text, the reply is 200 with that text, stripped; when the history is
    not readable, the reply is the canned one chosen by keyword, whatever
    the provider does, with 200 or 500 as that reply succeeded or not. *)
Theorem chat_endpoint_relays (chatbot : Chatbot.TravelChatbot) (req : Request)
    (db : Db.t) :
  let out := chat_with_ai chatbot req db in
  snd out = db
  /\ (snd (fst out) = 200
      <-> exists reply, fst (fst out) = Chat reply /\ Chatbot.success reply = true)
  /\ (pool req = false ->
      forall db2 : Db.t, fst (chat_with_ai chatbot req db2) = fst out)
  /\ (forall (create : Chatbot.Client) (user_message : string),
        Chatbot.unavailable chatbot = false -> Chatbot.client chatbot = Some create ->
        json req !! "message" = Some (Py.VStr user_message) ->
        Py.strip user_message <> "" ->
        (history_readable (Py.get_default (json req) "history" (Py.VList [])) ->
         forall (text : string) (calls : list Provider.ToolCall)
                (more : list Provider.Message),
           (forall call,
              create call
              = Provider.Returns
                  (Some {| Provider.choices :=
                             {| Provider.content := Some text;
                                Provider.tool_calls := calls |} :: more |})) ->
           out = ((Chat {| Chatbot.success := true; Chatbot.message := Py.strip text |},
                   200), db))
        /\ (~ history_readable (Py.get_default (json req) "history" (Py.VList [])) ->
            out = ((Chat (Chatbot.chat_fallback (Py.strip user_message)),
                    if Chatbot.success (Chatbot.chat_fallback (Py.strip user_message))
                    then 200 else 500), db))).
Proof.
  cbv zeta. split; [| split; [| split]].
  - unfold chat_with_ai. repeat case_match; reflexivity.
  - unfold chat_with_ai.
    destruct (Py.strip_value _) as [|user_message];
      [split; [discriminate | intros (r & Hr & _); discriminate Hr] |].
    destruct (negb (Py.truthy_str user_message));
      [split; [discriminate | intros (r & Hr & _); discriminate Hr] |].
    cbn [fst snd].
    destruct (Chatbot.success _) eqn:Hs.
    + split; [intros _; eexists; split; [reflexivity | exact Hs] | reflexivity].
    + split; [discriminate |].
      intros (r & Hr & Hok). injection Hr as <-. congruence.
  - intros Hpool db2. unfold chat_with_ai. rewrite Hpool.
    destruct (Py.strip_value _) as [|user_message]; [reflexivity |].
    destruct (negb (Py.truthy_str user_message)); reflexivity.
  - intros create user_message Hav Hclient Hmsg Hset.
    assert (Ht : Py.truthy_str (Py.strip user_message) = true)
      by (destruct (Py.strip user_message); [congruence | reflexivity]).
    assert (Hcontext : exists rows : list Destination,
              (if pool req
               then map destination_context (order_by_text d_name (destinations db))
               else []) = map destination_context rows).
    { destruct (pool req); [eexists; reflexivity | exists []; reflexivity]. }
    destruct Hcontext as (rows & Hrows).
    unfold chat_with_ai.
    replace (Py.get_default (json req) "message" (Py.VStr ""))
      with (Py.VStr user_message) by (unfold Py.get_default; rewrite Hmsg; reflexivity).
    cbn [Py.strip_value]. rewrite Ht. cbn [negb].
    unfold Chatbot.chat. rewrite Hav, strip_strip, Ht, Hclient.
    cbn [negb orb default from_option id]. rewrite Hrows.
    destruct (chat_messages_history rows
                (Py.get_default (json req) "history" (Py.VList []))) as [Hgood Hbad].
    split.
    + intros Hhistory text calls more Hcreate.
      rewrite (Hgood Hhistory), Hcreate. reflexivity.
    + intros Hhistory. destruct (Hbad Hhistory) as (e & ->). reflexivity.
Qed.

End ChatEndpoint.

(** The provider answers the greeting of the example; the same greeting
    with a history whose item is a text is answered 500 with the canned
    reply. *)
Lemma chat_endpoint_relays_witness :
  App.chat_with_ai
    (Chatbot.init (Some (fun _ => Demo.answering " Welcome aboard! "))) Demo.hello Demo.db
  = ((App.Chat {| Chatbot.success := true; Chatbot.message := "Welcome aboard!" |}, 200),
     Demo.db)
  /\ App.chat_with_ai
       (Chatbot.init (Some (fun _ => Demo.answering " Welcome aboard! ")))
       Demo.hello_with_text_history Demo.db
     = ((App.Chat {| Chatbot.success := false;
                     Chatbot.message := "Sorry, I encountered a temporary issue. Please try again in a moment." |},
         500), Demo.db).
Proof.
  split.
  - refine (proj1 (proj2 (proj2 (proj2
              (chat_endpoint_relays
                 (Chatbot.init (Some (fun _ => Demo.answering " Welcome aboard! ")))
                 Demo.hello Demo.db)))
              (fun _ => Demo.answering " Welcome aboard! ") "hello"
              eq_refl eq_refl eq_refl ltac:(vm_compute; discriminate))
            _ " Welcome aboard! " [] [] _).
    + left. reflexivity.
    + intros call. reflexivity.
  - apply (proj2 (proj2 (proj2 (proj2
             (chat_endpoint_relays
                (Chatbot.init (Some (fun _ => Demo.answering " Welcome aboard! ")))
                Demo.hello_with_text_history Demo.db)))
             (fun _ => Demo.answering " Welcome aboard! ") "hello"
             eq_refl eq_refl eq_refl ltac:(vm_compute; discriminate))).
    intros [Hfalse | (items & Hitems & Hall)].
    + vm_compute in Hfalse. discriminate Hfalse.
    + vm_compute in Hitems. injection Hitems as <-.
      apply Forall_cons in Hall. destruct Hall as [(fields & Hx) _].
      discriminate Hx.
Defined.

(** ** What the catalog lists *)

Section Listing.
Context `{Runtime}.
Import Db App Spec.

(** X25: The listing without a filter, when a connection is at hand, has every
    active package whose destination and vendor exist, joined with them,
    and is in ascending order of the destination's name. *)
Theorem active_package_listed (req : Request) (db : Db.t) (p : Package)
    (d : Destination) (vp : VendorProfile) :
  pool req = true -> args req !! "destination_id" = None ->
  p ∈ packages db -> p_is_active p = 1 ->
  d ∈ destinations db -> p_destination_id p = Some (d_destination_id d) ->
  vp ∈ vendor_profiles db -> p_vendor_id p = Some (vp_vendor_id vp) ->
  exists rows : list (Package * Destination * VendorProfile),
    get_packages req db = ((Packages (map package_dict rows), 200), db)
    /\ (p, d, vp) ∈ rows
    /\ Sorted (text_le (fun row => d_name (snd (fst row)))) rows
    /\ Py.VInt (p_package_id p) ∈ listed_ids (fst (fst (get_packages req db))).
Proof.
  intros Hpool Hall Hp Hactive Hd Hdest Hvp Hvendor.
  assert (Hrow : (p, d, vp) ∈ active_packages_joined db).
  { unfold active_packages_joined. apply list_elem_of_In.
    apply in_flat_map. exists p. split.
    { apply filter_In. split; [apply list_elem_of_In; exact Hp |].
      apply Z.eqb_eq. exact Hactive. }
    apply in_flat_map. exists d. split.
    { apply filter_In. split; [apply list_elem_of_In; exact Hd |].
      rewrite Hdest. cbn. apply Z.eqb_refl. }
    apply in_flat_map. exists vp. split.
    { apply filter_In. split; [apply list_elem_of_In; exact Hvp |].
      rewrite Hvendor. cbn. apply Z.eqb_refl. }
    left. reflexivity. }
  unfold get_packages, catalog_rows, order_by_text. rewrite Hpool, Hall.
  cbn [negb default from_option id Py.truthy_str fst snd listed_ids].
  eexists. split; [reflexivity |].
  assert (Hin : (p, d, vp) ∈ merge_sort (text_le (fun row => d_name (snd (fst row))))
                              (active_packages_joined db))
    by (rewrite merge_sort_Permutation; exact Hrow).
  split; [exact Hin |].
  split; [apply Sorted_merge_sort, text_le_total |].
  apply list_elem_of_fmap. exists (package_dict (p, d, vp)).
  split; [rewrite package_dict_id; reflexivity |].
  apply list_elem_of_fmap. exists (p, d, vp). split; [reflexivity | exact Hin].
Qed.

End Listing.

(** The package of the example database is listed. *)
Lemma active_package_listed_witness :
  Py.VInt 1 ∈ Spec.listed_ids
                (fst (fst (App.get_packages (H := Demo.runtime)
                             (Demo.request Demo.anonymous []) Demo.db))).
Proof.
  destruct (active_package_listed (H := Demo.runtime) (Demo.request Demo.anonymous [])
              Demo.db Demo.hunza_week Demo.hunza Demo.jinnah_profile)
    as (rows & _ & _ & _ & Hlisted).
  - reflexivity.
  - reflexivity.
  - cbn. apply list_elem_of_here.
  - reflexivity.
  - cbn. apply list_elem_of_here.
  - reflexivity.
  - cbn. apply list_elem_of_here.
  - reflexivity.
  - exact Hlisted.
Defined.
